(** * MCP-Github: command dispatch and request/response normalisation

    A shallow embedding of the GitHub tool server
    ([git_mcp2/mcp_server.py], [git_mcp1/backend/github_server.py]) and of
    its scripted client ([git_mcp2/mcp_client.py]).

    Python strings are modelled as their UTF-8 byte sequences ([string]);
    JSON values as [pyval]; exceptions as values of [exn] carried by the
    [result] monad; outbound HTTP traffic as the [Http] nodes of a small
    interaction tree [prog], which an environment answers call by call. *)

From Stdlib Require Import String Ascii List ZArith Lia Bool DecimalString.
Import ListNotations.
Open Scope string_scope.
Open Scope Z_scope.
Set Warnings "-register-all".

(* ===================================================================== *)
(** ** Python strings *)
(* ===================================================================== *)

Module PyStr.

Definition chr (n : nat) : ascii := ascii_of_nat n.
Definition str1 (c : ascii) : string := String c EmptyString.

Definition TAB : string := str1 (chr 9).
Definition LF : string := str1 (chr 10).
Definition CR : string := str1 (chr 13).
Definition SQ : ascii := chr 39.
Definition DQ : ascii := chr 34.
Definition BSL : ascii := chr 92.

(** UTF-8 continuation bytes are the bytes 10xxxxxx. *)
Definition is_cont (c : ascii) : bool :=
  let n := nat_of_ascii c in (128 <=? n)%nat && (n <? 192)%nat.

(** The code points of a string, each as its UTF-8 bytes: what Python
    sees when it iterates over, slices or measures a [str]. *)
Fixpoint chars_from (cur : string) (s : string) : list string :=
  match s with
  | EmptyString => [cur]
  | String c s' =>
      if is_cont c then chars_from (cur ++ str1 c) s'
      else cur :: chars_from (str1 c) s'
  end.

Definition chars (s : string) : list string :=
  match s with
  | EmptyString => []
  | String c s' => chars_from (str1 c) s'
  end.

(** [str.isspace] code points, as UTF-8 byte sequences: U+0009..U+000D,
    U+001C..U+0020, U+0085, U+00A0, U+1680, U+2000..U+200A, U+2028, U+2029,
    U+202F, U+205F, U+3000. *)
Definition is_space (cp : string) : bool :=
  match cp with
  | String c EmptyString =>
      let n := nat_of_ascii c in
      ((9 <=? n) && (n <=? 13) || (28 <=? n) && (n <=? 32))%nat
  | String a (String b EmptyString) =>
      (nat_of_ascii a =? 194)%nat &&
      ((nat_of_ascii b =? 133) || (nat_of_ascii b =? 160))%nat
  | String a (String b (String c EmptyString)) =>
      let x := nat_of_ascii a in
      let y := nat_of_ascii b in
      let z := nat_of_ascii c in
      ((x =? 225) && (y =? 154) && (z =? 128)
       || (x =? 226) && (y =? 128)
          && ((128 <=? z) && (z <=? 138) || (z =? 168) || (z =? 169) || (z =? 175))
       || (x =? 226) && (y =? 129) && (z =? 159)
       || (x =? 227) && (y =? 128) && (z =? 128))%nat
  | _ => false
  end.

(** [s.split()]: maximal runs of non-whitespace code points. *)
Fixpoint split_ws_from (cur : string) (cps : list string) : list string :=
  match cps with
  | [] => if (cur =? "")%string then [] else [cur]
  | cp :: rest =>
      if is_space cp
      then (if (cur =? "")%string then [] else [cur]) ++ split_ws_from "" rest
      else split_ws_from (cur ++ cp) rest
  end.

Definition split_ws (s : string) : list string := split_ws_from "" (chars s).

Fixpoint lstrip_cps (cps : list string) : list string :=
  match cps with
  | cp :: rest => if is_space cp then lstrip_cps rest else cps
  | [] => []
  end.

(** [s.strip()] *)
Definition strip (s : string) : string :=
  String.concat "" (rev (lstrip_cps (rev (lstrip_cps (chars s))))).

(** [s.lower()], exact wherever the result is compared with an ASCII
    constant: ASCII capitals are lowered, and the Kelvin sign U+212A (the
    one non-ASCII code point whose lowering is a lone ASCII letter) becomes
    [k]; other non-ASCII code points stay non-ASCII under Python's
    lowering and are left as they are. *)
Definition lower_ascii (c : ascii) : ascii :=
  let n := nat_of_ascii c in
  if ((65 <=? n) && (n <=? 90))%nat then ascii_of_nat (n + 32) else c.

Definition lower_cp (cp : string) : string :=
  match cp with
  | String c EmptyString => str1 (lower_ascii c)
  | String a (String b (String c EmptyString)) =>
      if ((nat_of_ascii a =? 226) && (nat_of_ascii b =? 132)
          && (nat_of_ascii c =? 170))%nat
      then "k" else cp
  | _ => cp
  end.

Definition lower (s : string) : string :=
  String.concat "" (map lower_cp (chars s)).

(** [sub in s] for strings. *)
Fixpoint contains (sub s : string) : bool :=
  if prefix sub s then true
  else match s with
       | EmptyString => false
       | String _ s' => contains sub s'
       end.

(** [s.replace(old, new)] for a non-empty [old]: the occurrences of [old]
    are found left to right without overlap.  [skip] counts the bytes of
    the occurrence being dropped. *)
Fixpoint replace_from (old new : string) (skip : nat) (s : string) : string :=
  match s with
  | EmptyString => EmptyString
  | String c s' =>
      match skip with
      | S k => replace_from old new k s'
      | O =>
          if prefix old s
          then new ++ replace_from old new (String.length old - 1) s'
          else String c (replace_from old new O s')
      end
  end.

(** For an empty [old] Python puts [new] before every code point and at
    the end. *)
Definition replace (old new s : string) : string :=
  match old with
  | EmptyString => new ++ String.concat "" (map (fun cp => cp ++ new) (chars s))
  | _ => replace_from old new O s
  end.

(** [s.split(sep)] for a one-byte separator. *)
Fixpoint split_on (sep : ascii) (s : string) : list string :=
  match s with
  | EmptyString => [EmptyString]
  | String c s' =>
      if Ascii.eqb c sep then EmptyString :: split_on sep s'
      else match split_on sep s' with
           | h :: t => String c h :: t
           | [] => [str1 c]
           end
  end.

(** Number of occurrences of a byte. *)
Fixpoint count_byte (sep : ascii) (s : string) : nat :=
  match s with
  | EmptyString => O
  | String c s' => (if Ascii.eqb c sep then 1 else 0) + count_byte sep s'
  end.

(** [s[:n]] *)
Definition take_chars (n : nat) (s : string) : string :=
  String.concat "" (firstn n (chars s)).

(** Decimal rendering of an [int]. *)
Definition of_Z (z : Z) : string := NilZero.string_of_int (Z.to_int z).

Definition of_nat (n : nat) : string := of_Z (Z.of_nat n).

Definition hex_digit (n : nat) : ascii :=
  if (n <? 10)%nat then chr (48 + n) else chr (87 + n).

(** [repr(s)] for a string: single quotes unless the string has a single
    quote and no double quote; backslash, the chosen quote, tab, newline
    and carriage return are escaped, the other ASCII control characters
    are written [\xNN].  Non-ASCII code points are taken to be printable
    and are kept. *)
Definition repr_byte (q : ascii) (c : ascii) : string :=
  let n := nat_of_ascii c in
  if Ascii.eqb c BSL then String BSL (str1 BSL)
  else if Ascii.eqb c q then String BSL (str1 q)
  else if (n =? 9)%nat then String BSL "t"
  else if (n =? 10)%nat then String BSL "n"
  else if (n =? 13)%nat then String BSL "r"
  else if ((n <? 32) || (n =? 127))%nat
       then String BSL (String "x" (String (hex_digit (n / 16)) (str1 (hex_digit (n mod 16)))))
  else str1 c.

Fixpoint repr_body (q : ascii) (s : string) : string :=
  match s with
  | EmptyString => EmptyString
  | String c s' => repr_byte q c ++ repr_body q s'
  end.

Definition repr (s : string) : string :=
  let q := if contains (str1 SQ) s && negb (contains (str1 DQ) s) then DQ else SQ in
  String q (repr_body q s ++ str1 q).

End PyStr.

(* ===================================================================== *)
(** ** Python values, exceptions and the dynamic operations the code uses *)
(* ===================================================================== *)

Module Py.
Import PyStr.

(** JSON-shaped values: what tool arguments and response bodies hold.
    Floating-point numbers are left out. *)
Inductive pyval : Type :=
| VNone
| VBool (b : bool)
| VInt (z : Z)
| VStr (s : string)
| VList (l : list pyval)
| VDict (d : list (string * pyval)).

(** A [dict] with string keys, in insertion order. *)
Definition pydict : Type := list (string * pyval).

Inductive exn : Type :=
| KeyError (key : string)
| AttributeError (msg : string)
| TypeError (msg : string)
| ValueError (msg : string)
| RequestError (msg : string)            (* httpx.RequestError *)
| OtherError (cls : string) (msg : string).

Inductive result (A : Type) : Type :=
| Ok (a : A)
| Err (e : exn).
Arguments Ok {A} a.
Arguments Err {A} e.

Definition rbind {A B : Type} (m : result A) (f : A -> result B) : result B :=
  match m with
  | Ok a => f a
  | Err e => Err e
  end.

Declare Scope result_scope.
Delimit Scope result_scope with result.
Bind Scope result_scope with result.
Notation "x <- m ;; k" := (rbind m%result (fun x => k%result))
  (at level 61, m at next level, right associativity) : result_scope.

Fixpoint mapM {A B : Type} (f : A -> result B) (l : list A) : result (list B) :=
  match l with
  | [] => Ok []
  | a :: l' =>
      match f a with
      | Err e => Err e
      | Ok b => match mapM f l' with
                | Err e => Err e
                | Ok bs => Ok (b :: bs)
                end
      end
  end.

(** [str(e)] *)
Definition str_exn (e : exn) : string :=
  match e with
  | KeyError k => repr k
  | AttributeError m | TypeError m | ValueError m | RequestError m => m
  | OtherError _ m => m
  end.

Definition type_name (v : pyval) : string :=
  match v with
  | VNone => "NoneType"
  | VBool _ => "bool"
  | VInt _ => "int"
  | VStr _ => "str"
  | VList _ => "list"
  | VDict _ => "dict"
  end.

(** [bool(v)] *)
Definition truthy (v : pyval) : bool :=
  match v with
  | VNone => false
  | VBool b => b
  | VInt z => negb (z =? 0)
  | VStr s => negb (s =? "")%string
  | VList l => match l with [] => false | _ => true end
  | VDict d => match d with [] => false | _ => true end
  end.

(** [a or b] *)
Definition py_or (a b : pyval) : pyval := if truthy a then a else b.

Fixpoint dict_get (d : pydict) (k : string) : option pyval :=
  match d with
  | [] => None
  | (k', v) :: d' => if (k' =? k)%string then Some v else dict_get d' k
  end.

(** [d[k] = v]: an existing key keeps its place. *)
Fixpoint dict_set (d : pydict) (k : string) (v : pyval) : pydict :=
  match d with
  | [] => [(k, v)]
  | (k', v') :: d' =>
      if (k' =? k)%string then (k, v) :: d' else (k', v') :: dict_set d' k v
  end.

Definition no_attribute (v : pyval) (attr : string) : exn :=
  AttributeError ("'" ++ type_name v ++ "' object has no attribute '" ++ attr ++ "'").

(** [v.get(k, dflt)] *)
Definition py_get_default (v : pyval) (k : string) (dflt : pyval) : result pyval :=
  match v with
  | VDict d => Ok (match dict_get d k with Some x => x | None => dflt end)
  | _ => Err (no_attribute v "get")
  end.

(** [v.get(k)] *)
Definition py_get (v : pyval) (k : string) : result pyval :=
  py_get_default v k VNone.

(** [v[k]] for a string key *)
Definition py_getitem (v : pyval) (k : string) : result pyval :=
  match v with
  | VDict d => match dict_get d k with
               | Some x => Ok x
               | None => Err (KeyError k)
               end
  | VList _ => Err (TypeError "list indices must be integers or slices, not str")
  | VStr _ => Err (TypeError "string indices must be integers, not 'str'")
  | _ => Err (TypeError ("'" ++ type_name v ++ "' object is not subscriptable"))
  end.

(** [k in v] for a string [k] *)
Definition py_contains (k : string) (v : pyval) : result bool :=
  match v with
  | VDict d => Ok (match dict_get d k with Some _ => true | None => false end)
  | VList l =>
      Ok (existsb (fun x => match x with VStr s => (s =? k)%string | _ => false end) l)
  | VStr s => Ok (contains k s)
  | _ => Err (TypeError ("argument of type '" ++ type_name v ++ "' is not iterable"))
  end.

(** The items a [for] loop over [v] visits. *)
Definition py_iter (v : pyval) : result (list pyval) :=
  match v with
  | VList l => Ok l
  | VDict d => Ok (map (fun kv => VStr (fst kv)) d)
  | VStr s => Ok (map VStr (chars s))
  | _ => Err (TypeError ("'" ++ type_name v ++ "' object is not iterable"))
  end.

(** [repr(v)] *)
Fixpoint py_repr (v : pyval) : string :=
  match v with
  | VNone => "None"
  | VBool b => if b then "True" else "False"
  | VInt z => of_Z z
  | VStr s => repr s
  | VList l => "[" ++ String.concat ", " (map py_repr l) ++ "]"
  | VDict d =>
      "{" ++ String.concat ", "
               (map (fun kv => match kv with
                               | (k, x) => repr k ++ ": " ++ py_repr x
                               end) d) ++ "}"
  end.

(** [str(v)], which is what an f-string field [{v}] renders. *)
Definition py_str (v : pyval) : string :=
  match v with
  | VStr s => s
  | _ => py_repr v
  end.

(** [sep.join(items)] *)
Fixpoint join_items (i : nat) (items : list pyval) : result (list string) :=
  match items with
  | [] => Ok []
  | VStr s :: rest =>
      match join_items (S i) rest with
      | Ok ss => Ok (s :: ss)
      | Err e => Err e
      end
  | x :: _ =>
      Err (TypeError ("sequence item " ++ of_nat i ++ ": expected str instance, "
                        ++ type_name x ++ " found"))
  end.

Definition py_join (sep : string) (items : list pyval) : result string :=
  match join_items O items with
  | Ok ss => Ok (String.concat sep ss)
  | Err e => Err e
  end.

(** [v[:7]] *)
Definition py_slice7 (v : pyval) : result pyval :=
  match v with
  | VStr s => Ok (VStr (take_chars 7 s))
  | VList l => Ok (VList (firstn 7 l))
  | VDict _ => Err (TypeError "unhashable type: 'slice'")
  | _ => Err (TypeError ("'" ++ type_name v ++ "' object is not subscriptable"))
  end.

(** [v.split('\n')[0]] *)
Definition py_first_line (v : pyval) : result pyval :=
  match v with
  | VStr s => Ok (VStr (hd EmptyString (split_on (chr 10) s)))
  | _ => Err (no_attribute v "split")
  end.

(** [len(v)] *)
Definition py_len (v : pyval) : result Z :=
  match v with
  | VStr s => Ok (Z.of_nat (List.length (chars s)))
  | VList l => Ok (Z.of_nat (List.length l))
  | VDict d => Ok (Z.of_nat (List.length d))
  | _ => Err (TypeError ("object of type '" ++ type_name v ++ "' has no len()"))
  end.

(** [base64.b64encode(bytes).decode()] *)
Definition b64_char (n : nat) : ascii :=
  if (n <? 26)%nat then chr (65 + n)
  else if (n <? 52)%nat then chr (71 + n)
  else if (n <? 62)%nat then chr (n - 4)
  else if (n =? 62)%nat then "+"%char else "/"%char.

Fixpoint b64encode (s : string) : string :=
  match s with
  | EmptyString => EmptyString
  | String a EmptyString =>
      let x := nat_of_ascii a in
      String (b64_char (x / 4)) (String (b64_char (x mod 4 * 16)) "==")
  | String a (String b EmptyString) =>
      let x := nat_of_ascii a in
      let y := nat_of_ascii b in
      String (b64_char (x / 4))
        (String (b64_char (x mod 4 * 16 + y / 16))
           (String (b64_char (y mod 16 * 4)) "="))
  | String a (String b (String c rest)) =>
      let x := nat_of_ascii a in
      let y := nat_of_ascii b in
      let z := nat_of_ascii c in
      String (b64_char (x / 4))
        (String (b64_char (x mod 4 * 16 + y / 16))
           (String (b64_char (y mod 16 * 4 + z / 64))
              (String (b64_char (z mod 64)) (b64encode rest))))
  end.

(** [v.encode()] followed by the base64 encoding above. *)
Definition py_b64encode (v : pyval) : result string :=
  match v with
  | VStr s => Ok (b64encode s)
  | _ => Err (no_attribute v "encode")
  end.

(** [int(s)] for a string, base 10, as CPython reads it.  The string is
    first brought to ASCII: code points below U+007F stay, the white space
    above becomes a blank, a decimal digit of another script its ASCII
    digit, and the first code point that is none of these becomes a
    question mark that ends the buffer.  The buffer is then read as C
    white space, a sign, digits with single underscores between them, and
    C white space again.  More than 4300 digits are refused (the default
    of [sys.set_int_max_str_digits]). *)
Definition digit_val (c : ascii) : option Z :=
  let n := nat_of_ascii c in
  if ((48 <=? n) && (n <=? 57))%nat then Some (Z.of_nat (n - 48)) else None.

(** The code point of a UTF-8 sequence. *)
Definition code_point (cp : string) : Z :=
  let byte c := Z.of_nat (nat_of_ascii c) in
  match cp with
  | String a EmptyString => byte a
  | String a (String b EmptyString) => (byte a mod 32) * 64 + byte b mod 64
  | String a (String b (String c EmptyString)) =>
      (byte a mod 16) * 4096 + (byte b mod 64) * 64 + byte c mod 64
  | String a (String b (String c (String d EmptyString))) =>
      (byte a mod 8) * 262144 + (byte b mod 64) * 4096 + (byte c mod 64) * 64
      + byte d mod 64
  | _ => -1
  end.

(** The zeros of the decimal digits (general category Nd) of Unicode 14.0,
    the database of CPython 3.11: each is followed by its digits one to
    nine. *)
Definition decimal_zeros : list Z :=
  [ 0x30; 0x660; 0x6F0; 0x7C0; 0x966; 0x9E6; 0xA66; 0xAE6; 0xB66; 0xBE6; 0xC66;
    0xCE6; 0xD66; 0xDE6; 0xE50; 0xED0; 0xF20; 0x1040; 0x1090; 0x17E0; 0x1810;
    0x1946; 0x19D0; 0x1A80; 0x1A90; 0x1B50; 0x1BB0; 0x1C40; 0x1C50; 0xA620;
    0xA8D0; 0xA900; 0xA9D0; 0xA9F0; 0xAA50; 0xABF0; 0xFF10; 0x104A0; 0x10D30;
    0x11066; 0x110F0; 0x11136; 0x111D0; 0x112F0; 0x11450; 0x114D0; 0x11650;
    0x116C0; 0x11730; 0x118E0; 0x11950; 0x11C50; 0x11D50; 0x11DA0; 0x16A60;
    0x16AC0; 0x16B50; 0x1D7CE; 0x1D7D8; 0x1D7E2; 0x1D7EC; 0x1D7F6; 0x1E140;
    0x1E2F0; 0x1E950; 0x1FBF0 ]%Z.

(** [Py_UNICODE_TODECIMAL] *)
Definition decimal_of (cp : string) : option Z :=
  let n := code_point cp in
  match filter (fun zero => (zero <=? n) && (n <? zero + 10)) decimal_zeros with
  | zero :: _ => Some (n - zero)
  | [] => None
  end.

(** [_PyUnicode_TransformDecimalAndSpaceToASCII] *)
Fixpoint transform_decimal_and_space (cps : list string) : string :=
  match cps with
  | [] => EmptyString
  | cp :: rest =>
      if code_point cp <? 127 then cp ++ transform_decimal_and_space rest
      else if is_space cp then String " " (transform_decimal_and_space rest)
      else match decimal_of cp with
           | Some d =>
               String (chr (48 + Z.to_nat d)) (transform_decimal_and_space rest)
           | None => "?"
           end
  end.

Fixpoint is_ascii (s : string) : bool :=
  match s with
  | EmptyString => true
  | String c s' => (nat_of_ascii c <? 128)%nat && is_ascii s'
  end.

Definition ascii_buffer (s : string) : string :=
  if is_ascii s then s else transform_decimal_and_space (chars s).

(** [Py_ISSPACE]: blank, tab, line feed, vertical tab, form feed and
    carriage return. *)
Definition is_c_space (c : ascii) : bool :=
  let n := nat_of_ascii c in ((9 <=? n) && (n <=? 13) || (n =? 32))%nat.

Fixpoint skip_c_space (s : string) : string :=
  match s with
  | String c s' => if is_c_space c then skip_c_space s' else s
  | EmptyString => s
  end.

(** The run of digits and underscores at the head of the buffer: its
    value, the number of its digits and what follows it; nothing when two
    underscores meet or an underscore ends the run. *)
Fixpoint scan_digits (acc digits : Z) (prev_underscore : bool) (s : string)
  : option (Z * Z * string) :=
  match s with
  | EmptyString => if prev_underscore then None else Some (acc, digits, s)
  | String c s' =>
      match digit_val c with
      | Some d => scan_digits (10 * acc + d) (digits + 1) false s'
      | None =>
          if Ascii.eqb c "_"
          then if prev_underscore then None else scan_digits acc digits true s'
          else if prev_underscore then None else Some (acc, digits, s)
      end
  end.

Definition max_str_digits : Z := 4300.

Definition py_int (s : string) : result Z :=
  let bad :=
    Err (ValueError ("invalid literal for int() with base 10: "
                     ++ take_chars 200 (repr s))) in
  let buffer := skip_c_space (ascii_buffer s) in
  let signed :=
    match buffer with
    | String "+" body => (false, body)
    | String "-" body => (true, body)
    | _ => (false, buffer)
    end in
  if prefix "_" (snd signed) then bad
  else match scan_digits 0 0 false (snd signed) with
       | None => bad
       | Some (z, digits, rest) =>
           if max_str_digits <? digits
           then Err (ValueError
                       ("Exceeds the limit (" ++ of_Z max_str_digits
                        ++ " digits) for integer string conversion: value has "
                        ++ of_Z digits
                        ++ " digits; use sys.set_int_max_str_digits() to "
                        ++ "increase the limit"))
           else if digits =? 0 then bad
           else match skip_c_space rest with
                | EmptyString => Ok (if fst signed then - z else z)
                | _ => bad
                end
       end.

End Py.

(* ===================================================================== *)
(** ** Outbound HTTP calls *)
(* ===================================================================== *)

Module Http.
Import PyStr Py.

Inductive http_method : Type := GET | POST | PATCH | PUT.

(** One call of [httpx.AsyncClient]: the method, the URL and the keyword
    arguments [headers], [params] and [json]. *)
Record request : Type := mkRequest {
  method : http_method;
  url : string;
  headers : list (string * string);
  params : option pydict;
  json : option pyval
}.

(** What the handlers read of an [httpx.Response]: [status_code], and
    [json()], which raises when the body is not JSON. *)
Record response : Type := mkResponse {
  status_code : Z;
  json_body : result pyval
}.

(** A computation that returns, raises, or issues a call and goes on with
    its outcome (a response, or the exception the call raised). *)
Inductive prog (A : Type) : Type :=
| Ret (a : A)
| Raise (e : exn)
| Http (r : request) (k : result response -> prog A).
Arguments Ret {A} a.
Arguments Raise {A} e.
Arguments Http {A} r k.

Fixpoint bind {A B : Type} (m : prog A) (f : A -> prog B) : prog B :=
  match m with
  | Ret a => f a
  | Raise e => Raise e
  | Http r k => Http r (fun o => bind (k o) f)
  end.

(** [try: m  except Exception as e: h e] *)
Fixpoint try_except {A : Type} (m : prog A) (h : exn -> prog A) : prog A :=
  match m with
  | Ret a => Ret a
  | Raise e => h e
  | Http r k => Http r (fun o => try_except (k o) h)
  end.

(** A computation without calls. *)
Definition pure {A : Type} (m : result A) : prog A :=
  match m with
  | Ok a => Ret a
  | Err e => Raise e
  end.

(** [await client.<method>(url, ...)] *)
Definition call (r : request) : prog response :=
  Http r (fun o => pure o).

Declare Scope prog_scope.
Delimit Scope prog_scope with prog.
Bind Scope prog_scope with prog.
Notation "x <- m ;; k" := (bind m%prog (fun x => k%prog))
  (at level 61, m at next level, right associativity) : prog_scope.

(** The remote side: the outcome of a call, given the calls made before
    it. *)
Definition environment : Type := list request -> request -> result response.

(** Running a computation against an environment: the calls issued, in
    order, and the outcome. *)
Fixpoint run_from {A : Type} (env : environment) (hist : list request)
         (p : prog A) : list request * result A :=
  match p with
  | Ret a => (hist, Ok a)
  | Raise e => (hist, Err e)
  | Http r k => run_from env (hist ++ [r]) (k (env hist r))
  end.

Definition run {A : Type} (env : environment) (p : prog A)
  : list request * result A :=
  run_from env [] p.

Definition calls {A : Type} (env : environment) (p : prog A) : list request :=
  fst (run env p).

Definition outcome {A : Type} (env : environment) (p : prog A) : result A :=
  snd (run env p).

End Http.

(* ===================================================================== *)
(** ** git_mcp2/mcp_server.py *)
(* ===================================================================== *)

Module Server.
Import PyStr Py Http.
Open Scope prog_scope.

(** [types.TextContent(type="text", text=...)] *)
Record TextContent : Type := mkTextContent {
  type : string;
  text : string
}.

Definition text_content (s : string) : TextContent :=
  {| type := "text"; text := s |}.

Definition _parse_repo_string (repo_str : pyval) : result (pyval * pyval) :=
  if negb (truthy repo_str) then Ok (VNone, VNone)
  else match repo_str with
       | VStr s =>
           let parts := split_on "/" s in
           if (List.length parts =? 2)%nat
           then Ok (VStr (nth 0 parts ""), VStr (nth 1 parts ""))
           else Ok (VNone, repo_str)
       | _ => Err (no_attribute repo_str "split")
       end.

Definition _extract_arguments (arguments : pyval) : result pyval :=
  if negb (truthy arguments) then Ok (VDict [])
  else (wrapped <- py_contains "arguments" arguments ;;
        if wrapped then py_getitem arguments "arguments"
        else Ok arguments)%result.

(** [status not in accepted] *)
Definition status_not_in (status : Z) (accepted : list Z) : bool :=
  negb (existsb (Z.eqb status) accepted).

(** The two lines every handler runs on a refused call:
    [error = response.json().get("message", dflt)] and the return of
    [f"❌ {error}"]. *)
Definition remote_error (resp : response) (dflt : string)
  : result (list TextContent) :=
  (body <- json_body resp ;;
   error <- py_get_default body "message" (VStr dflt) ;;
   Ok [text_content ("❌ " ++ py_str error)])%result.

(** [except Exception as e: return [TextContent(text=f"❌ {str(e)}")]] *)
Definition on_exception (e : exn) : prog (list TextContent) :=
  Ret [text_content ("❌ " ++ str_exn e)].

(** [if arguments.get(key): params[name] = arguments[key]] *)
Definition set_if_given (arguments : pyval) (key name : string) (d : pydict)
  : result pydict :=
  (given <- py_get arguments key ;;
   if truthy given
   then (v <- py_getitem arguments key ;; Ok (dict_set d name v))
   else Ok d)%result.

Section Handlers.

(** [GITHUB_TOKEN = os.getenv("GITHUB_TOKEN")], read once at start-up. *)
Variable GITHUB_TOKEN : option string.

(** [base64.b64decode(v).decode("utf-8")], the standard library's decoder,
    which raises on input it cannot decode. *)
Variable b64decode_utf8 : pyval -> result string.

(** [not GITHUB_TOKEN] *)
Definition no_token : bool :=
  match GITHUB_TOKEN with
  | None => true
  | Some t => (t =? "")%string
  end.

Definition token_required : list TextContent :=
  [text_content "❌ GitHub token required for this operation"].

Definition invalid_repo : list TextContent :=
  [text_content "❌ Invalid repo format. Use 'owner/repo'"].

Definition _get_headers : list (string * string) :=
  let headers := [("Accept", "application/vnd.github.v3+json")] in
  match GITHUB_TOKEN with
  | Some t => if (t =? "")%string then headers
              else app headers [("Authorization", "token " ++ t)]
  | None => headers
  end.

Definition api : string := "https://api.github.com".

(* ---------------------------- repositories --------------------------- *)

Definition list_repositories (name : string) (arguments : pyval)
  : prog (list TextContent) :=
  username <- pure (py_get arguments "username") ;;
  if negb (truthy username)
  then Ret [text_content "❌ Missing username parameter"]
  else
    try_except
      (resp <- call (mkRequest GET (api ++ "/users/" ++ py_str username ++ "/repos")
                       _get_headers (Some [("per_page", VInt 100)]) None) ;;
       if negb (status_code resp =? 200)
       then pure (remote_error resp ("Error: " ++ of_Z (status_code resp)))
       else pure (
         data <- json_body resp ;;
         if negb (truthy data)
         then Ok [text_content "No repositories found"]
         else
           items <- py_iter data ;;
           repo_results <- mapM (fun repo =>
             full_name <- py_getitem repo "full_name" ;;
             visibility <- py_get_default repo "visibility" (VStr "public") ;;
             stars <- py_get_default repo "stargazers_count" (VInt 0) ;;
             description <- py_get repo "description" ;;
             Ok (py_str full_name ++ " (" ++ py_str visibility ++ ") - "
                 ++ "⭐ " ++ py_str stars ++ " - "
                 ++ py_str (py_or description (VStr "No description")))) items ;;
           Ok [text_content (String.concat (LF ++ LF) repo_results)]))
      on_exception.

Definition get_repo_details (name : string) (arguments : pyval)
  : prog (list TextContent) :=
  repo <- pure (py_get arguments "repo") ;;
  parsed <- pure (_parse_repo_string repo) ;;
  let (owner, repo_name) := parsed in
  if negb (truthy owner) || negb (truthy repo_name)
  then Ret invalid_repo
  else
    try_except
      (resp <- call (mkRequest GET (api ++ "/repos/" ++ py_str owner ++ "/" ++ py_str repo_name)
                       _get_headers None None) ;;
       if negb (status_code resp =? 200)
       then pure (remote_error resp (of_Z (status_code resp)))
       else pure (
         data <- json_body resp ;;
         full_name <- py_get data "full_name" ;;
         description <- py_get data "description" ;;
         private <- py_get data "private" ;;
         html_url <- py_get data "html_url" ;;
         stars <- py_get data "stargazers_count" ;;
         forks <- py_get data "forks_count" ;;
         open_issues <- py_get data "open_issues_count" ;;
         language <- py_get data "language" ;;
         created <- py_get data "created_at" ;;
         updated <- py_get data "updated_at" ;;
         default_branch <- py_get data "default_branch" ;;
         Ok [text_content (
           "Repository: " ++ py_str full_name ++ LF
           ++ "Description: " ++ py_str (py_or description (VStr "No description")) ++ LF
           ++ "Private: " ++ py_str private ++ LF
           ++ "URL: " ++ py_str html_url ++ LF
           ++ "Stars: ⭐ " ++ py_str stars ++ LF
           ++ "Forks: 🔱 " ++ py_str forks ++ LF
           ++ "Open Issues: " ++ py_str open_issues ++ LF
           ++ "Language: " ++ py_str (py_or language (VStr "N/A")) ++ LF
           ++ "Created: " ++ py_str created ++ LF
           ++ "Updated: " ++ py_str updated ++ LF
           ++ "Default Branch: " ++ py_str default_branch)]))
      on_exception.

Definition search_repositories (name : string) (arguments : pyval)
  : prog (list TextContent) :=
  query <- pure (py_get arguments "query") ;;
  if negb (truthy query)
  then Ret [text_content "❌ Missing query parameter"]
  else
    params <- pure (
      per_page <- py_get_default arguments "per_page" (VInt 30) ;;
      p <- set_if_given arguments "sort" "sort" [("q", query); ("per_page", per_page)] ;;
      set_if_given arguments "order" "order" p) ;;
    try_except
      (resp <- call (mkRequest GET (api ++ "/search/repositories")
                       _get_headers (Some params) None) ;;
       if negb (status_code resp =? 200)
       then pure (remote_error resp (of_Z (status_code resp)))
       else pure (
         data <- json_body resp ;;
         found <- py_get_default data "items" (VList []) ;;
         items <- py_iter found ;;
         results <- mapM (fun repo =>
           full_name <- py_getitem repo "full_name" ;;
           stars <- py_getitem repo "stargazers_count" ;;
           description <- py_get repo "description" ;;
           Ok (py_str full_name ++ " - ⭐ " ++ py_str stars ++ " - "
               ++ py_str (py_or description (VStr "No description")))) items ;;
         total <- py_get_default data "total_count" (VInt 0) ;;
         let header := "Found " ++ py_str total ++ " repositories (showing "
                       ++ of_nat (List.length results) ++ "):" ++ LF ++ LF in
         Ok [text_content (header ++ String.concat LF results)]))
      on_exception.

Definition create_repository (name : string) (arguments : pyval)
  : prog (list TextContent) :=
  if no_token then Ret token_required
  else
    repo_name <- pure (py_get arguments "name") ;;
    if negb (truthy repo_name)
    then Ret [text_content "❌ Missing repository name"]
    else
      data <- pure (
        description <- py_get_default arguments "description" (VStr "") ;;
        private <- py_get_default arguments "private" (VBool false) ;;
        auto_init <- py_get_default arguments "auto_init" (VBool true) ;;
        Ok (VDict [("name", repo_name); ("description", description);
                   ("private", private); ("auto_init", auto_init)])) ;;
      try_except
        (resp <- call (mkRequest POST (api ++ "/user/repos")
                         _get_headers None (Some data)) ;;
         if status_not_in (status_code resp) [200; 201]
         then pure (remote_error resp (of_Z (status_code resp)))
         else pure (
           repo <- json_body resp ;;
           html_url <- py_getitem repo "html_url" ;;
           Ok [text_content ("✅ Repository created: " ++ py_str html_url)]))
        on_exception.

Definition fork_repository (name : string) (arguments : pyval)
  : prog (list TextContent) :=
  if no_token then Ret token_required
  else
    repo <- pure (py_get arguments "repo") ;;
    parsed <- pure (_parse_repo_string repo) ;;
    let (owner, repo_name) := parsed in
    if negb (truthy owner) || negb (truthy repo_name)
    then Ret invalid_repo
    else
      try_except
        (resp <- call (mkRequest POST
                         (api ++ "/repos/" ++ py_str owner ++ "/" ++ py_str repo_name ++ "/forks")
                         _get_headers None None) ;;
         if status_not_in (status_code resp) [200; 202]
         then pure (remote_error resp (of_Z (status_code resp)))
         else pure (
           fork <- json_body resp ;;
           html_url <- py_getitem fork "html_url" ;;
           Ok [text_content ("✅ Repository forked: " ++ py_str html_url)]))
        on_exception.

(* ------------------------------- issues ------------------------------ *)

(** The block appended for one issue. *)
Definition issue_block (issue : pyval) : result string :=
  (labels_v <- py_get_default issue "labels" (VList []) ;;
   label_items <- py_iter labels_v ;;
   names <- mapM (fun l => py_getitem l "name") label_items ;;
   labels <- py_join ", " names ;;
   number <- py_getitem issue "number" ;;
   title <- py_getitem issue "title" ;;
   state <- py_getitem issue "state" ;;
   html_url <- py_getitem issue "html_url" ;;
   Ok ("#" ++ py_str number ++ " - " ++ py_str title ++ LF
       ++ "  State: " ++ py_str state ++ " | Labels: "
       ++ py_str (py_or (VStr labels) (VStr "None")) ++ LF
       ++ "  URL: " ++ py_str html_url))%result.

(** One turn of the loop over [issues]: [None] for an entry that is a
    pull request (it carries the key [pull_request]) and is skipped. *)
Definition format_issue (issue : pyval) : result (option string) :=
  (is_pr <- py_contains "pull_request" issue ;;
   if is_pr then Ok None
   else (block <- issue_block issue ;; Ok (Some block)))%result.

(** The blocks appended to [results], in order. *)
Fixpoint appended (blocks : list (option string)) : list string :=
  match blocks with
  | [] => []
  | Some b :: rest => b :: appended rest
  | None :: rest => appended rest
  end.

Definition list_issues (name : string) (arguments : pyval)
  : prog (list TextContent) :=
  repo <- pure (py_get arguments "repo") ;;
  parsed <- pure (_parse_repo_string repo) ;;
  let (owner, repo_name) := parsed in
  if negb (truthy owner) || negb (truthy repo_name)
  then Ret invalid_repo
  else
    params <- pure (
      state <- py_get_default arguments "state" (VStr "open") ;;
      per_page <- py_get_default arguments "per_page" (VInt 30) ;;
      set_if_given arguments "labels" "labels"
        [("state", state); ("per_page", per_page)]) ;;
    try_except
      (resp <- call (mkRequest GET
                       (api ++ "/repos/" ++ py_str owner ++ "/" ++ py_str repo_name ++ "/issues")
                       _get_headers (Some params) None) ;;
       if negb (status_code resp =? 200)
       then pure (remote_error resp (of_Z (status_code resp)))
       else pure (
         issues <- json_body resp ;;
         if negb (truthy issues)
         then Ok [text_content "No issues found"]
         else
           items <- py_iter issues ;;
           blocks <- mapM format_issue items ;;
           Ok [text_content (String.concat (LF ++ LF) (appended blocks))]))
      on_exception.

Definition create_issue (name : string) (arguments : pyval)
  : prog (list TextContent) :=
  if no_token then Ret token_required
  else
    repo <- pure (py_get arguments "repo") ;;
    parsed <- pure (_parse_repo_string repo) ;;
    let (owner, repo_name) := parsed in
    if negb (truthy owner) || negb (truthy repo_name)
    then Ret invalid_repo
    else
      title <- pure (py_get arguments "title") ;;
      if negb (truthy title)
      then Ret [text_content "❌ Missing title parameter"]
      else
        data <- pure (
          body <- py_get_default arguments "body" (VStr "") ;;
          d <- set_if_given arguments "labels" "labels"
                 [("title", title); ("body", body)] ;;
          set_if_given arguments "assignees" "assignees" d) ;;
        try_except
          (resp <- call (mkRequest POST
                           (api ++ "/repos/" ++ py_str owner ++ "/" ++ py_str repo_name ++ "/issues")
                           _get_headers None (Some (VDict data))) ;;
           if status_not_in (status_code resp) [200; 201]
           then pure (remote_error resp (of_Z (status_code resp)))
           else pure (
             issue <- json_body resp ;;
             number <- py_getitem issue "number" ;;
             html_url <- py_getitem issue "html_url" ;;
             Ok [text_content ("✅ Issue created: #" ++ py_str number ++ " - "
                               ++ py_str html_url)]))
          on_exception.

Definition update_issue (name : string) (arguments : pyval)
  : prog (list TextContent) :=
  if no_token then Ret token_required
  else
    repo <- pure (py_get arguments "repo") ;;
    parsed <- pure (_parse_repo_string repo) ;;
    let (owner, repo_name) := parsed in
    issue_number <- pure (py_get arguments "issue_number") ;;
    if negb (truthy owner) || negb (truthy repo_name)
    then Ret invalid_repo
    else if negb (truthy issue_number)
    then Ret [text_content "❌ Missing issue_number parameter"]
    else
      data <- pure (
        d1 <- set_if_given arguments "title" "title" [] ;;
        d2 <- set_if_given arguments "body" "body" d1 ;;
        d3 <- set_if_given arguments "state" "state" d2 ;;
        set_if_given arguments "labels" "labels" d3) ;;
      try_except
        (resp <- call (mkRequest PATCH
                         (api ++ "/repos/" ++ py_str owner ++ "/" ++ py_str repo_name
                          ++ "/issues/" ++ py_str issue_number)
                         _get_headers None (Some (VDict data))) ;;
         if negb (status_code resp =? 200)
         then pure (remote_error resp (of_Z (status_code resp)))
         else pure (
           issue <- json_body resp ;;
           number <- py_getitem issue "number" ;;
           html_url <- py_getitem issue "html_url" ;;
           Ok [text_content ("✅ Issue updated: #" ++ py_str number ++ " - "
                             ++ py_str html_url)]))
        on_exception.

(* ---------------------------- pull requests -------------------------- *)

Definition list_pull_requests (name : string) (arguments : pyval)
  : prog (list TextContent) :=
  repo <- pure (py_get arguments "repo") ;;
  parsed <- pure (_parse_repo_string repo) ;;
  let (owner, repo_name) := parsed in
  if negb (truthy owner) || negb (truthy repo_name)
  then Ret invalid_repo
  else
    params <- pure (
      state <- py_get_default arguments "state" (VStr "open") ;;
      per_page <- py_get_default arguments "per_page" (VInt 30) ;;
      Ok [("state", state); ("per_page", per_page)]) ;;
    try_except
      (resp <- call (mkRequest GET
                       (api ++ "/repos/" ++ py_str owner ++ "/" ++ py_str repo_name ++ "/pulls")
                       _get_headers (Some params) None) ;;
       if negb (status_code resp =? 200)
       then pure (remote_error resp (of_Z (status_code resp)))
       else pure (
         prs <- json_body resp ;;
         if negb (truthy prs)
         then Ok [text_content "No pull requests found"]
         else
           items <- py_iter prs ;;
           results <- mapM (fun pr =>
             number <- py_getitem pr "number" ;;
             title <- py_getitem pr "title" ;;
             head <- py_getitem pr "head" ;;
             head_ref <- py_getitem head "ref" ;;
             base <- py_getitem pr "base" ;;
             base_ref <- py_getitem base "ref" ;;
             state <- py_getitem pr "state" ;;
             draft <- py_get_default pr "draft" (VBool false) ;;
             html_url <- py_getitem pr "html_url" ;;
             Ok ("#" ++ py_str number ++ " - " ++ py_str title ++ LF
                 ++ "  " ++ py_str head_ref ++ " → " ++ py_str base_ref ++ LF
                 ++ "  State: " ++ py_str state ++ " | Draft: " ++ py_str draft ++ LF
                 ++ "  URL: " ++ py_str html_url)) items ;;
           Ok [text_content (String.concat (LF ++ LF) results)]))
      on_exception.

(** [for field in required: if not arguments.get(field): return ...] *)
Fixpoint first_missing (arguments : pyval) (required : list string)
  : result (option string) :=
  match required with
  | [] => Ok None
  | field :: rest =>
      (v <- py_get arguments field ;;
       if negb (truthy v) then Ok (Some field)
       else first_missing arguments rest)%result
  end.

Definition create_pull_request (name : string) (arguments : pyval)
  : prog (list TextContent) :=
  if no_token then Ret token_required
  else
    repo <- pure (py_get arguments "repo") ;;
    parsed <- pure (_parse_repo_string repo) ;;
    let (owner, repo_name) := parsed in
    if negb (truthy owner) || negb (truthy repo_name)
    then Ret invalid_repo
    else
      missing <- pure (first_missing arguments ["title"; "head"; "base"]) ;;
      match missing with
      | Some field => Ret [text_content ("❌ Missing " ++ field ++ " parameter")]
      | None =>
          data <- pure (
            title <- py_getitem arguments "title" ;;
            head <- py_getitem arguments "head" ;;
            base <- py_getitem arguments "base" ;;
            body <- py_get_default arguments "body" (VStr "") ;;
            draft <- py_get_default arguments "draft" (VBool false) ;;
            Ok (VDict [("title", title); ("head", head); ("base", base);
                       ("body", body); ("draft", draft)])) ;;
          try_except
            (resp <- call (mkRequest POST
                             (api ++ "/repos/" ++ py_str owner ++ "/" ++ py_str repo_name ++ "/pulls")
                             _get_headers None (Some data)) ;;
             if status_not_in (status_code resp) [200; 201]
             then pure (remote_error resp (of_Z (status_code resp)))
             else pure (
               pr <- json_body resp ;;
               number <- py_getitem pr "number" ;;
               html_url <- py_getitem pr "html_url" ;;
               Ok [text_content ("✅ Pull request created: #" ++ py_str number ++ " - "
                                 ++ py_str html_url)]))
            on_exception
      end.

(* --------------------------- files and content ----------------------- *)

Definition get_file_contents (name : string) (arguments : pyval)
  : prog (list TextContent) :=
  repo <- pure (py_get arguments "repo") ;;
  parsed <- pure (_parse_repo_string repo) ;;
  let (owner, repo_name) := parsed in
  path <- pure (py_get arguments "path") ;;
  if negb (truthy owner) || negb (truthy repo_name)
  then Ret invalid_repo
  else if negb (truthy path)
  then Ret [text_content "❌ Missing path parameter"]
  else
    params <- pure (set_if_given arguments "branch" "ref" []) ;;
    try_except
      (resp <- call (mkRequest GET
                       (api ++ "/repos/" ++ py_str owner ++ "/" ++ py_str repo_name
                        ++ "/contents/" ++ py_str path)
                       _get_headers (Some params) None) ;;
       if negb (status_code resp =? 200)
       then pure (remote_error resp (of_Z (status_code resp)))
       else pure (
         data <- json_body resp ;;
         encoded <- py_getitem data "content" ;;
         content <- b64decode_utf8 encoded ;;
         size <- py_getitem data "size" ;;
         sha <- py_getitem data "sha" ;;
         Ok [text_content ("File: " ++ py_str path ++ LF
                           ++ "Size: " ++ py_str size ++ " bytes" ++ LF
                           ++ "SHA: " ++ py_str sha ++ LF ++ LF ++ content)]))
      on_exception.

Definition create_or_update_file (name : string) (arguments : pyval)
  : prog (list TextContent) :=
  if no_token then Ret token_required
  else
    repo <- pure (py_get arguments "repo") ;;
    parsed <- pure (_parse_repo_string repo) ;;
    let (owner, repo_name) := parsed in
    path <- pure (py_get arguments "path") ;;
    content <- pure (py_get arguments "content") ;;
    message <- pure (py_get arguments "message") ;;
    branch <- pure (py_get arguments "branch") ;;
    if negb (truthy owner) || negb (truthy repo_name)
    then Ret invalid_repo
    else if negb (forallb truthy [path; content; message; branch])
    then Ret [text_content "❌ Missing required parameters"]
    else
      encoded_content <- pure (py_b64encode content) ;;
      data <- pure (set_if_given arguments "sha" "sha"
                      [("message", message); ("content", VStr encoded_content);
                       ("branch", branch)]) ;;
      try_except
        (resp <- call (mkRequest PUT
                         (api ++ "/repos/" ++ py_str owner ++ "/" ++ py_str repo_name
                          ++ "/contents/" ++ py_str path)
                         _get_headers None (Some (VDict data))) ;;
         if status_not_in (status_code resp) [200; 201]
         then pure (remote_error resp (of_Z (status_code resp)))
         else pure (
           result <- json_body resp ;;
           sha <- py_get arguments "sha" ;;
           content_info <- py_getitem result "content" ;;
           html_url <- py_getitem content_info "html_url" ;;
           Ok [text_content ("✅ File " ++ (if truthy sha then "updated" else "created")
                             ++ ": " ++ py_str html_url)]))
        on_exception.

(* ------------------------------ branches ----------------------------- *)

Definition list_branches (name : string) (arguments : pyval)
  : prog (list TextContent) :=
  repo <- pure (py_get arguments "repo") ;;
  parsed <- pure (_parse_repo_string repo) ;;
  let (owner, repo_name) := parsed in
  if negb (truthy owner) || negb (truthy repo_name)
  then Ret invalid_repo
  else
    per_page <- pure (py_get_default arguments "per_page" (VInt 30)) ;;
    try_except
      (resp <- call (mkRequest GET
                       (api ++ "/repos/" ++ py_str owner ++ "/" ++ py_str repo_name ++ "/branches")
                       _get_headers (Some [("per_page", per_page)]) None) ;;
       if negb (status_code resp =? 200)
       then pure (remote_error resp (of_Z (status_code resp)))
       else pure (
         branches <- json_body resp ;;
         if negb (truthy branches)
         then Ok [text_content "No branches found"]
         else
           items <- py_iter branches ;;
           results <- mapM (fun branch =>
             is_protected <- py_get branch "protected" ;;
             let protected := if truthy is_protected then "🔒" else "" in
             branch_name <- py_getitem branch "name" ;;
             commit <- py_getitem branch "commit" ;;
             sha <- py_getitem commit "sha" ;;
             short <- py_slice7 sha ;;
             Ok (protected ++ " " ++ py_str branch_name
                 ++ " (SHA: " ++ py_str short ++ ")")) items ;;
           Ok [text_content (String.concat LF results)]))
      on_exception.

Definition create_branch (name : string) (arguments : pyval)
  : prog (list TextContent) :=
  if no_token then Ret token_required
  else
    repo <- pure (py_get arguments "repo") ;;
    parsed <- pure (_parse_repo_string repo) ;;
    let (owner, repo_name) := parsed in
    branch <- pure (py_get arguments "branch") ;;
    if negb (truthy owner) || negb (truthy repo_name)
    then Ret invalid_repo
    else if negb (truthy branch)
    then Ret [text_content "❌ Missing branch parameter"]
    else
      try_except
        (from_branch <- pure (py_get_default arguments "from_branch" (VStr "main")) ;;
         ref_response <- call (mkRequest GET
                                 (api ++ "/repos/" ++ py_str owner ++ "/" ++ py_str repo_name
                                  ++ "/git/ref/heads/" ++ py_str from_branch)
                                 _get_headers None None) ;;
         if negb (status_code ref_response =? 200)
         then pure (remote_error ref_response (of_Z (status_code ref_response)))
         else
           sha <- pure (ref <- json_body ref_response ;;
                        object <- py_getitem ref "object" ;;
                        py_getitem object "sha") ;;
           let data := VDict [("ref", VStr ("refs/heads/" ++ py_str branch));
                              ("sha", sha)] in
           resp <- call (mkRequest POST
                           (api ++ "/repos/" ++ py_str owner ++ "/" ++ py_str repo_name
                            ++ "/git/refs")
                           _get_headers None (Some data)) ;;
           if status_not_in (status_code resp) [200; 201]
           then pure (remote_error resp (of_Z (status_code resp)))
           else Ret [text_content ("✅ Branch '" ++ py_str branch ++ "' created from '"
                                   ++ py_str from_branch ++ "'")])
        on_exception.

(* ------------------------------- commits ----------------------------- *)

Definition list_commits (name : string) (arguments : pyval)
  : prog (list TextContent) :=
  repo <- pure (py_get arguments "repo") ;;
  parsed <- pure (_parse_repo_string repo) ;;
  let (owner, repo_name) := parsed in
  if negb (truthy owner) || negb (truthy repo_name)
  then Ret invalid_repo
  else
    params <- pure (
      per_page <- py_get_default arguments "per_page" (VInt 30) ;;
      set_if_given arguments "branch" "sha" [("per_page", per_page)]) ;;
    try_except
      (resp <- call (mkRequest GET
                       (api ++ "/repos/" ++ py_str owner ++ "/" ++ py_str repo_name ++ "/commits")
                       _get_headers (Some params) None) ;;
       if negb (status_code resp =? 200)
       then pure (remote_error resp (of_Z (status_code resp)))
       else pure (
         commits <- json_body resp ;;
         if negb (truthy commits)
         then Ok [text_content "No commits found"]
         else
           items <- py_iter commits ;;
           results <- mapM (fun commit =>
             full_sha <- py_getitem commit "sha" ;;
             sha <- py_slice7 full_sha ;;
             info <- py_getitem commit "commit" ;;
             full_message <- py_getitem info "message" ;;
             message <- py_first_line full_message ;;
             info_a <- py_getitem commit "commit" ;;
             author_a <- py_getitem info_a "author" ;;
             author <- py_getitem author_a "name" ;;
             info_d <- py_getitem commit "commit" ;;
             author_d <- py_getitem info_d "author" ;;
             date <- py_getitem author_d "date" ;;
             Ok (py_str sha ++ " - " ++ py_str message ++ LF
                 ++ "  by " ++ py_str author ++ " on " ++ py_str date)) items ;;
           Ok [text_content (String.concat (LF ++ LF) results)]))
      on_exception.

(* -------------------------------- search ----------------------------- *)

Definition search_code (name : string) (arguments : pyval)
  : prog (list TextContent) :=
  query <- pure (py_get arguments "query") ;;
  if negb (truthy query)
  then Ret [text_content "❌ Missing query parameter"]
  else
    per_page <- pure (py_get_default arguments "per_page" (VInt 30)) ;;
    try_except
      (resp <- call (mkRequest GET (api ++ "/search/code") _get_headers
                       (Some [("q", query); ("per_page", per_page)]) None) ;;
       if negb (status_code resp =? 200)
       then pure (remote_error resp (of_Z (status_code resp)))
       else pure (
         data <- json_body resp ;;
         found <- py_get_default data "items" (VList []) ;;
         if negb (truthy found)
         then Ok [text_content "No code results found"]
         else
           items <- py_iter found ;;
           results <- mapM (fun item =>
             repository <- py_getitem item "repository" ;;
             full_name <- py_getitem repository "full_name" ;;
             path <- py_getitem item "path" ;;
             html_url <- py_getitem item "html_url" ;;
             Ok (py_str full_name ++ "/" ++ py_str path ++ LF
                 ++ "  URL: " ++ py_str html_url)) items ;;
           total <- py_get_default data "total_count" (VInt 0) ;;
           let header := "Found " ++ py_str total ++ " code results (showing "
                         ++ of_nat (List.length results) ++ "):" ++ LF ++ LF in
           Ok [text_content (header ++ String.concat (LF ++ LF) results)]))
      on_exception.

(* ------------------------------- releases ---------------------------- *)

Definition list_releases (name : string) (arguments : pyval)
  : prog (list TextContent) :=
  repo <- pure (py_get arguments "repo") ;;
  parsed <- pure (_parse_repo_string repo) ;;
  let (owner, repo_name) := parsed in
  if negb (truthy owner) || negb (truthy repo_name)
  then Ret invalid_repo
  else
    per_page <- pure (py_get_default arguments "per_page" (VInt 30)) ;;
    try_except
      (resp <- call (mkRequest GET
                       (api ++ "/repos/" ++ py_str owner ++ "/" ++ py_str repo_name ++ "/releases")
                       _get_headers (Some [("per_page", per_page)]) None) ;;
       if negb (status_code resp =? 200)
       then pure (remote_error resp (of_Z (status_code resp)))
       else pure (
         releases <- json_body resp ;;
         if negb (truthy releases)
         then Ok [text_content "No releases found"]
         else
           items <- py_iter releases ;;
           results <- mapM (fun release =>
             is_prerelease <- py_get release "prerelease" ;;
             let prerelease := if truthy is_prerelease then "🚧 " else "" in
             is_draft <- py_get release "draft" ;;
             let draft := if truthy is_draft then "📝 " else "" in
             tag_name <- py_getitem release "tag_name" ;;
             release_name <- py_getitem release "name" ;;
             published <- py_get_default release "published_at" (VStr "N/A") ;;
             html_url <- py_getitem release "html_url" ;;
             Ok (prerelease ++ draft ++ py_str tag_name ++ " - " ++ py_str release_name ++ LF
                 ++ "  Published: " ++ py_str published ++ LF
                 ++ "  URL: " ++ py_str html_url)) items ;;
           Ok [text_content (String.concat (LF ++ LF) results)]))
      on_exception.

(* --------------------------------- users ----------------------------- *)

Definition get_user_info (name : string) (arguments : pyval)
  : prog (list TextContent) :=
  username <- pure (py_get arguments "username") ;;
  if negb (truthy username)
  then Ret [text_content "❌ Missing username parameter"]
  else
    try_except
      (resp <- call (mkRequest GET (api ++ "/users/" ++ py_str username)
                       _get_headers None None) ;;
       if negb (status_code resp =? 200)
       then pure (remote_error resp (of_Z (status_code resp)))
       else pure (
         user <- json_body resp ;;
         login <- py_getitem user "login" ;;
         full_name <- py_get user "name" ;;
         bio <- py_get user "bio" ;;
         company <- py_get user "company" ;;
         location <- py_get user "location" ;;
         email <- py_get user "email" ;;
         blog <- py_get user "blog" ;;
         public_repos <- py_getitem user "public_repos" ;;
         followers <- py_getitem user "followers" ;;
         following <- py_getitem user "following" ;;
         created <- py_getitem user "created_at" ;;
         html_url <- py_getitem user "html_url" ;;
         let na := VStr "N/A" in
         Ok [text_content (
           "Username: " ++ py_str login ++ LF
           ++ "Name: " ++ py_str (py_or full_name na) ++ LF
           ++ "Bio: " ++ py_str (py_or bio na) ++ LF
           ++ "Company: " ++ py_str (py_or company na) ++ LF
           ++ "Location: " ++ py_str (py_or location na) ++ LF
           ++ "Email: " ++ py_str (py_or email na) ++ LF
           ++ "Blog: " ++ py_str (py_or blog na) ++ LF
           ++ "Public Repos: " ++ py_str public_repos ++ LF
           ++ "Followers: " ++ py_str followers ++ LF
           ++ "Following: " ++ py_str following ++ LF
           ++ "Created: " ++ py_str created ++ LF
           ++ "Profile: " ++ py_str html_url)]))
      on_exception.

(* ------------------------------- dispatch ---------------------------- *)

Definition handler : Type := string -> pyval -> prog (list TextContent).

(** The [handlers] dictionary of [handle_tool_call]. *)
Definition handlers : list (string * handler) :=
  [ ("list_repositories", list_repositories);
    ("get_repo_details", get_repo_details);
    ("list_issues", list_issues);
    ("create_issue", create_issue);
    ("update_issue", update_issue);
    ("list_pull_requests", list_pull_requests);
    ("create_pull_request", create_pull_request);
    ("get_file_contents", get_file_contents);
    ("create_or_update_file", create_or_update_file);
    ("list_branches", list_branches);
    ("create_branch", create_branch);
    ("list_commits", list_commits);
    ("search_repositories", search_repositories);
    ("search_code", search_code);
    ("create_repository", create_repository);
    ("fork_repository", fork_repository);
    ("list_releases", list_releases);
    ("get_user_info", get_user_info) ].

(** [handlers.get(name)] *)
Fixpoint handlers_get (table : list (string * handler)) (name : string)
  : option handler :=
  match table with
  | [] => None
  | (n, h) :: rest => if (n =? name)%string then Some h else handlers_get rest name
  end.

Definition handle_tool_call (name : string) (arguments : pyval)
  : prog (list TextContent) :=
  args <- pure (_extract_arguments arguments) ;;
  match handlers_get handlers name with
  | Some h => h name args
  | None => Ret [text_content ("❌ Unknown tool: " ++ name)]
  end.

End Handlers.

(* ------------------------------ discovery ---------------------------- *)

(** [types.Tool(name=..., description=..., inputSchema=...)] *)
Record Tool : Type := mkTool {
  name : string;
  description : string;
  inputSchema : pyval
}.

(** The tools [list_tools] advertises, with their input schemas. *)
Definition list_tools : list Tool :=
  [
    {| name := "list_repositories";
       description := "List all public repositories for a given GitHub username";
       inputSchema :=
         VDict [ ("type", VStr "object");
                ("properties", VDict [("username", VDict [("type", VStr "string")])]);
                ("required", VList [VStr "username"]) ] |};
    {| name := "get_repo_details";
       description := "Get detailed information for a repository (owner/repo)";
       inputSchema :=
         VDict [ ("type", VStr "object");
                ("properties", VDict [("repo", VDict [("type", VStr "string")])]);
                ("required", VList [VStr "repo"]) ] |};
    {| name := "list_issues";
       description := "List issues for a repository with optional filtering";
       inputSchema :=
         VDict [ ("type", VStr "object");
                ("properties", VDict [ ("repo", VDict [ ("type", VStr "string");
                    ("description", VStr "Repository in format owner/repo") ]);
                  ("state", VDict [ ("type", VStr "string");
                    ("enum", VList [VStr "open"; VStr "closed"; VStr "all"]);
                    ("default", VStr "open") ]);
                  ("labels", VDict [ ("type", VStr "string");
                    ("description", VStr "Comma-separated list of labels") ]);
                  ("per_page", VDict [ ("type", VStr "integer");
                    ("default", VInt 30);
                    ("maximum", VInt 100) ]) ]);
                ("required", VList [VStr "repo"]) ] |};
    {| name := "create_issue";
       description := "Create a new issue in a repository";
       inputSchema :=
         VDict [ ("type", VStr "object");
                ("properties", VDict [ ("repo", VDict [("type", VStr "string")]);
                  ("title", VDict [("type", VStr "string")]);
                  ("body", VDict [("type", VStr "string")]);
                  ("labels", VDict [ ("type", VStr "array");
                    ("items", VDict [("type", VStr "string")]) ]);
                  ("assignees", VDict [ ("type", VStr "array");
                    ("items", VDict [("type", VStr "string")]) ]) ]);
                ("required", VList [VStr "repo"; VStr "title"]) ] |};
    {| name := "update_issue";
       description := "Update an existing issue";
       inputSchema :=
         VDict [ ("type", VStr "object");
                ("properties", VDict [ ("repo", VDict [("type", VStr "string")]);
                  ("issue_number", VDict [("type", VStr "integer")]);
                  ("title", VDict [("type", VStr "string")]);
                  ("body", VDict [("type", VStr "string")]);
                  ("state", VDict [ ("type", VStr "string");
                    ("enum", VList [VStr "open"; VStr "closed"]) ]);
                  ("labels", VDict [ ("type", VStr "array");
                    ("items", VDict [("type", VStr "string")]) ]) ]);
                ("required", VList [VStr "repo"; VStr "issue_number"]) ] |};
    {| name := "list_pull_requests";
       description := "List pull requests for a repository";
       inputSchema :=
         VDict [ ("type", VStr "object");
                ("properties", VDict [ ("repo", VDict [("type", VStr "string")]);
                  ("state", VDict [ ("type", VStr "string");
                    ("enum", VList [VStr "open"; VStr "closed"; VStr "all"]);
                    ("default", VStr "open") ]);
                  ("per_page", VDict [ ("type", VStr "integer");
                    ("default", VInt 30);
                    ("maximum", VInt 100) ]) ]);
                ("required", VList [VStr "repo"]) ] |};
    {| name := "create_pull_request";
       description := "Create a new pull request";
       inputSchema :=
         VDict [ ("type", VStr "object");
                ("properties", VDict [ ("repo", VDict [("type", VStr "string")]);
                  ("title", VDict [("type", VStr "string")]);
                  ("head", VDict [ ("type", VStr "string");
                    ("description", VStr "Branch containing changes") ]);
                  ("base", VDict [ ("type", VStr "string");
                    ("description", VStr "Branch to merge into") ]);
                  ("body", VDict [("type", VStr "string")]);
                  ("draft", VDict [("type", VStr "boolean"); ("default", VBool false)]) ]);
                ("required", VList [VStr "repo"; VStr "title"; VStr "head"; VStr "base"]) ] |};
    {| name := "get_file_contents";
       description := "Get contents of a file from a repository";
       inputSchema :=
         VDict [ ("type", VStr "object");
                ("properties", VDict [ ("repo", VDict [("type", VStr "string")]);
                  ("path", VDict [ ("type", VStr "string");
                    ("description", VStr "Path to file in repository") ]);
                  ("branch", VDict [ ("type", VStr "string");
                    ("description", VStr "Branch name (default: main)") ]) ]);
                ("required", VList [VStr "repo"; VStr "path"]) ] |};
    {| name := "create_or_update_file";
       description := "Create or update a file in a repository";
       inputSchema :=
         VDict [ ("type", VStr "object");
                ("properties", VDict [ ("repo", VDict [("type", VStr "string")]);
                  ("path", VDict [("type", VStr "string")]);
                  ("content", VDict [("type", VStr "string")]);
                  ("message", VDict [ ("type", VStr "string");
                    ("description", VStr "Commit message") ]);
                  ("branch", VDict [("type", VStr "string")]);
                  ("sha", VDict [ ("type", VStr "string");
                    ("description", VStr "SHA of file to update (for updates only)") ]) ]);
                ("required", VList [VStr "repo"; VStr "path"; VStr "content"; VStr "message"; VStr "branch"]) ] |};
    {| name := "list_branches";
       description := "List all branches in a repository";
       inputSchema :=
         VDict [ ("type", VStr "object");
                ("properties", VDict [ ("repo", VDict [("type", VStr "string")]);
                  ("per_page", VDict [ ("type", VStr "integer");
                    ("default", VInt 30);
                    ("maximum", VInt 100) ]) ]);
                ("required", VList [VStr "repo"]) ] |};
    {| name := "create_branch";
       description := "Create a new branch in a repository";
       inputSchema :=
         VDict [ ("type", VStr "object");
                ("properties", VDict [ ("repo", VDict [("type", VStr "string")]);
                  ("branch", VDict [ ("type", VStr "string");
                    ("description", VStr "Name of new branch") ]);
                  ("from_branch", VDict [ ("type", VStr "string");
                    ("description", VStr "Source branch (default: main)") ]) ]);
                ("required", VList [VStr "repo"; VStr "branch"]) ] |};
    {| name := "list_commits";
       description := "List commits in a repository";
       inputSchema :=
         VDict [ ("type", VStr "object");
                ("properties", VDict [ ("repo", VDict [("type", VStr "string")]);
                  ("branch", VDict [ ("type", VStr "string");
                    ("description", VStr "Branch name") ]);
                  ("per_page", VDict [ ("type", VStr "integer");
                    ("default", VInt 30);
                    ("maximum", VInt 100) ]) ]);
                ("required", VList [VStr "repo"]) ] |};
    {| name := "search_repositories";
       description := "Search for repositories on GitHub";
       inputSchema :=
         VDict [ ("type", VStr "object");
                ("properties", VDict [ ("query", VDict [("type", VStr "string")]);
                  ("sort", VDict [ ("type", VStr "string");
                    ("enum", VList [VStr "stars"; VStr "forks"; VStr "updated"]) ]);
                  ("order", VDict [ ("type", VStr "string");
                    ("enum", VList [VStr "asc"; VStr "desc"]);
                    ("default", VStr "desc") ]);
                  ("per_page", VDict [ ("type", VStr "integer");
                    ("default", VInt 30);
                    ("maximum", VInt 100) ]) ]);
                ("required", VList [VStr "query"]) ] |};
    {| name := "search_code";
       description := "Search for code in repositories";
       inputSchema :=
         VDict [ ("type", VStr "object");
                ("properties", VDict [ ("query", VDict [("type", VStr "string")]);
                  ("per_page", VDict [ ("type", VStr "integer");
                    ("default", VInt 30);
                    ("maximum", VInt 100) ]) ]);
                ("required", VList [VStr "query"]) ] |};
    {| name := "create_repository";
       description := "Create a new repository for authenticated user";
       inputSchema :=
         VDict [ ("type", VStr "object");
                ("properties", VDict [ ("name", VDict [("type", VStr "string")]);
                  ("description", VDict [("type", VStr "string")]);
                  ("private", VDict [("type", VStr "boolean"); ("default", VBool false)]);
                  ("auto_init", VDict [("type", VStr "boolean"); ("default", VBool true)]) ]);
                ("required", VList [VStr "name"]) ] |};
    {| name := "fork_repository";
       description := "Fork a repository";
       inputSchema :=
         VDict [ ("type", VStr "object");
                ("properties", VDict [("repo", VDict [("type", VStr "string")])]);
                ("required", VList [VStr "repo"]) ] |};
    {| name := "list_releases";
       description := "List releases for a repository";
       inputSchema :=
         VDict [ ("type", VStr "object");
                ("properties", VDict [ ("repo", VDict [("type", VStr "string")]);
                  ("per_page", VDict [ ("type", VStr "integer");
                    ("default", VInt 30);
                    ("maximum", VInt 100) ]) ]);
                ("required", VList [VStr "repo"]) ] |};
    {| name := "get_user_info";
       description := "Get information about a GitHub user";
       inputSchema :=
         VDict [ ("type", VStr "object");
                ("properties", VDict [("username", VDict [("type", VStr "string")])]);
                ("required", VList [VStr "username"]) ] |}
  ].

End Server.

(* ===================================================================== *)
(** ** git_mcp1/backend/github_server.py *)
(* ===================================================================== *)

Module Server1.
Import PyStr Py Http.
Import Server (TextContent, text_content, mkTextContent, text).
Open Scope prog_scope.

Definition _parse_repo_string := Server._parse_repo_string.

Section Handlers.

Variable GITHUB_TOKEN : option string.

(** The [headers] dictionary both handlers build inline. *)
Definition request_headers : list (string * string) :=
  let headers := [("Accept", "application/vnd.github.v3+json")] in
  match GITHUB_TOKEN with
  | Some t => if (t =? "")%string then headers
              else app headers [("Authorization", "token " ++ t)]
  | None => headers
  end.

Definition is_dict (v : pyval) : bool :=
  match v with
  | VDict _ => true
  | _ => false
  end.

(** The two [except] clauses of [list_repositories]. *)
Definition on_exception (e : exn) : prog (list TextContent) :=
  match e with
  | RequestError m =>
      Ret [text_content ("❌ " ++ "Failed to connect to GitHub API: " ++ m)]
  | _ =>
      Ret [text_content ("❌ " ++ "Unexpected error processing GitHub response: "
                         ++ str_exn e)]
  end.

Definition list_repositories (name : string) (arguments : pyval)
  : prog (list TextContent) :=
  if negb (truthy arguments)
  then Ret [text_content "❌ Missing arguments"]
  else
    arguments <- pure (wrapped <- py_contains "arguments" arguments ;;
                       if wrapped then py_getitem arguments "arguments"
                       else Ok arguments) ;;
    if negb (truthy arguments) || negb (is_dict arguments)
    then Ret [text_content "❌ Invalid arguments: expected dictionary with username"]
    else
      username <- pure (py_get arguments "username") ;;
      if negb (truthy username)
      then Ret [text_content "❌ Missing username parameter"]
      else
        try_except
          (resp <- call (mkRequest GET ("https://api.github.com/users/"
                                         ++ py_str username ++ "/repos")
                           request_headers None None) ;;
           if negb (status_code resp =? 200)
           then pure (
             error_data <- json_body resp ;;
             error_message <- py_get_default error_data "message"
                                (VStr ("GitHub API Error: " ++ of_Z (status_code resp))) ;;
             Ok [text_content ("❌ " ++ py_str error_message)])
           else pure (
             data <- json_body resp ;;
             logged_count <- py_len data ;;
             if negb (truthy data)
             then Ok [text_content
                        "No repositories found. Note: Only public repositories are visible."]
             else
               items <- py_iter data ;;
               repo_results <- mapM (fun repo =>
                 full_name <- py_getitem repo "full_name" ;;
                 visibility <- py_get_default repo "visibility" (VStr "public") ;;
                 description <- py_get repo "description" ;;
                 Ok (py_str full_name ++ " " ++ "(" ++ py_str visibility ++ ") - "
                     ++ py_str (py_or description (VStr "No description")))) items ;;
               Ok [text_content (String.concat (LF ++ LF) repo_results)]))
          on_exception.

Definition get_repo_details (name : string) (arguments : pyval)
  : prog (list TextContent) :=
  arguments <- pure (
    if truthy arguments
    then (wrapped <- py_contains "arguments" arguments ;;
          if wrapped then py_getitem arguments "arguments" else Ok arguments)
    else Ok arguments) ;;
  if negb (truthy arguments)
  then Ret [text_content "❌ Missing 'repo' argument (owner/repo)."]
  else
    repo <- pure (py_get arguments "repo") ;;
    parsed <- pure (_parse_repo_string repo) ;;
    let (owner, repo_name) := parsed in
    if negb (truthy owner) || negb (truthy repo_name)
    then Ret [text_content "❌ Invalid 'repo' format. Use 'owner/repo'."]
    else
      resp <- call (mkRequest GET ("https://api.github.com/repos/" ++ py_str owner
                                   ++ "/" ++ py_str repo_name)
                      request_headers None None) ;;
      if negb (status_code resp =? 200)
      then
        let fallback := of_Z (status_code resp) in
        let error_message :=
          match (error_data <- json_body resp ;;
                 py_get_default error_data "message" (VStr fallback))%result with
          | Ok m => py_str m
          | Err _ => fallback
          end in
        Ret [text_content ("❌ " ++ error_message)]
      else pure (
        data <- json_body resp ;;
        full_name <- py_get data "full_name" ;;
        description <- py_get data "description" ;;
        private <- py_get data "private" ;;
        html_url <- py_get data "html_url" ;;
        stars <- py_get data "stargazers_count" ;;
        forks <- py_get data "forks_count" ;;
        open_issues <- py_get data "open_issues_count" ;;
        Ok (map text_content
              [ "full_name: " ++ py_str full_name;
                "description: " ++ py_str description;
                "private: " ++ py_str private;
                "html_url: " ++ py_str html_url;
                "stars: " ++ py_str stars;
                "forks: " ++ py_str forks;
                "open_issues: " ++ py_str open_issues ])).

Definition handle_tool_call (name : string) (arguments : pyval)
  : prog (list TextContent) :=
  if (name =? "list_repositories")%string then list_repositories name arguments
  else if (name =? "get_repo_details")%string then get_repo_details name arguments
  else Ret [text_content ("❌ Unknown tool: " ++ name)].

End Handlers.

(** The two tools [list_tools] advertises. *)
Definition list_tools : list Server.Tool :=
  [
    {| Server.name := "list_repositories";
       Server.description := "List all public repositories for a given GitHub username";
       Server.inputSchema :=
         VDict [ ("type", VStr "object");
                ("properties", VDict [("username", VDict [("type", VStr "string")])]);
                ("required", VList [VStr "username"]) ] |};
    {| Server.name := "get_repo_details";
       Server.description := "Get details for a repository (owner/repo)";
       Server.inputSchema :=
         VDict [ ("type", VStr "object");
                ("properties", VDict [("repo", VDict [("type", VStr "string")])]);
                ("required", VList [VStr "repo"]) ] |}
  ].

End Server1.

(* ===================================================================== *)
(** ** [shlex.split], as the standard library runs it: POSIX mode,
       [whitespace_split] on, no comment characters *)
(* ===================================================================== *)

Module Shlex.
Import PyStr Py.

(** The lexer's [state]: [' '] between tokens, ['a'] inside a word, an
    open quote, or the escape character together with [escapedstate]
    ([None] for ['a'], the open quote otherwise). *)
Inductive lex_state : Type :=
| InSpace
| InWord
| InQuote (q : ascii)
| InEscape (escapedstate : option ascii).

Definition is_whitespace (c : ascii) : bool :=
  let n := nat_of_ascii c in
  ((n =? 32) || (n =? 9) || (n =? 13) || (n =? 10))%nat.

Definition is_quote (c : ascii) : bool := Ascii.eqb c SQ || Ascii.eqb c DQ.

Definition is_escape (c : ascii) : bool := Ascii.eqb c BSL.

(** [read_token], called until the input is used up: [token] is the token
    being built and [quoted] tells whether a quote was seen in it. *)
Fixpoint lex (st : lex_state) (quoted : bool) (token : string) (s : string)
  : result (list string) :=
  match s with
  | EmptyString =>
      match st with
      | InSpace => Ok []
      | InWord => Ok (if negb quoted && (token =? "")%string then [] else [token])
      | InQuote _ => Err (ValueError "No closing quotation")
      | InEscape _ => Err (ValueError "No escaped character")
      end
  | String c s' =>
      match st with
      | InSpace =>
          if is_whitespace c then lex InSpace quoted token s'
          else if is_escape c then lex (InEscape None) quoted token s'
          else if is_quote c then lex (InQuote c) quoted token s'
          else lex InWord quoted (str1 c) s'
      | InQuote q =>
          if Ascii.eqb c q then lex InWord true token s'
          else if is_escape c && Ascii.eqb q DQ
               then lex (InEscape (Some q)) true token s'
          else lex (InQuote q) true (token ++ str1 c) s'
      | InEscape escapedstate =>
          match escapedstate with
          | Some q =>
              let kept := if negb (is_escape c) && negb (Ascii.eqb c q)
                          then token ++ str1 BSL else token in
              lex (InQuote q) quoted (kept ++ str1 c) s'
          | None => lex InWord quoted (token ++ str1 c) s'
          end
      | InWord =>
          if is_whitespace c
          then (if negb (token =? "")%string || quoted
                then match lex InSpace false "" s' with
                     | Ok rest => Ok (token :: rest)
                     | Err e => Err e
                     end
                else lex InSpace quoted token s')
          else if is_quote c then lex (InQuote c) quoted token s'
          else if is_escape c then lex (InEscape None) quoted token s'
          else lex InWord quoted (token ++ str1 c) s'
      end
  end.

Definition split (s : string) : result (list string) := lex InSpace false "" s.

End Shlex.

(* ===================================================================== *)
(** ** git_mcp2/mcp_client.py *)
(* ===================================================================== *)

Module Client.
Import PyStr Py.
Open Scope result_scope.

(** [parts[i]], read only below [len(parts)]. *)
Definition part (parts : list string) (i : nat) : string := nth i parts "".

(** [len(parts) < n] and [len(parts) > n] *)
Definition fewer (parts : list string) (n : nat) : bool :=
  (List.length parts <? n)%nat.
Definition more (parts : list string) (n : nat) : bool :=
  (n <? List.length parts)%nat.

(** [if len(parts) > n: args[key] = parts[n]] *)
Definition optional (parts : list string) (n : nat) (key : string) (args : pydict)
  : pydict :=
  if more parts n then dict_set args key (VStr (part parts n)) else args.

(** The tokens of a command line: [shlex.split], and [query.split()] when
    that raises. *)
Definition tokenize (query : string) : list string :=
  match Shlex.split query with
  | Ok parts => parts
  | Err _ => split_ws query
  end.

Definition command : Type := option (string * pydict).

(** The branches of [parse_command] on the tokens. *)
Definition parse_parts (parts : list string) : result command :=
  match parts with
  | [] => Ok None
  | _ =>
    let cmd := lower (part parts 0) in
    if (cmd =? "list_repositories")%string then
      if fewer parts 2 then Ok None
      else Ok (Some ("list_repositories", [("username", VStr (part parts 1))]))
    else if (cmd =? "get_repo_details")%string then
      if fewer parts 2 then Ok None
      else Ok (Some ("get_repo_details", [("repo", VStr (part parts 1))]))
    else if (cmd =? "search_repositories")%string then
      if fewer parts 2 then Ok None
      else
        let args := [("query", VStr (part parts 1))] in
        let args := optional parts 2 "sort" args in
        let args := optional parts 3 "order" args in
        Ok (Some ("search_repositories", args))
    else if (cmd =? "create_repository")%string then
      if fewer parts 2 then Ok None
      else
        let args := [("name", VStr (part parts 1))] in
        let args := optional parts 2 "description" args in
        let args :=
          if more parts 3
          then dict_set args "private"
                 (VBool (existsb (String.eqb (lower (part parts 3)))
                                 ["true"; "1"; "yes"]))
          else args in
        Ok (Some ("create_repository", args))
    else if (cmd =? "fork_repository")%string then
      if fewer parts 2 then Ok None
      else Ok (Some ("fork_repository", [("repo", VStr (part parts 1))]))
    else if (cmd =? "list_issues")%string then
      if fewer parts 2 then Ok None
      else
        let args := [("repo", VStr (part parts 1))] in
        let args := optional parts 2 "state" args in
        let args := optional parts 3 "labels" args in
        Ok (Some ("list_issues", args))
    else if (cmd =? "create_issue")%string then
      if fewer parts 3 then Ok None
      else
        let args := [("repo", VStr (part parts 1)); ("title", VStr (part parts 2))] in
        let args := optional parts 3 "body" args in
        Ok (Some ("create_issue", args))
    else if (cmd =? "update_issue")%string then
      if fewer parts 3 then Ok None
      else
        issue_number <- py_int (part parts 2) ;;
        let args := [("repo", VStr (part parts 1)); ("issue_number", VInt issue_number)] in
        let args := optional parts 3 "title" args in
        let args := optional parts 4 "body" args in
        let args := optional parts 5 "state" args in
        Ok (Some ("update_issue", args))
    else if (cmd =? "list_pull_requests")%string then
      if fewer parts 2 then Ok None
      else
        let args := [("repo", VStr (part parts 1))] in
        let args := optional parts 2 "state" args in
        Ok (Some ("list_pull_requests", args))
    else if (cmd =? "create_pull_request")%string then
      if fewer parts 5 then Ok None
      else
        let args := [("repo", VStr (part parts 1)); ("title", VStr (part parts 2));
                     ("head", VStr (part parts 3)); ("base", VStr (part parts 4))] in
        let args := optional parts 5 "body" args in
        Ok (Some ("create_pull_request", args))
    else if (cmd =? "get_file_contents")%string then
      if fewer parts 3 then Ok None
      else
        let args := [("repo", VStr (part parts 1)); ("path", VStr (part parts 2))] in
        let args := optional parts 3 "branch" args in
        Ok (Some ("get_file_contents", args))
    else if (cmd =? "create_or_update_file")%string then
      if fewer parts 6 then Ok None
      else
        let args := [("repo", VStr (part parts 1)); ("path", VStr (part parts 2));
                     ("content", VStr (part parts 3)); ("message", VStr (part parts 4));
                     ("branch", VStr (part parts 5))] in
        let args := optional parts 6 "sha" args in
        Ok (Some ("create_or_update_file", args))
    else if (cmd =? "list_branches")%string then
      if fewer parts 2 then Ok None
      else Ok (Some ("list_branches", [("repo", VStr (part parts 1))]))
    else if (cmd =? "create_branch")%string then
      if fewer parts 3 then Ok None
      else
        let args := [("repo", VStr (part parts 1)); ("branch", VStr (part parts 2))] in
        let args := optional parts 3 "from_branch" args in
        Ok (Some ("create_branch", args))
    else if (cmd =? "list_commits")%string then
      if fewer parts 2 then Ok None
      else
        let args := [("repo", VStr (part parts 1))] in
        let args := optional parts 2 "branch" args in
        Ok (Some ("list_commits", args))
    else if (cmd =? "search_code")%string then
      if fewer parts 2 then Ok None
      else Ok (Some ("search_code", [("query", VStr (part parts 1))]))
    else if (cmd =? "list_releases")%string then
      if fewer parts 2 then Ok None
      else Ok (Some ("list_releases", [("repo", VStr (part parts 1))]))
    else if (cmd =? "get_user_info")%string then
      if fewer parts 2 then Ok None
      else Ok (Some ("get_user_info", [("username", VStr (part parts 1))]))
    else Ok None
  end.

Definition parse_command (query : string) : result command :=
  parse_parts (tokenize query).

(** An element of [root.content]: a plain [dict], an object that has a
    [text] attribute (such as [TextContent]), or anything else, of which
    only [str(item)] is read. *)
Inductive content_item : Type :=
| DictItem (d : pydict)
| TextObject (text : pyval)
| OtherObject (shown : string).

(** What [send_request] hands back: a value without [root], or a root
    with its [content] and [error] attributes where it has them (a
    [content] that is present but [None] counts as the empty list). *)
Inductive client_result : Type :=
| NoRoot
| Root (content : option (list content_item)) (error : option pyval).

(** One session with the tool host, as [run_github_agent] sees it. *)
Inductive session : Type :=
| ConnectFails (e : exn)     (* raised while the server is started or the
                                channel and session are opened *)
| RequestFails (e : exn)     (* raised by [initialize] or [send_request] *)
| Replies (r : client_result).

Record world : Type := mkWorld {
  SERVER_PATH : string;
  server_exists : bool;                        (* os.path.exists(SERVER_PATH) *)
  serve : string -> pydict -> session          (* the tool host's behaviour *)
}.

(** [create_github_session] succeeds only when the server file exists. *)
Definition create_github_session (w : world) : result unit :=
  if negb (server_exists w)
  then Err (OtherError "OSError" ("Server not found at: " ++ SERVER_PATH w))
  else Ok tt.

(** The [text] the loop takes from one content item. *)
Definition item_text (item : content_item) : pyval :=
  match item with
  | DictItem d =>
      match dict_get d "text" with
      | Some t => t
      | None => VStr (py_str (VDict d))
      end
  | TextObject t => t
  | OtherObject shown => VStr shown
  end.

Definition error_response (message : pyval) : pydict := [("error", message)].

(** The loop over [content]: the first non-empty string that holds the
    marker ends the call with an error; the other non-empty strings are
    collected in [results]. *)
Fixpoint extract_results (content : list content_item) (results : list string)
  : pydict + list string :=
  match content with
  | [] => inr results
  | item :: rest =>
      match item_text item with
      | VStr t =>
          if negb (t =? "")%string
          then if contains "❌" t
               then inl (error_response (VStr (replace "❌ " "" t)))
               else extract_results rest (app results [t])
          else extract_results rest results
      | _ => extract_results rest results
      end
  end.

(** The unwrapping of the response envelope. *)
Definition process_response (r : client_result) : pydict :=
  match r with
  | NoRoot => error_response (VStr "Invalid response format: missing root")
  | Root None (Some e) => error_response e
  | Root None None => error_response (VStr "Invalid response format: missing content")
  | Root (Some content) _ =>
      match content with
      | [] => error_response (VStr "No results received from server")
      | _ =>
          match extract_results content [] with
          | inl err => err
          | inr results =>
              match results with
              | [] => error_response (VStr "No data returned")
              | [one] => [("success", VBool true); ("data", VStr one)]
              | _ => [("success", VBool true);
                      ("data", VList (map VStr results));
                      ("count", VInt (Z.of_nat (List.length results)))]
              end
          end
      end
  end.

Definition invalid_command (query : string) : pydict :=
  [("error", VStr ("Invalid command format: " ++ query));
   ("help", VStr "Use format: <command> <args>. Example: list_repositories octocat")].

(** [run_github_agent]: [Ok d] when it returns the dictionary [d],
    [Err e] when the exception [e] leaves it. *)
Definition run_github_agent (w : world) (query : string) : result pydict :=
  if (query =? "")%string || (strip query =? "")%string
  then Ok (error_response (VStr "Empty query"))
  else
    parsed <- parse_command query ;;
    match parsed with
    | None => Ok (invalid_command query)
    | Some (tool_name, arguments) =>
        if (tool_name =? "")%string || negb (truthy (VDict arguments))
        then Ok (invalid_command query)
        else
          match create_github_session w with
          | Err e =>
              Ok (error_response (VStr ("Server communication failed: " ++ str_exn e)))
          | Ok _ =>
              match serve w tool_name arguments with
              | ConnectFails e =>
                  Ok (error_response
                        (VStr ("Server communication failed: " ++ str_exn e)))
              | RequestFails e =>
                  Ok (error_response (VStr ("Tool execution failed: " ++ str_exn e)))
              | Replies r => Ok (process_response r)
              end
          end
    end.

(** The two arms of an agent response. *)
Definition is_error_result (d : pydict) : bool :=
  match dict_get d "error" with
  | Some _ => true
  | None => false
  end.

Definition is_data_result (d : pydict) : bool :=
  match dict_get d "success", dict_get d "data" with
  | Some (VBool true), Some _ => true
  | _, _ => false
  end.

(** The reply that carries a handler's text segments. *)
Definition reply_of (segments : list Server.TextContent) : client_result :=
  Root (Some (map (fun seg => TextObject (VStr (Server.text seg))) segments)) None.

End Client.

(* ===================================================================== *)
(** ** github_agent.py, the client of [git_mcp1] *)
(* ===================================================================== *)

Module Client1.
Import PyStr Py.
Import Client (part, fewer, tokenize, command, world, content_item, client_result,
               session, item_text, error_response, extract_results,
               create_github_session).

(** The branches of [parse_command] on the tokens. *)
Definition parse_parts (parts : list string) : command :=
  match parts with
  | [] => None
  | _ =>
    let cmd := lower (part parts 0) in
    if (cmd =? "list_repositories")%string then
      if fewer parts 2 then None
      else Some ("list_repositories", [("username", VStr (strip (part parts 1)))])
    else if (cmd =? "get_repo_details")%string then
      if fewer parts 2 then None
      else Some ("get_repo_details", [("repo", VStr (part parts 1))])
    else None
  end.

Definition parse_command (query : string) : command :=
  parse_parts (tokenize query).

(** The unwrapping of the response envelope. *)
Definition process_response (r : client_result) : pydict :=
  match r with
  | Client.NoRoot => error_response (VStr "Invalid response format: missing root")
  | Client.Root None (Some e) => error_response e
  | Client.Root None None =>
      error_response (VStr "Invalid response format: missing content")
  | Client.Root (Some content) _ =>
      match content with
      | [] => error_response (VStr "No results received from server")
      | _ =>
          match extract_results content [] with
          | inl err => err
          | inr results =>
              match results with
              | [] => error_response (VStr "No repositories found")
              | _ => [("repositories", VList (map VStr results))]
              end
          end
      end
  end.

Definition run_github_agent (w : world) (query : string) : pydict :=
  if (query =? "")%string || (strip query =? "")%string
  then error_response (VStr "Empty query")
  else
    match parse_command query with
    | None => error_response (VStr ("Invalid command format: " ++ query))
    | Some (tool_name, arguments) =>
        if (tool_name =? "")%string || negb (truthy (VDict arguments))
        then error_response (VStr ("Invalid command format: " ++ query))
        else
          match create_github_session w with
          | Err e =>
              error_response (VStr ("Server communication failed: " ++ str_exn e))
          | Ok _ =>
              match Client.serve w tool_name arguments with
              | Client.ConnectFails e =>
                  error_response
                    (VStr ("Server communication failed: " ++ str_exn e))
              | Client.RequestFails e =>
                  error_response (VStr ("Tool execution failed: " ++ str_exn e))
              | Client.Replies r => process_response r
              end
          end
    end.

End Client1.

(* ===================================================================== *)
(** ** Vocabulary of the properties *)
(* ===================================================================== *)

Module Spec.
Import PyStr Py Http.

(** The declared type of [arguments]: [dict | None]. *)
Definition dict_or_none (v : pyval) : Prop :=
  v = VNone \/ exists d, v = VDict d.

(** The mutating tools of the registry. *)
Definition mutating_tools (token : option string) : list Server.handler :=
  [ Server.create_repository token; Server.fork_repository token;
    Server.create_issue token; Server.update_issue token;
    Server.create_pull_request token; Server.create_or_update_file token;
    Server.create_branch token ].

(** The names under which [handle_tool_call] of [git_mcp2] finds a
    handler. *)
Definition tool_names : list string :=
  [ "list_repositories"; "get_repo_details"; "list_issues"; "create_issue";
    "update_issue"; "list_pull_requests"; "create_pull_request";
    "get_file_contents"; "create_or_update_file"; "list_branches";
    "create_branch"; "list_commits"; "search_repositories"; "search_code";
    "create_repository"; "fork_repository"; "list_releases"; "get_user_info" ].

(** The fixed minimum token count of each command word: the bound of
    its [len(parts) < n] guard in [parse_command]. *)
Definition command_minimum : list (string * nat) :=
  [ ("list_repositories", 2); ("get_repo_details", 2); ("search_repositories", 2);
    ("create_repository", 2); ("fork_repository", 2); ("list_issues", 2);
    ("create_issue", 3); ("update_issue", 3); ("list_pull_requests", 2);
    ("create_pull_request", 5); ("get_file_contents", 3);
    ("create_or_update_file", 6); ("list_branches", 2); ("create_branch", 3);
    ("list_commits", 2); ("search_code", 2); ("list_releases", 2);
    ("get_user_info", 2) ]%nat.

Fixpoint lookup_minimum (table : list (string * nat)) (cmd : string) : option nat :=
  match table with
  | [] => None
  | (word, n) :: rest =>
      if (cmd =? word)%string then Some n else lookup_minimum rest cmd
  end.

Definition min_tokens (cmd : string) : option nat :=
  lookup_minimum command_minimum cmd.


Definition unmarked (item : Client.content_item) : Prop :=
  forall t, Client.item_text item = VStr t -> contains "❌" t = false.


(** The two calls of [create_branch]: the lookup of the source branch's
    reference and the creation of the new reference from a commit hash. *)
Definition ref_lookup (token : option string)
           (owner repo_name from_branch : pyval) : request :=
  mkRequest GET
    (Server.api ++ "/repos/" ++ py_str owner ++ "/" ++ py_str repo_name
     ++ "/git/ref/heads/" ++ py_str from_branch)
    (Server._get_headers token) None None.

Definition ref_creation (token : option string)
           (owner repo_name branch sha : pyval) : request :=
  mkRequest POST
    (Server.api ++ "/repos/" ++ py_str owner ++ "/" ++ py_str repo_name
     ++ "/git/refs")
    (Server._get_headers token) None
    (Some (VDict [("ref", VStr ("refs/heads/" ++ py_str branch)); ("sha", sha)])).

(** [response.json()["object"]["sha"]] *)
Definition commit_sha (resp : response) : result pyval :=
  (ref <- json_body resp ;;
   object <- py_getitem ref "object" ;;
   py_getitem object "sha")%result.

(** A result made of one segment that starts with the error marker. *)
Definition is_error_segment (out : result (list Server.TextContent)) : Prop :=
  exists message, out = Ok [Server.text_content ("❌ " ++ message)].

(** A remote side on which branch creation goes through: the lookup
    finds the commit [7fd1a60] and the creation is accepted. *)
Definition creation_succeeds : environment :=
  fun hist _ =>
    match hist with
    | [] => Ok (mkResponse 200
                  (Ok (VDict [("ref", VStr "refs/heads/main");
                              ("object", VDict [("sha", VStr "7fd1a60")])])))
    | _ => Ok (mkResponse 201 (Ok (VDict [("ref", VStr "refs/heads/feature")])))
    end.

(** The listing tools that test for an empty listing, each with the text
    it returns then. *)
Definition listing_tools (token : option string)
  : list (Server.handler * string) :=
  [ (Server.list_repositories token, "No repositories found");
    (Server.list_issues token, "No issues found");
    (Server.list_pull_requests token, "No pull requests found");
    (Server.list_branches token, "No branches found");
    (Server.list_commits token, "No commits found");
    (Server.list_releases token, "No releases found") ].

(** The eight listing and search tools. *)
Definition listing_handlers (token : option string) : list Server.handler :=
  (map fst (listing_tools token)
   ++ [Server.search_repositories token; Server.search_code token])%list.

(** The "nothing found" texts of the server. *)
Definition nothing_found_texts : list string :=
  [ "No repositories found"; "No issues found"; "No pull requests found";
    "No branches found"; "No commits found"; "No releases found";
    "No code results found" ].

(** The answer of an endpoint that has nothing to list: a JSON array
    without items, or for the search endpoints an object whose [items]
    array is empty. *)
Definition empty_listing (status : Z) : response :=
  mkResponse status (Ok (VList [])).

Definition empty_search (status : Z) : response :=
  mkResponse status (Ok (VDict [("total_count", VInt 0);
                                ("incomplete_results", VBool false);
                                ("items", VList [])])).

(** An entry of the issues endpoint that is a pull request: it carries
    the back-reference key [pull_request]. *)
Definition is_pull_request (issue : pyval) : bool :=
  match issue with
  | VDict d => match dict_get d "pull_request" with
               | Some _ => true
               | None => false
               end
  | _ => false
  end.

Definition is_object (v : pyval) : Prop :=
  match v with
  | VDict _ => True
  | _ => False
  end.

(** The entries of a listing that are issues proper. *)
Definition issues_proper (issues : list pyval) : list pyval :=
  filter (fun issue => negb (is_pull_request issue)) issues.

(** An issue and a pull request as the issues endpoint lists them. *)
Definition crash_issue : pyval :=
  VDict [("number", VInt 7); ("title", VStr "Crash on start");
         ("state", VStr "open"); ("labels", VList [VDict [("name", VStr "bug")]]);
         ("html_url", VStr "https://github.com/octocat/hello/issues/7")].

Definition docs_pull : pyval :=
  VDict [("number", VInt 8); ("title", VStr "Fix the docs");
         ("state", VStr "open"); ("labels", VList []);
         ("html_url", VStr "https://github.com/octocat/hello/pull/8");
         ("pull_request", VDict [("url", VStr "https://api.github.com/repos/octocat/hello/pulls/8")])].

(* -------------------- vocabulary of the further properties ----------- *)

(** The entry of a tool in a discovery listing. *)
Fixpoint find_tool (tools : list Server.Tool) (tool_name : string)
  : option Server.Tool :=
  match tools with
  | [] => None
  | t :: rest =>
      if (Server.name t =? tool_name)%string then Some t
      else find_tool rest tool_name
  end.

(** The [required] list and the [properties] of an input schema. *)
Definition schema_required (t : Server.Tool) : list string :=
  match Server.inputSchema t with
  | VDict schema =>
      match dict_get schema "required" with
      | Some (VList fields) =>
          flat_map (fun f => match f with VStr s => [s] | _ => [] end) fields
      | _ => []
      end
  | _ => []
  end.

Definition schema_properties (t : Server.Tool) : pydict :=
  match Server.inputSchema t with
  | VDict schema =>
      match dict_get schema "properties" with
      | Some (VDict properties) => properties
      | _ => []
      end
  | _ => []
  end.

(** The JSON-schema type name of a value. *)
Definition json_type_of (v : pyval) : string :=
  match v with
  | VNone => "null"
  | VBool _ => "boolean"
  | VInt _ => "integer"
  | VStr _ => "string"
  | VList _ => "array"
  | VDict _ => "object"
  end.

(** An argument mapping conforms to a tool's schema when it has every
    required field and each of its fields is a declared property holding
    a value of the declared type. *)
Definition declared_type (t : Server.Tool) (field : string) : option string :=
  match dict_get (schema_properties t) field with
  | Some (VDict property) =>
      match dict_get property "type" with
      | Some (VStr ty) => Some ty
      | _ => None
      end
  | _ => None
  end.

Definition conforms (t : Server.Tool) (arguments : pydict) : bool :=
  forallb (fun field => match dict_get arguments field with
                        | Some _ => true
                        | None => false
                        end) (schema_required t)
  && forallb (fun kv => match declared_type t (fst kv) with
                        | Some ty => (ty =? json_type_of (snd kv))%string
                        | None => false
                        end) arguments.

(** Before it runs a handler, the tool host (the [call_tool] wrapper of
    the MCP server library) validates the arguments against the input
    schema the tool advertises.  The validation below covers the keywords
    the advertised schemas use: [type], [required], [properties], [enum],
    [maximum] and [items]; [description] and [default] constrain nothing.
    A boolean is not an integer. *)
Definition has_json_type (ty : string) (v : pyval) : bool :=
  match v with
  | VInt _ => (ty =? "integer")%string || (ty =? "number")%string
  | _ => (ty =? json_type_of v)%string
  end.

(** Equality of an instance with an entry of an [enum]; the advertised
    enums hold strings. *)
Definition scalar_equal (v entry : pyval) : bool :=
  match v, entry with
  | VNone, VNone => true
  | VBool x, VBool y => Bool.eqb x y
  | VInt x, VInt y => (x =? y)%Z
  | VStr x, VStr y => (x =? y)%string
  | _, _ => false
  end.

Definition check_keywords (schema : pydict) (v : pyval) : bool :=
  match dict_get schema "type" with
  | Some (VStr ty) => has_json_type ty v
  | _ => true
  end
  && match dict_get schema "enum" with
     | Some (VList allowed) => existsb (scalar_equal v) allowed
     | _ => true
     end
  && match dict_get schema "maximum", v with
     | Some (VInt most), VInt z => (z <=? most)%Z
     | _, _ => true
     end.

Definition valid_value (schema v : pyval) : bool :=
  match schema with
  | VDict keywords =>
      check_keywords keywords v
      && match dict_get keywords "items", v with
         | Some (VDict item_schema), VList items =>
             forallb (check_keywords item_schema) items
         | _, _ => true
         end
  | _ => true
  end.

Definition valid_arguments (t : Server.Tool) (arguments : pydict) : bool :=
  match Server.inputSchema t with
  | VDict schema =>
      check_keywords schema (VDict arguments)
      && forallb (fun field => match dict_get arguments field with
                               | Some _ => true
                               | None => false
                               end) (schema_required t)
      && forallb (fun property =>
                    match dict_get arguments (fst property) with
                    | Some v => valid_value (snd property) v
                    | None => true
                    end) (schema_properties t)
  | _ => true
  end.

(** The host lets a call through to its handler when the arguments are
    valid for the advertised tool; a tool it does not know is not
    validated. *)
Definition accepted (tool_name : string) (arguments : pydict) : bool :=
  match find_tool Server.list_tools tool_name with
  | Some t => valid_arguments t arguments
  | None => true
  end.

(** A tool host that serves [git_mcp2] against the remote side [env].  A
    call whose arguments are not valid is answered with one segment, the
    validator's finding, whose wording [explain] stands for, and the
    handler is not run.  Otherwise [handle_tool_call] runs and its
    segments are the content of the reply; an exception that leaves the
    handler comes back as one segment holding its message. *)
Definition hosted (token : option string) (decode : pyval -> result string)
           (explain : string -> pydict -> string) (env : environment)
  : Client.world :=
  {| Client.SERVER_PATH := "mcp_server.py";
     Client.server_exists := true;
     Client.serve := fun tool_name arguments =>
       if accepted tool_name arguments
       then
         match outcome env (Server.handle_tool_call token decode tool_name
                              (VDict arguments)) with
         | Ok segments => Client.Replies (Client.reply_of segments)
         | Err e =>
             Client.Replies (Client.reply_of [Server.text_content (str_exn e)])
         end
       else
         Client.Replies
           (Client.reply_of
              [Server.text_content
                 ("Input validation error: " ++ explain tool_name arguments)]) |}.

(** The largest number of tokens each command word reads: the command
    word, its required arguments and its optional ones. *)
Definition command_maximum : list (string * nat) :=
  [ ("list_repositories", 2); ("get_repo_details", 2); ("search_repositories", 4);
    ("create_repository", 4); ("fork_repository", 2); ("list_issues", 4);
    ("create_issue", 4); ("update_issue", 6); ("list_pull_requests", 3);
    ("create_pull_request", 6); ("get_file_contents", 4);
    ("create_or_update_file", 7); ("list_branches", 2); ("create_branch", 4);
    ("list_commits", 3); ("search_code", 2); ("list_releases", 2);
    ("get_user_info", 2) ]%nat.

Definition max_tokens (cmd : string) : option nat :=
  lookup_minimum command_maximum cmd.

(** A word without white space, quotes or escape characters. *)
Fixpoint plain_word (w : string) : bool :=
  match w with
  | EmptyString => true
  | String c w' =>
      negb (Shlex.is_whitespace c) && negb (Shlex.is_quote c)
      && negb (Shlex.is_escape c) && plain_word w'
  end.

(** The texts the client keeps from a reply: the non-empty strings among
    the items' texts, in order. *)
Definition kept_texts (content : list Client.content_item) : list string :=
  flat_map (fun item => match Client.item_text item with
                        | VStr t => if (t =? "")%string then [] else [t]
                        | _ => []
                        end) content.

(** The command words of the mutating tools. *)
Definition mutating_names : list string :=
  [ "create_repository"; "fork_repository"; "create_issue"; "update_issue";
    "create_pull_request"; "create_or_update_file"; "create_branch" ].

(** A property of every call a computation may issue, whatever the
    remote side answers. *)
Fixpoint every_call {A : Type} (P : request -> Prop) (p : prog A) : Prop :=
  match p with
  | Ret _ => True
  | Raise _ => True
  | Http r k => P r /\ forall o, every_call P (k o)
  end.

(** The calls a tool of [git_mcp2] may make: to the GitHub API host, with
    the standard headers, and with [GET] unless the tool is a mutating
    one. *)
Definition api_call (token : option string) (tool_name : string) (r : request)
  : Prop :=
  prefix "https://api.github.com/" (url r) = true /\
  headers r = Server._get_headers token /\
  (~ In tool_name mutating_names -> method r = GET).

(** A repository reference the handlers accept: one slash, with text on
    both sides. *)
Definition reference_ok (s : string) : bool :=
  match split_on "/" s with
  | [owner; repo_name] =>
      negb (owner =? "")%string && negb (repo_name =? "")%string
  | _ => false
  end.

(** The field [key] is missing or holds a string. *)
Definition string_or_missing (d : pydict) (key : string) : Prop :=
  dict_get d key = None \/ exists s, dict_get d key = Some (VStr s).

(** The tools that take a repository reference. *)
Definition repo_tool_names : list string :=
  [ "get_repo_details"; "list_issues"; "create_issue"; "update_issue";
    "list_pull_requests"; "create_pull_request"; "get_file_contents";
    "create_or_update_file"; "list_branches"; "create_branch"; "list_commits";
    "fork_repository"; "list_releases" ].

(** A computation that returns a value against every remote side. *)
Definition never_raises {A : Type} (p : prog A) : Prop :=
  forall env hist, exists a, snd (run_from env hist p) = Ok a.

(** A computation that only returns one error segment. *)
Definition refuses (p : prog (list Server.TextContent)) : Prop :=
  exists message, p = Ret [Server.text_content ("❌ " ++ message)].

(** The statuses each tool takes for success. *)
Definition accepted_statuses (tool_name : string) : list Z :=
  if existsb (String.eqb tool_name)
       ["create_repository"; "create_issue"; "create_pull_request";
        "create_or_update_file"]
  then [200; 201]
  else if (tool_name =? "fork_repository")%string then [200; 202]
  else [200].

(** What a tool reports for a refused call whose body has no [message]. *)
Definition status_text (tool_name : string) (status : Z) : string :=
  if (tool_name =? "list_repositories")%string
  then "Error: " ++ of_Z status
  else of_Z status.

(** Base64 decoding of padded text (RFC 4648), the inverse the file-read
    path relies on. *)
Definition b64_value (c : ascii) : option nat :=
  let n := nat_of_ascii c in
  if ((65 <=? n) && (n <=? 90))%nat then Some (n - 65)%nat
  else if ((97 <=? n) && (n <=? 122))%nat then Some (n - 71)%nat
  else if ((48 <=? n) && (n <=? 57))%nat then Some (n + 4)%nat
  else if (n =? 43)%nat then Some 62%nat
  else if (n =? 47)%nat then Some 63%nat
  else None.

Definition is_pad (c : ascii) : bool := Ascii.eqb c "=".

Fixpoint b64decode (s : string) : option string :=
  match s with
  | EmptyString => Some EmptyString
  | String a (String b (String c (String d rest))) =>
      match b64_value a, b64_value b with
      | Some x, Some y =>
          let first := chr (x * 4 + y / 16) in
          if is_pad c
          then if is_pad d && (rest =? "")%string
               then Some (str1 first) else None
          else match b64_value c with
               | None => None
               | Some z =>
                   let second := chr (y mod 16 * 16 + z / 4) in
                   if is_pad d
                   then if (rest =? "")%string
                        then Some (String first (str1 second)) else None
                   else match b64_value d, b64decode rest with
                        | Some w, Some tail =>
                            Some (String first
                                    (String second
                                       (String (chr (z mod 4 * 64 + w)) tail)))
                        | _, _ => None
                        end
               end
      | _, _ => None
      end
  | _ => None
  end.

(** The body of a file-write call: its [content] field is Base64 text
    that decodes to [content]. *)
Definition carries_content (content : string) (r : request) : Prop :=
  method r = PUT /\
  exists body encoded,
    json r = Some (VDict body) /\
    dict_get body "content" = Some (VStr encoded) /\
    b64decode encoded = Some content.

End Spec.

(* ===================================================================== *)
(** * Properties *)
(* ===================================================================== *)

Import PyStr Py Http Spec.

(* --------------------------------------------------------------------- *)
(** ** Strings *)
(* --------------------------------------------------------------------- *)

Section SplitOn.

Variable sep : ascii.

Lemma split_on_nonempty (s : string) : split_on sep s <> [].
Proof.
  destruct s as [|c s]; simpl; [discriminate|].
  destruct (Ascii.eqb c sep); [discriminate|].
  destruct (split_on sep s); discriminate.
Qed.

Lemma split_on_length (s : string) :
  List.length (split_on sep s) = S (count_byte sep s).
Proof.
  induction s as [|c s IH]; simpl; [reflexivity|].
  destruct (Ascii.eqb c sep); simpl.
  - now rewrite IH.
  - destruct (split_on sep s) as [|h t] eqn:E; simpl in *; [discriminate|exact IH].
Qed.

Lemma split_on_no_sep (s : string) :
  count_byte sep s = 0%nat -> split_on sep s = [s].
Proof.
  induction s as [|c s IH]; simpl; [reflexivity|].
  destruct (Ascii.eqb c sep); simpl; [discriminate|].
  intros H. now rewrite (IH H).
Qed.

Lemma split_on_one_sep (s : string) :
  count_byte sep s = 1%nat ->
  exists owner name,
    split_on sep s = [owner; name] /\ s = (owner ++ String sep name)%string /\
    count_byte sep owner = 0%nat /\ count_byte sep name = 0%nat.
Proof.
  induction s as [|c s IH]; simpl; [discriminate|].
  destruct (Ascii.eqb c sep) eqn:E; simpl; intros H.
  - apply Ascii.eqb_eq in E. subst c.
    injection H as H. exists EmptyString, s.
    rewrite (split_on_no_sep _ H). repeat split; assumption.
  - destruct (IH H) as (o & n & Hs & Heq & Ho & Hn).
    exists (String c o), n. rewrite Hs. simpl. rewrite E.
    repeat split; try assumption. now rewrite Heq.
Qed.

End SplitOn.

Lemma append_empty_r (s : string) : (s ++ "")%string = s.
Proof.
  induction s as [|c s IH]; simpl; [reflexivity|now rewrite IH].
Qed.









(* --------------------------------------------------------------------- *)
(** ** The repository-reference splitter *)
(* --------------------------------------------------------------------- *)

(** C3, as stated, fails: a reference with exactly one slash may have an
    empty side.  ["/repo"] has one slash and its owner comes back as the
    empty string. *)
Lemma parse_repo_string_empty_owner :
  ~ (forall s, count_byte "/" s = 1%nat ->
       exists owner name,
         Server._parse_repo_string (VStr s) = Ok (VStr owner, VStr name) /\
         owner <> EmptyString /\ name <> EmptyString).
Proof.
  intros H. destruct (H "/repo" eq_refl) as (o & n & E & Ho & _).
  vm_compute in E. injection E as E _. apply Ho. now rewrite <- E.
Qed.

(** C3, amended: the empty string gives [(None, None)]; a string with
    exactly one slash gives the text before the slash and the text after
    it, either of which may be empty; any other string gives
    [(None, original_string)]. *)
Theorem parse_repo_string_spec (s : string) :
  (s = EmptyString -> Server._parse_repo_string (VStr s) = Ok (VNone, VNone)) /\
  (count_byte "/" s = 1%nat ->
     exists owner name,
       s = (owner ++ "/" ++ name)%string /\
       count_byte "/" owner = 0%nat /\ count_byte "/" name = 0%nat /\
       Server._parse_repo_string (VStr s) = Ok (VStr owner, VStr name)) /\
  (s <> EmptyString -> count_byte "/" s <> 1%nat ->
     Server._parse_repo_string (VStr s) = Ok (VNone, VStr s)).
Proof.
  split; [|split].
  - intros ->. reflexivity.
  - intros H. destruct (split_on_one_sep "/" s H) as (o & n & Hs & Heq & Ho & Hn).
    exists o, n. repeat split; try assumption.
    unfold Server._parse_repo_string.
    destruct s as [|c s]; [discriminate|].
    cbn [truthy negb String.eqb]. rewrite Hs. reflexivity.
  - intros Hne Hc. unfold Server._parse_repo_string.
    destruct s as [|c s]; [congruence|].
    cbn [truthy negb String.eqb]. rewrite split_on_length.
    destruct (Nat.eqb_spec (S (count_byte "/" (String c s))) 2) as [E|E];
      [|reflexivity].
    exfalso. apply Hc. lia.
Qed.

Lemma parse_repo_string_spec_witness :
  exists owner name,
    "octocat/hello" = (owner ++ "/" ++ name)%string /\
    count_byte "/" owner = 0%nat /\ count_byte "/" name = 0%nat /\
    Server._parse_repo_string (VStr "octocat/hello") = Ok (VStr owner, VStr name).
Proof.
  exact (proj1 (proj2 (parse_repo_string_spec "octocat/hello")) eq_refl).
Defined.

(** What the splitter lets through the handlers stop: a reference with an
    empty side is answered as an invalid reference, before any call. *)
Lemma empty_side_is_invalid_reference
  (token : option string) (name owner_or_name : string) :
  Server.get_repo_details token name
    (VDict [("repo", VStr ("/" ++ owner_or_name))])
  = Ret [Server.text_content "❌ Invalid repo format. Use 'owner/repo'"] /\
  (count_byte "/" owner_or_name = 0%nat ->
   Server.get_repo_details token name
     (VDict [("repo", VStr (owner_or_name ++ "/"))])
   = Ret [Server.text_content "❌ Invalid repo format. Use 'owner/repo'"]).
Proof.
  split.
  - unfold Server.get_repo_details. cbn [py_get py_get_default dict_get String.eqb
      Ascii.eqb Bool.eqb pure bind].
    unfold Server._parse_repo_string. cbn [truthy negb String.eqb append].
    cbn [split_on]. change (Ascii.eqb "/" "/") with true. cbn iota.
    destruct (List.length (EmptyString :: split_on "/" owner_or_name) =? 2)%nat;
      reflexivity.
  - intros H. unfold Server.get_repo_details.
    cbn [py_get py_get_default dict_get String.eqb Ascii.eqb Bool.eqb pure bind].
    assert (E : Server._parse_repo_string (VStr (owner_or_name ++ "/"))
                = Ok (VStr owner_or_name, VStr "")).
    { unfold Server._parse_repo_string.
      assert (Hs : split_on "/" (owner_or_name ++ "/") = [owner_or_name; EmptyString]).
      { clear - H. induction owner_or_name as [|c s IH]; [reflexivity|].
        simpl in *. destruct (Ascii.eqb c "/"); [discriminate|].
        now rewrite (IH H). }
      rewrite Hs. destruct owner_or_name; reflexivity. }
    rewrite E. cbn [pure bind truthy String.eqb negb].
    rewrite orb_true_r. reflexivity.
Qed.

(* --------------------------------------------------------------------- *)
(** ** The argument normaliser *)
(* --------------------------------------------------------------------- *)

Lemma extract_arguments_total (arguments : pyval) :
  dict_or_none arguments ->
  exists args, Server._extract_arguments arguments = Ok args.
Proof.
  intros [-> | [d ->]]; [eexists; reflexivity|].
  unfold Server._extract_arguments.
  destruct d as [|[k v] d]; [eexists; reflexivity|].
  cbn [truthy negb py_contains rbind py_getitem].
  destruct (dict_get ((k, v) :: d) "arguments"); eexists; reflexivity.
Qed.

(** C9: [_extract_arguments] never faults on a mapping or on [None]: a
    missing or empty argument value gives the empty mapping, a mapping
    wrapped under the key ["arguments"] gives what is stored under that
    key, and a non-empty mapping without that key comes back unchanged. *)
Theorem extract_arguments_spec :
  Server._extract_arguments VNone = Ok (VDict []) /\
  Server._extract_arguments (VDict []) = Ok (VDict []) /\
  (forall d inner,
     dict_get d "arguments" = Some inner ->
     Server._extract_arguments (VDict d) = Ok inner) /\
  (forall d,
     d <> [] -> dict_get d "arguments" = None ->
     Server._extract_arguments (VDict d) = Ok (VDict d)).
Proof.
  repeat split.
  - intros d inner H. unfold Server._extract_arguments.
    destruct d as [|kv d]; [discriminate|].
    cbn [truthy negb py_contains rbind py_getitem]. now rewrite H.
  - intros d Hne H. unfold Server._extract_arguments.
    destruct d as [|kv d]; [congruence|].
    cbn [truthy negb py_contains rbind py_getitem]. now rewrite H.
Qed.

Lemma extract_arguments_spec_witness :
  Server._extract_arguments
    (VDict [("arguments", VDict [("username", VStr "octocat")])])
  = Ok (VDict [("username", VStr "octocat")]) /\
  Server._extract_arguments (VDict [("username", VStr "octocat")])
  = Ok (VDict [("username", VStr "octocat")]).
Proof.
  split.
  - apply (proj1 (proj2 (proj2 extract_arguments_spec))). reflexivity.
  - apply (proj2 (proj2 (proj2 extract_arguments_spec)));
      [discriminate | reflexivity].
Defined.

(* --------------------------------------------------------------------- *)
(** ** Dispatch *)
(* --------------------------------------------------------------------- *)

(** The registry holds exactly the eighteen tool names. *)
Lemma handlers_get_none_iff
  (token : option string) (decode : pyval -> result string) (name : string) :
  Server.handlers_get (Server.handlers token decode) name = None
  <-> ~ In name tool_names.
Proof.
  unfold Server.handlers, tool_names. cbn [Server.handlers_get In].
  repeat match goal with
         | |- context [(?w =? name)%string] =>
             destruct (String.eqb_spec w name) as [<-|?]
         end;
    split; intros H; try discriminate; try tauto; try reflexivity.
Qed.

(** C6: a tool name outside the registry gets exactly one error segment
    that names it, whatever the arguments, and nothing is raised; this
    holds for the dispatcher of [git_mcp2] and for that of [git_mcp1]. *)
Theorem unknown_tool_is_one_error_segment
  (token : option string) (decode : pyval -> result string)
  (name : string) (arguments : pyval) :
  (dict_or_none arguments ->
   Server.handlers_get (Server.handlers token decode) name = None ->
   Server.handle_tool_call token decode name arguments
   = Ret [Server.text_content ("❌ Unknown tool: " ++ name)]) /\
  (name <> "list_repositories" -> name <> "get_repo_details" ->
   Server1.handle_tool_call token name arguments
   = Ret [Server.text_content ("❌ Unknown tool: " ++ name)]).
Proof.
  split.
  - intros Hty Hreg. unfold Server.handle_tool_call.
    destruct (extract_arguments_total arguments Hty) as [args ->].
    cbn [pure bind]. now rewrite Hreg.
  - intros H1 H2. unfold Server1.handle_tool_call.
    destruct (String.eqb_spec name "list_repositories"); [contradiction|].
    destruct (String.eqb_spec name "get_repo_details"); [contradiction|].
    reflexivity.
Qed.

Lemma unknown_tool_is_one_error_segment_witness :
  Server.handle_tool_call None (fun _ => Ok EmptyString) "delete_repository"
    (VDict [("repo", VStr "octocat/hello")])
  = Ret [Server.text_content "❌ Unknown tool: delete_repository"] /\
  Server1.handle_tool_call None "delete_repository"
    (VDict [("repo", VStr "octocat/hello")])
  = Ret [Server.text_content "❌ Unknown tool: delete_repository"].
Proof.
  pose proof (unknown_tool_is_one_error_segment None (fun _ => Ok EmptyString)
                "delete_repository" (VDict [("repo", VStr "octocat/hello")]))
    as [H2 H1].
  split.
  - apply H2; [right; eexists; reflexivity | reflexivity].
  - apply H1; discriminate.
Defined.

(* --------------------------------------------------------------------- *)
(** ** The credential gate *)
(* --------------------------------------------------------------------- *)

(** C4: without a token every mutating tool returns the fixed
    credential-required segment and issues no call, for all arguments and
    against every remote side. *)
Theorem mutating_tools_need_token
  (token : option string) (h : Server.handler) (name : string)
  (arguments : pyval) (env : environment) :
  Server.no_token token = true ->
  In h (mutating_tools token) ->
  h name arguments
  = Ret [Server.text_content "❌ GitHub token required for this operation"] /\
  calls env (h name arguments) = [].
Proof.
  intros Hno Hin.
  assert (E : h name arguments = Ret (Server.token_required)).
  { unfold mutating_tools in Hin. simpl in Hin.
    repeat (destruct Hin as [<- | Hin];
            [ cbv delta [Server.create_repository Server.fork_repository
                         Server.create_issue Server.update_issue
                         Server.create_pull_request Server.create_or_update_file
                         Server.create_branch] beta;
              rewrite Hno; reflexivity | ]).
    contradiction. }
  rewrite E. split; reflexivity.
Qed.

Lemma mutating_tools_need_token_witness :
  Server.create_issue None "create_issue"
    (VDict [("repo", VStr "octocat/hello"); ("title", VStr "Title")])
  = Ret [Server.text_content "❌ GitHub token required for this operation"] /\
  calls (fun _ _ => Err (RequestError "unreachable"))
    (Server.create_issue None "create_issue"
       (VDict [("repo", VStr "octocat/hello"); ("title", VStr "Title")])) = [].
Proof.
  apply (mutating_tools_need_token None (Server.create_issue None)).
  - reflexivity.
  - simpl. tauto.
Defined.

(* --------------------------------------------------------------------- *)
(** ** The command parser *)
(* --------------------------------------------------------------------- *)

Ltac split_on_command cmd :=
  repeat match goal with
         | |- context [(cmd =? ?w)%string] => destruct (cmd =? w)%string
         | H : context [(cmd =? ?w)%string] |- _ => destruct (cmd =? w)%string
         end.

Lemma parse_parts_too_few (parts : list string) (m : nat) :
  min_tokens (lower (Client.part parts 0)) = Some m ->
  (List.length parts < m)%nat ->
  Client.parse_parts parts = Ok None.
Proof.
  intros Hmin Hlen. destruct parts as [|p ps]; [reflexivity|].
  cbv beta iota zeta delta [Client.parse_parts].
  set (parts := p :: ps) in *.
  unfold min_tokens, command_minimum, lookup_minimum in Hmin.
  set (cmd := lower (Client.part parts 0)) in *.
  split_on_command cmd; try discriminate; try reflexivity;
    injection Hmin as <-; unfold Client.fewer;
    apply Nat.ltb_lt in Hlen; rewrite Hlen; reflexivity.
Qed.

(** The minimum is the least count that gets past the guard: with at
    least that many tokens the parser does not answer "no command". *)
Lemma parse_parts_enough (parts : list string) (m : nat) :
  min_tokens (lower (Client.part parts 0)) = Some m ->
  (m <= List.length parts)%nat ->
  Client.parse_parts parts <> Ok None.
Proof.
  intros Hmin Hlen. destruct parts as [|p ps].
  { unfold min_tokens, command_minimum, lookup_minimum in Hmin.
    vm_compute in Hmin. discriminate. }
  cbv beta iota zeta delta [Client.parse_parts].
  set (parts := p :: ps) in *.
  unfold min_tokens, command_minimum, lookup_minimum in Hmin.
  set (cmd := lower (Client.part parts 0)) in *.
  split_on_command cmd; try discriminate;
    injection Hmin as <-; unfold Client.fewer;
    apply Nat.ltb_ge in Hlen; rewrite Hlen; try discriminate.
  destruct (py_int (Client.part parts 2)); discriminate.
Qed.

(** C7: for every recognised command word, a line with fewer tokens than
    the word's minimum parses to "no command": [(None, None)] is
    returned, no argument mapping is built and nothing is raised. *)
Theorem too_few_tokens_is_no_command (query : string) (m : nat) :
  min_tokens (lower (Client.part (Client.tokenize query) 0)) = Some m ->
  (List.length (Client.tokenize query) < m)%nat ->
  Client.parse_command query = Ok None.
Proof.
  unfold Client.parse_command. apply parse_parts_too_few.
Qed.

Lemma too_few_tokens_is_no_command_witness :
  Client.parse_command "create_pull_request octocat/hello 'Fix the bug' feature"
  = Ok None.
Proof.
  apply (too_few_tokens_is_no_command
           "create_pull_request octocat/hello 'Fix the bug' feature" 5).
  - reflexivity.
  - vm_compute. lia.
Defined.

(* --------------------------------------------------------------------- *)
(** ** The session orchestrator *)
(* --------------------------------------------------------------------- *)

Lemma process_response_well_formed (r : Client.client_result) :
  Client.is_error_result (Client.process_response r) = true \/
  Client.is_data_result (Client.process_response r) = true.
Proof.
  destruct r as [|[content|] [e|]]; try (left; reflexivity);
    unfold Client.process_response;
    (destruct content as [|item content]; [left; reflexivity|]);
    (destruct (Client.extract_results (item :: content) []) as [err|results] eqn:E;
     [ left | destruct results as [|one [|two rest]];
              [left; reflexivity | right; reflexivity | right; reflexivity] ]).
  all: clear - E; revert E; generalize (@nil string); generalize (item :: content);
    intros c; induction c as [|i c IH]; intros acc; simpl; [discriminate|];
    destruct (Client.item_text i); try apply IH;
    destruct (negb (s =? "")%string); try apply IH;
    destruct (contains "❌" s); try apply IH;
    intros E; injection E as <-; reflexivity.
Qed.

(** Once the command line has parsed, [run_github_agent] returns, and
    what it returns is an error result or a data result. *)
Lemma run_github_agent_returns_when_parsed
  (w : Client.world) (query : string) (c : Client.command) :
  Client.parse_command query = Ok c ->
  exists d, Client.run_github_agent w query = Ok d /\
            (Client.is_error_result d = true \/ Client.is_data_result d = true).
Proof.
  intros Hp. unfold Client.run_github_agent.
  destruct ((query =? "")%string || (strip query =? "")%string);
    [eexists; split; [reflexivity | left; reflexivity]|].
  rewrite Hp. cbn [rbind].
  destruct c as [[tool_name arguments]|];
    [|eexists; split; [reflexivity | left; reflexivity]].
  destruct ((tool_name =? "")%string || negb (truthy (VDict arguments)));
    [eexists; split; [reflexivity | left; reflexivity]|].
  destruct (Client.create_github_session w);
    [|eexists; split; [reflexivity | left; reflexivity]].
  destruct (Client.serve w tool_name arguments) as [e|e|r];
    try (eexists; split; [reflexivity | left; reflexivity]).
  eexists; split; [reflexivity | apply process_response_well_formed].
Qed.

(** An [update_issue] line whose third token is not an integer literal
    makes [run_github_agent] raise what [int] raises. *)
Lemma update_issue_bad_number_escapes
  (w : Client.world) (query : string) (e : exn) :
  (query =? "")%string || (strip query =? "")%string = false ->
  lower (Client.part (Client.tokenize query) 0) = "update_issue" ->
  (3 <= List.length (Client.tokenize query))%nat ->
  py_int (Client.part (Client.tokenize query) 2) = Err e ->
  Client.run_github_agent w query = Err e.
Proof.
  intros Hq Hcmd Hlen Hint. unfold Client.run_github_agent, Client.parse_command.
  rewrite Hq. destruct (Client.tokenize query) as [|p ps] eqn:E;
    [simpl in Hlen; lia|].
  cbv beta iota zeta delta [Client.parse_parts].
  rewrite Hcmd. cbn [String.eqb Ascii.eqb Bool.eqb].
  unfold Client.fewer. apply Nat.ltb_ge in Hlen. rewrite Hlen, Hint.
  reflexivity.
Qed.

(** C1, the failing input: the issue number [abc] makes [int] raise
    inside [parse_command], which [run_github_agent] calls before its
    [try] block, so the [ValueError] leaves [run_github_agent] instead of
    coming back as an error result, whatever the tool host does. *)
Theorem update_issue_non_integer_escapes (w : Client.world) :
  Client.run_github_agent w "update_issue octocat/hello abc"
  = Err (ValueError "invalid literal for int() with base 10: 'abc'").
Proof.
  reflexivity.
Qed.

Lemma dict_set_not_nil (d : pydict) (k : string) (v : pyval) :
  dict_set d k v <> [].
Proof.
  destruct d as [|[k' v'] d]; simpl; [discriminate|].
  destruct (k' =? k)%string; discriminate.
Qed.

Lemma optional_not_nil (parts : list string) (n : nat) (k : string) (d : pydict) :
  d <> [] -> Client.optional parts n k d <> [].
Proof.
  intros H. unfold Client.optional.
  destruct (Client.more parts n); [apply dict_set_not_nil|exact H].
Qed.

(** A parsed command has a tool name and at least one argument, so the
    test [not tool_name or not arguments] only catches "no command". *)
Lemma parse_command_some (query tool_name : string) (arguments : pydict) :
  Client.parse_command query = Ok (Some (tool_name, arguments)) ->
  tool_name <> EmptyString /\ arguments <> [].
Proof.
  unfold Client.parse_command. generalize (Client.tokenize query) as parts.
  intros parts H. destruct parts as [|p ps]; [discriminate|].
  cbv beta iota zeta delta [Client.parse_parts] in H.
  set (parts := p :: ps) in *.
  set (cmd := lower (Client.part parts 0)) in *.
  split_on_command cmd; try discriminate;
    try (destruct (Client.fewer parts _); [discriminate|]);
    try (destruct (py_int (Client.part parts 2)); [cbn [rbind] in H|discriminate]);
    injection H as <- <-; (split; [discriminate|]);
    repeat (apply optional_not_nil); try discriminate.
  destruct (Client.more parts 3);
    [apply dict_set_not_nil | apply optional_not_nil; discriminate].
Qed.




(* --------------------------------------------------------------------- *)
(** ** Branch creation *)
(* --------------------------------------------------------------------- *)

Lemma run_try_pure (env : environment) (hist : list request)
      (m : result (list Server.TextContent)) :
  run_from env hist (try_except (pure m) Server.on_exception)
  = (hist, Ok (match m with
               | Ok segments => segments
               | Err e => [Server.text_content ("❌ " ++ str_exn e)]
               end)).
Proof. destruct m; reflexivity. Qed.

Lemma remote_error_shape (resp : response) (dflt : string) :
  exists message,
    match Server.remote_error resp dflt with
    | Ok segments => segments
    | Err e => [Server.text_content ("❌ " ++ str_exn e)]
    end = [Server.text_content ("❌ " ++ message)].
Proof.
  unfold Server.remote_error.
  destruct (json_body resp) as [body|e]; cbn [rbind]; [|eexists; reflexivity].
  destruct (py_get_default body "message" (VStr dflt)); cbn [rbind];
    eexists; reflexivity.
Qed.

(** C5: [create_branch] issues at most two calls.  The first is the
    lookup of the source branch's reference; a second one, if any, is the
    creation of the new reference and carries exactly the commit hash read
    from the first answer, which then had status 200; when the first
    answer has another status no second call is issued and one error
    segment is returned. *)
Theorem create_branch_two_dependent_calls
  (token : option string) (name : string) (arguments : pyval) (env : environment) :
  let p := Server.create_branch token name arguments in
  (List.length (calls env p) <= 2)%nat /\
  (forall first rest,
     calls env p = first :: rest ->
     exists repo owner repo_name branch from_branch,
       py_get arguments "repo" = Ok repo /\
       Server._parse_repo_string repo = Ok (owner, repo_name) /\
       py_get arguments "branch" = Ok branch /\
       py_get_default arguments "from_branch" (VStr "main") = Ok from_branch /\
       first = ref_lookup token owner repo_name from_branch /\
       (rest = [] \/
        exists resp sha,
          env [] first = Ok resp /\ status_code resp = 200 /\
          commit_sha resp = Ok sha /\
          rest = [ref_creation token owner repo_name branch sha]) /\
       (forall resp,
          env [] first = Ok resp -> status_code resp <> 200 ->
          rest = [] /\ is_error_segment (outcome env p))).
Proof.
  intros p. subst p. unfold Server.create_branch.
  destruct (Server.no_token token). { split; [cbn; lia | intros; discriminate]. }
  destruct (py_get arguments "repo") as [repo|e] eqn:Hrepo; cbn [pure bind];
    [|split; [cbn; lia | intros; discriminate]].
  destruct (Server._parse_repo_string repo) as [[owner repo_name]|e] eqn:Hparse;
    cbn [pure bind]; [|split; [cbn; lia | intros; discriminate]].
  destruct (py_get arguments "branch") as [branch|e] eqn:Hbranch; cbn [pure bind];
    [|split; [cbn; lia | intros; discriminate]].
  destruct (negb (truthy owner) || negb (truthy repo_name)).
  { split; [cbn; lia | intros; discriminate]. }
  destruct (negb (truthy branch)).
  { split; [cbn; lia | intros; discriminate]. }
  destruct (py_get_default arguments "from_branch" (VStr "main"))
    as [from_branch|e] eqn:Hfrom;
    cbn [pure bind try_except]; [|split; [cbn; lia | intros; discriminate]].
  unfold calls, outcome, run. cbn [call bind try_except run_from app].
  fold (ref_lookup token owner repo_name from_branch).
  set (r1 := ref_lookup token owner repo_name from_branch).
  destruct (env [] r1) as [resp|e] eqn:E1; cbn [pure bind try_except].
  2: { cbn [Server.on_exception run_from fst snd List.length].
       split; [lia|]. intros first rest H. injection H as <- <-.
       exists repo, owner, repo_name, branch, from_branch.
       do 5 (split; [first [assumption | reflexivity]|]). split; [now left|]. intros resp H. congruence. }
  destruct (status_code resp =? 200) eqn:Es; cbn [negb].
  2: { rewrite run_try_pure. cbn [fst snd List.length].
       split; [lia|]. intros first rest H. injection H as <- <-.
       exists repo, owner, repo_name, branch, from_branch.
       do 5 (split; [first [assumption | reflexivity]|]). split; [now left|]. intros resp' _ _.
       split; [reflexivity|].
       destruct (remote_error_shape resp (of_Z (status_code resp))) as [m Hm].
       exists m. unfold is_error_segment. cbn [snd]. now rewrite Hm. }
  apply Z.eqb_eq in Es.
  change (ref <- json_body resp;; object <- py_getitem ref "object";;
          py_getitem object "sha")%result with (commit_sha resp).
  destruct (commit_sha resp) as [sha|e] eqn:Esha; cbn [pure bind try_except].
  2: { cbn [Server.on_exception run_from fst snd List.length].
       split; [lia|]. intros first rest H. injection H as <- <-.
       exists repo, owner, repo_name, branch, from_branch.
       do 5 (split; [first [assumption | reflexivity]|]). split; [now left|]. intros resp' H Hne.
       rewrite E1 in H. injection H as <-. contradiction. }
  cbn [run_from app].
  fold (ref_creation token owner repo_name branch sha).
  set (r2 := ref_creation token owner repo_name branch sha).
  assert (Hcalls : forall k : response -> prog (list Server.TextContent),
             (forall r, exists m, k r = pure m) ->
             fst (run_from env [r1; r2]
                    (try_except (resp0 <- pure (env [r1] r2) ;; k resp0)%prog
                       Server.on_exception)) = [r1; r2]).
  { intros k Hk. destruct (env [r1] r2) as [resp2|e2]; cbn [pure bind try_except];
      [|reflexivity].
    destruct (Hk resp2) as [m ->]. now rewrite run_try_pure. }
  rewrite Hcalls.
  2: { intros r. destruct (Server.status_not_in (status_code r) [200; 201]);
         [eexists; reflexivity|].
       eexists (Ok _). reflexivity. }
  cbn [List.length]. split; [lia|].
  intros first rest H. injection H as <- <-.
  exists repo, owner, repo_name, branch, from_branch.
  do 5 (split; [first [assumption | reflexivity]|]). split.
  - right. exists resp, sha. repeat split; assumption.
  - intros resp' H Hne. rewrite E1 in H. injection H as <-. contradiction.
Qed.

Lemma create_branch_two_dependent_calls_witness :
  calls creation_succeeds
    (Server.create_branch (Some "secret") "create_branch"
       (VDict [("repo", VStr "octocat/hello"); ("branch", VStr "feature")]))
  = [ ref_lookup (Some "secret") (VStr "octocat") (VStr "hello") (VStr "main");
      ref_creation (Some "secret") (VStr "octocat") (VStr "hello")
        (VStr "feature") (VStr "7fd1a60") ] /\
  exists resp,
    creation_succeeds []
      (ref_lookup (Some "secret") (VStr "octocat") (VStr "hello") (VStr "main"))
    = Ok resp /\ status_code resp = 200 /\ commit_sha resp = Ok (VStr "7fd1a60").
Proof.
  split; [reflexivity|].
  destruct (create_branch_two_dependent_calls (Some "secret") "create_branch"
              (VDict [("repo", VStr "octocat/hello"); ("branch", VStr "feature")])
              creation_succeeds) as [_ H].
  destruct (H _ _ eq_refl)
    as (repo & owner & repo_name & branch & from_branch
        & _ & _ & _ & _ & Hfirst & [Hrest | (resp & sha & Hresp & Hst & Hsha & Hrest)] & _).
  - discriminate Hrest.
  - exists resp.
    assert (sha = VStr "7fd1a60") as <-
        by (unfold ref_creation in Hrest; congruence).
    repeat split; assumption.
Defined.

(* --------------------------------------------------------------------- *)
(** ** Empty listings *)
(* --------------------------------------------------------------------- *)

(** The checks a handler makes before its call, case by case. *)
Ltac prevalidate :=
  repeat match goal with
         | |- context [bind (pure ?m) _] => destruct m as [?|?]; cbn [pure bind]
         | |- context [let (_, _) := ?p in _] => destruct p
         | |- context [if ?c then Ret _ else _] => destruct c
         end.

Ltac no_call := intros Hcalls; exfalso; apply Hcalls; reflexivity.

Ltac one_call Henv :=
  intros _; unfold outcome, run; cbn [call bind try_except run_from];
  rewrite Henv.

Lemma empty_listing_gives_text
  (token : option string) (h : Server.handler) (text : string)
  (name : string) (arguments : pyval) (env : environment) :
  In (h, text) (listing_tools token) ->
  (forall r, env [] r = Ok (empty_listing 200)) ->
  calls env (h name arguments) <> [] ->
  outcome env (h name arguments) = Ok [Server.text_content text].
Proof.
  intros Hin Henv. unfold listing_tools in Hin. simpl in Hin.
  repeat (destruct Hin as [Hin | Hin]; [injection Hin as <- <-|]);
    try contradiction.
  all: cbv beta delta [Server.list_repositories Server.list_issues
                       Server.list_pull_requests Server.list_branches
                       Server.list_commits Server.list_releases];
    prevalidate; try no_call; one_call Henv; reflexivity.
Qed.

Lemma empty_code_search_gives_text
  (token : option string) (name : string) (arguments : pyval)
  (env : environment) (d : pydict) :
  dict_get d "items" = Some (VList []) \/ dict_get d "items" = None ->
  (forall r, env [] r = Ok (mkResponse 200 (Ok (VDict d)))) ->
  calls env (Server.search_code token name arguments) <> [] ->
  outcome env (Server.search_code token name arguments)
  = Ok [Server.text_content "No code results found"].
Proof.
  intros Hd Henv. unfold Server.search_code.
  prevalidate; try no_call; one_call Henv.
  cbn [pure bind try_except status_code json_body Z.eqb Pos.eqb negb rbind
       py_get_default].
  destruct Hd as [-> | ->]; reflexivity.
Qed.

(** [search_repositories] has no such test: on an answer with status 200
    and no items it returns its header with the reported total. *)
Lemma search_repositories_nothing_listed
  (token : option string) (name : string) (arguments : pyval)
  (env : environment) (d : pydict) :
  dict_get d "items" = Some (VList []) \/ dict_get d "items" = None ->
  (forall r, env [] r = Ok (mkResponse 200 (Ok (VDict d)))) ->
  calls env (Server.search_repositories token name arguments) <> [] ->
  outcome env (Server.search_repositories token name arguments)
  = Ok [Server.text_content
          ("Found "
           ++ py_str (match dict_get d "total_count" with
                      | Some total => total
                      | None => VInt 0
                      end)
           ++ " repositories (showing 0):" ++ LF ++ LF)].
Proof.
  intros Hd Henv. unfold Server.search_repositories.
  prevalidate; try no_call; one_call Henv.
  cbn [pure bind try_except status_code json_body Z.eqb Pos.eqb negb rbind
       py_get_default].
  destruct Hd as [-> | ->];
    cbn [py_iter mapM rbind pure try_except run_from snd
         List.length String.concat];
    rewrite append_empty_r; reflexivity.
Qed.

(** What a handler returns on a refused call is one error segment,
    whatever the body of the answer holds. *)
Lemma remote_error_is_error_segment (resp : response) (dflt : string) :
  exists message,
    try_except (pure (Server.remote_error resp dflt)) Server.on_exception
    = Ret [Server.text_content ("❌ " ++ message)].
Proof.
  unfold Server.remote_error, Server.on_exception.
  destruct (json_body resp) as [body|e]; cbn [rbind pure try_except].
  - destruct (py_get_default body "message" (VStr dflt)) as [error|e];
      cbn [rbind pure try_except]; eexists; reflexivity.
  - eexists; reflexivity.
Qed.

Lemma refused_listing_is_error_segment
  (token : option string) (h : Server.handler)
  (name : string) (arguments : pyval) (env : environment) (resp : response) :
  In h (listing_handlers token) ->
  status_code resp <> 200 ->
  (forall r, env [] r = Ok resp) ->
  calls env (h name arguments) <> [] ->
  exists message,
    outcome env (h name arguments) = Ok [Server.text_content ("❌ " ++ message)].
Proof.
  intros Hin Hst Henv. apply Z.eqb_neq in Hst.
  unfold listing_handlers, listing_tools in Hin. cbn [map fst app In] in Hin.
  repeat (destruct Hin as [<- | Hin]); try contradiction.
  all: cbv beta delta [Server.list_repositories Server.list_issues
                       Server.list_pull_requests Server.list_branches
                       Server.list_commits Server.list_releases
                       Server.search_repositories Server.search_code];
    prevalidate; try no_call; one_call Henv;
    cbn [pure bind]; rewrite Hst; cbn [negb];
    match goal with
    | |- context [Server.remote_error ?r ?dflt] =>
        destruct (remote_error_is_error_segment r dflt) as [message E]
    end;
    exists message; rewrite E; reflexivity.
Qed.

(** C2, as stated, fails twice.  [search_repositories] has no test for an
    empty listing: on status 200 with no items it returns its usual header,
    which is none of the "nothing found" texts.  And a listing tool accepts
    status 200 only: on an empty listing with status 201 it returns an
    error segment. *)
Lemma empty_listing_not_always_nothing_found :
  outcome (fun _ _ => Ok (empty_search 200))
    (Server.search_repositories None "search_repositories"
       (VDict [("query", VStr "no-such-repository")]))
  = Ok [Server.text_content ("Found 0 repositories (showing 0):" ++ LF ++ LF)] /\
  existsb (String.eqb ("Found 0 repositories (showing 0):" ++ LF ++ LF))
    nothing_found_texts = false /\
  outcome (fun _ _ => Ok (empty_listing 201))
    (Server.list_repositories None "list_repositories"
       (VDict [("username", VStr "octocat")]))
  = Ok [Server.text_content "❌ 'list' object has no attribute 'get'"] /\
  existsb (String.eqb "❌ 'list' object has no attribute 'get'")
    nothing_found_texts = false.
Proof.
  repeat split; reflexivity.
Qed.

(** C2, amended: each of [list_repositories], [list_issues],
    [list_pull_requests], [list_branches], [list_commits] and
    [list_releases], once it has issued its call and the answer has status
    200 and no items, returns exactly one segment, its "No ... found"
    text; so does [search_code] on an answer with status 200 whose [items]
    are empty or missing.  [search_repositories] has no such test: on such
    an answer it returns exactly one segment, its header with the reported
    total.  For all eight tools an answer with any other status, another
    2xx code included, gives exactly one error segment, whatever its
    body. *)
Theorem empty_listing_is_nothing_found
  (token : option string) (name : string) (arguments : pyval) (env : environment) :
  (forall h text,
     In (h, text) (listing_tools token) ->
     (forall r, env [] r = Ok (empty_listing 200)) ->
     calls env (h name arguments) <> [] ->
     outcome env (h name arguments) = Ok [Server.text_content text]) /\
  (forall d,
     dict_get d "items" = Some (VList []) \/ dict_get d "items" = None ->
     (forall r, env [] r = Ok (mkResponse 200 (Ok (VDict d)))) ->
     calls env (Server.search_code token name arguments) <> [] ->
     outcome env (Server.search_code token name arguments)
     = Ok [Server.text_content "No code results found"]) /\
  (forall d,
     dict_get d "items" = Some (VList []) \/ dict_get d "items" = None ->
     (forall r, env [] r = Ok (mkResponse 200 (Ok (VDict d)))) ->
     calls env (Server.search_repositories token name arguments) <> [] ->
     outcome env (Server.search_repositories token name arguments)
     = Ok [Server.text_content
             ("Found "
              ++ py_str (match dict_get d "total_count" with
                         | Some total => total
                         | None => VInt 0
                         end)
              ++ " repositories (showing 0):" ++ LF ++ LF)]) /\
  (forall h resp,
     In h (listing_handlers token) ->
     status_code resp <> 200 ->
     (forall r, env [] r = Ok resp) ->
     calls env (h name arguments) <> [] ->
     exists message,
       outcome env (h name arguments)
       = Ok [Server.text_content ("❌ " ++ message)]).
Proof.
  split; [|split; [|split]].
  - intros h text. apply empty_listing_gives_text.
  - intros d. apply empty_code_search_gives_text.
  - intros d. apply search_repositories_nothing_listed.
  - intros h resp. apply refused_listing_is_error_segment.
Qed.

Lemma empty_listing_is_nothing_found_witness :
  outcome (fun _ _ => Ok (empty_listing 200))
    (Server.list_issues None "list_issues" (VDict [("repo", VStr "octocat/hello")]))
  = Ok [Server.text_content "No issues found"] /\
  outcome (fun _ _ => Ok (empty_search 200))
    (Server.search_code None "search_code" (VDict [("query", VStr "no-such-code")]))
  = Ok [Server.text_content "No code results found"] /\
  outcome (fun _ _ => Ok (empty_search 200))
    (Server.search_repositories None "search_repositories"
       (VDict [("query", VStr "no-such-repository")]))
  = Ok [Server.text_content ("Found 0 repositories (showing 0):" ++ LF ++ LF)] /\
  exists message,
    outcome (fun _ _ => Ok (empty_listing 204))
      (Server.list_commits None "list_commits"
         (VDict [("repo", VStr "octocat/hello")]))
    = Ok [Server.text_content ("❌ " ++ message)].
Proof.
  pose proof (empty_listing_is_nothing_found None "list_issues"
                (VDict [("repo", VStr "octocat/hello")])
                (fun _ _ => Ok (empty_listing 200))) as [Hlist _].
  pose proof (empty_listing_is_nothing_found None "search_code"
                (VDict [("query", VStr "no-such-code")])
                (fun _ _ => Ok (empty_search 200))) as [_ [Hcode _]].
  pose proof (empty_listing_is_nothing_found None "search_repositories"
                (VDict [("query", VStr "no-such-repository")])
                (fun _ _ => Ok (empty_search 200))) as [_ [_ [Hrepos _]]].
  pose proof (empty_listing_is_nothing_found None "list_commits"
                (VDict [("repo", VStr "octocat/hello")])
                (fun _ _ => Ok (empty_listing 204))) as [_ [_ [_ Hrefused]]].
  split; [|split; [|split]].
  - apply (Hlist (Server.list_issues None) "No issues found").
    + simpl. tauto.
    + reflexivity.
    + discriminate.
  - apply (Hcode [("total_count", VInt 0); ("incomplete_results", VBool false);
                  ("items", VList [])]).
    + left. reflexivity.
    + reflexivity.
    + discriminate.
  - apply (Hrepos [("total_count", VInt 0); ("incomplete_results", VBool false);
                   ("items", VList [])]).
    + left. reflexivity.
    + reflexivity.
    + discriminate.
  - apply (Hrefused (Server.list_commits None) (empty_listing 204)).
    + simpl. tauto.
    + discriminate.
    + reflexivity.
    + discriminate.
Defined.

(* --------------------------------------------------------------------- *)
(** ** The issue listing *)
(* --------------------------------------------------------------------- *)

(** The loop over the entries visits the pull requests without reading
    them: what it appends, and whether it fails, depends on the issues
    proper alone. *)
Lemma format_issues_skip_pull_requests (issues : list pyval) :
  Forall is_object issues ->
  match mapM Server.format_issue issues with
  | Ok blocks => mapM Server.issue_block (issues_proper issues)
                 = Ok (Server.appended blocks)
  | Err e => mapM Server.issue_block (issues_proper issues) = Err e
  end.
Proof.
  induction 1 as [|issue issues Hobj _ IH]; [reflexivity|].
  destruct issue as [| | | | |d]; try contradiction.
  cbn [mapM issues_proper filter is_pull_request Server.format_issue
       py_contains rbind].
  fold (issues_proper issues).
  destruct (dict_get d "pull_request") as [pr|]; cbn [negb].
  - destruct (mapM Server.format_issue issues); exact IH.
  - cbn [mapM]. destruct (Server.issue_block (VDict d)) as [block|e];
      cbn [rbind]; [|reflexivity].
    destruct (mapM Server.format_issue issues) as [blocks|e].
    + now rewrite IH.
    + now rewrite IH.
Qed.

(** C8, as stated, fails: the handler accepts status 200 only, so on a
    201 answer the issue it was sent is not in the output; and an entry
    that lacks a field the block reads makes the whole output an error
    segment. *)
Lemma list_issues_entry_not_included :
  outcome (fun _ _ => Ok (mkResponse 201 (Ok (VList [crash_issue]))))
    (Server.list_issues None "list_issues" (VDict [("repo", VStr "octocat/hello")]))
  = Ok [Server.text_content "❌ 'list' object has no attribute 'get'"] /\
  is_pull_request crash_issue = false /\
  outcome (fun _ _ => Ok (mkResponse 200
                            (Ok (VList [crash_issue;
                                        VDict [("title", VStr "No number")]]))))
    (Server.list_issues None "list_issues" (VDict [("repo", VStr "octocat/hello")]))
  = Ok [Server.text_content "❌ 'number'"].
Proof.
  repeat split; reflexivity.
Qed.

(** C8, amended: on an answer with status 200 whose body is a non-empty
    list of JSON objects, the entries that carry the key [pull_request]
    are skipped and the output is made from the other entries alone, in
    order: their blocks joined by blank lines, or, when one of them lacks
    a field its block reads, the error segment of the first such failure. *)
Theorem list_issues_skips_pull_requests
  (token : option string) (name : string) (arguments : pyval)
  (env : environment) (issues : list pyval) :
  issues <> [] ->
  Forall is_object issues ->
  (forall r, env [] r = Ok (mkResponse 200 (Ok (VList issues)))) ->
  calls env (Server.list_issues token name arguments) <> [] ->
  outcome env (Server.list_issues token name arguments)
  = Ok [Server.text_content
          match mapM Server.issue_block (issues_proper issues) with
          | Ok blocks => String.concat (LF ++ LF) blocks
          | Err e => "❌ " ++ str_exn e
          end].
Proof.
  intros Hne Hobj Henv. unfold Server.list_issues.
  prevalidate; try no_call; one_call Henv.
  cbn [pure bind try_except status_code json_body Z.eqb Pos.eqb negb rbind].
  destruct issues as [|issue issues]; [congruence|].
  cbn [truthy negb py_iter rbind].
  pose proof (format_issues_skip_pull_requests (issue :: issues) Hobj) as H.
  destruct (mapM Server.format_issue (issue :: issues)) as [blocks|e];
    rewrite H; reflexivity.
Qed.

Lemma list_issues_skips_pull_requests_witness :
  outcome (fun _ _ => Ok (mkResponse 200 (Ok (VList [docs_pull; crash_issue]))))
    (Server.list_issues None "list_issues" (VDict [("repo", VStr "octocat/hello")]))
  = Ok [Server.text_content
          match mapM Server.issue_block (issues_proper [docs_pull; crash_issue]) with
          | Ok blocks => String.concat (LF ++ LF) blocks
          | Err e => "❌ " ++ str_exn e
          end] /\
  issues_proper [docs_pull; crash_issue] = [crash_issue].
Proof.
  split; [|reflexivity].
  apply (list_issues_skips_pull_requests None "list_issues"
           (VDict [("repo", VStr "octocat/hello")])).
  - discriminate.
  - repeat constructor.
  - reflexivity.
  - discriminate.
Defined.
(* --------------------------------------------------------------------- *)
(** ** Discovery, parsing and dispatch agree *)
(* --------------------------------------------------------------------- *)

(** Every advertised tool has a handler and every handler is advertised;
    no name is advertised twice. *)
Theorem advertised_tools_are_the_registry
  (token : option string) (decode : pyval -> result string) (tool_name : string) :
  (In tool_name (map Server.name Server.list_tools)
   <-> Server.handlers_get (Server.handlers token decode) tool_name <> None) /\
  NoDup (map Server.name Server.list_tools).
Proof.
  split.
  - assert (E : In tool_name (map Server.name Server.list_tools)
                <-> In tool_name tool_names).
    { cbn [map Server.list_tools Server.name tool_names In]. tauto. }
    rewrite E. pose proof (handlers_get_none_iff token decode tool_name) as H.
    destruct (Server.handlers_get (Server.handlers token decode) tool_name).
    + split; [discriminate|]. intros _.
      destruct (in_dec string_dec tool_name tool_names) as [Hin|Hout];
        [exact Hin|]. apply H in Hout. discriminate.
    + split; [|congruence]. intros Hin. exfalso. now apply H.
  - cbn [map Server.list_tools Server.name].
    repeat (constructor; [cbn [In]; intuition discriminate|]). constructor.
Qed.

Ltac split_on_command_eq cmd :=
  repeat match goal with
         | H : context [(cmd =? ?w)%string] |- _ =>
             destruct (String.eqb_spec cmd w)
         end.

Ltac split_on_more parts :=
  repeat match goal with
         | |- context [Client.more parts ?n] => destruct (Client.more parts n)
         end.

(** What the parser hands over fits the tool it names: the name is the
    lower-cased command word, the tool is advertised by the server, every
    field its schema requires is present, and every field present is a
    declared property holding a value of the declared type. *)
Theorem parsed_command_fits_its_tool
  (query tool_name : string) (arguments : pydict) :
  Client.parse_command query = Ok (Some (tool_name, arguments)) ->
  tool_name = lower (Client.part (Client.tokenize query) 0) /\
  exists t, find_tool Server.list_tools tool_name = Some t /\
            conforms t arguments = true.
Proof.
  unfold Client.parse_command. generalize (Client.tokenize query) as parts.
  intros parts H. destruct parts as [|p ps]; [discriminate|].
  cbv beta iota zeta delta [Client.parse_parts] in H.
  set (parts := p :: ps) in *.
  set (cmd := lower (Client.part parts 0)) in *.
  split_on_command_eq cmd; try discriminate;
    try (destruct (Client.fewer parts _); [discriminate|]);
    try (destruct (py_int (Client.part parts 2)); [cbn [rbind] in H|discriminate]);
    injection H as <- <-; (split; [congruence|]);
    unfold Client.optional; split_on_more parts;
    eexists; (split; [reflexivity|]); reflexivity.
Qed.

Lemma parsed_command_fits_its_tool_witness :
  "update_issue"
  = lower (Client.part (Client.tokenize "UPDATE_ISSUE octocat/hello 12 'New title'") 0) /\
  exists t, find_tool Server.list_tools "update_issue" = Some t /\
            conforms t [("repo", VStr "octocat/hello"); ("issue_number", VInt 12);
                        ("title", VStr "New title")] = true.
Proof.
  apply (parsed_command_fits_its_tool
           "UPDATE_ISSUE octocat/hello 12 'New title'"). reflexivity.
Defined.

Lemma part_app (parts extra : list string) (i : nat) :
  (i < List.length parts)%nat ->
  Client.part (parts ++ extra) i = Client.part parts i.
Proof. intros H. unfold Client.part. now apply app_nth1. Qed.

Lemma parse_parts_surplus (parts extra : list string) (m : nat) :
  max_tokens (lower (Client.part parts 0)) = Some m ->
  (m <= List.length parts)%nat ->
  Client.parse_parts (parts ++ extra) = Client.parse_parts parts.
Proof.
  intros Hmax Hlen. destruct parts as [|p ps].
  { vm_compute in Hmax. discriminate. }
  change ((p :: ps) ++ extra)%list with (p :: (ps ++ extra)%list).
  cbv beta iota zeta delta [Client.parse_parts].
  change (p :: (ps ++ extra)%list) with ((p :: ps) ++ extra)%list.
  set (parts := p :: ps) in *.
  rewrite (part_app parts extra 0) by (simpl; lia).
  unfold max_tokens, command_maximum, lookup_minimum in Hmax.
  set (cmd := lower (Client.part parts 0)) in *.
  split_on_command cmd; try discriminate; injection Hmax as <-;
    unfold Client.optional, Client.more, Client.fewer;
    rewrite ?length_app;
    repeat match goal with
           | |- context [Client.part (parts ++ extra) ?i] =>
               rewrite (part_app parts extra i) by lia
           | |- context [(?a <? ?b)%nat] =>
               first [ rewrite (proj2 (Nat.ltb_lt a b)) by lia
                     | rewrite (proj2 (Nat.ltb_ge a b)) by lia ]
           end;
    reflexivity.
Qed.

(** Tokens beyond the last argument a command reads are dropped without
    notice: a line that goes on after them parses to the same command. *)
Theorem surplus_tokens_are_ignored (query longer : string) (extra : list string) (m : nat) :
  max_tokens (lower (Client.part (Client.tokenize query) 0)) = Some m ->
  (m <= List.length (Client.tokenize query))%nat ->
  Client.tokenize longer = (Client.tokenize query ++ extra)%list ->
  Client.parse_command longer = Client.parse_command query.
Proof.
  intros Hmax Hlen Hmore. unfold Client.parse_command. rewrite Hmore.
  now apply parse_parts_surplus with (m := m).
Qed.

Lemma surplus_tokens_are_ignored_witness :
  Client.parse_command "create_issue octocat/hello Crash on start up"
  = Client.parse_command "create_issue octocat/hello Crash on".
Proof.
  apply (surplus_tokens_are_ignored "create_issue octocat/hello Crash on"
           "create_issue octocat/hello Crash on start up" ["start"; "up"] 4).
  - reflexivity.
  - vm_compute. lia.
  - reflexivity.
Defined.

(* --------------------------------------------------------------------- *)
(** ** Quoting *)
(* --------------------------------------------------------------------- *)

Lemma append_assoc_str (a b c : string) :
  ((a ++ b) ++ c)%string = (a ++ b ++ c)%string.
Proof.
  induction a as [|x a IH]; [reflexivity|]. cbn [append]. now rewrite IH.
Qed.

(** A plain word that is followed by a space is one token. *)
Lemma lex_in_word (w : string) :
  plain_word w = true ->
  forall quoted token rest,
    (token ++ w)%string <> EmptyString ->
    Shlex.lex Shlex.InWord quoted token (w ++ String " " rest)
    = match Shlex.lex Shlex.InSpace false "" rest with
      | Ok more => Ok ((token ++ w)%string :: more)
      | Err e => Err e
      end.
Proof.
  induction w as [|c w IH]; intros Hp quoted token rest Hne.
  - rewrite append_empty_r in *. cbn [append Shlex.lex].
    change (Shlex.is_whitespace " ") with true. cbn iota.
    destruct token; [congruence|]. reflexivity.
  - cbn [plain_word] in Hp.
    apply andb_prop in Hp as [Hp Hw]. apply andb_prop in Hp as [Hp He].
    apply andb_prop in Hp as [Hs Hq].
    apply negb_true_iff in Hs, Hq, He.
    cbn [append Shlex.lex]. rewrite Hs, Hq, He.
    rewrite IH; [|exact Hw|].
    + now rewrite append_assoc_str.
    + rewrite append_assoc_str. destruct token; discriminate.
Qed.

Lemma lex_word (w : string) :
  plain_word w = true -> w <> EmptyString ->
  forall quoted token rest,
    Shlex.lex Shlex.InSpace quoted token (w ++ String " " rest)
    = match Shlex.lex Shlex.InSpace false "" rest with
      | Ok more => Ok (w :: more)
      | Err e => Err e
      end.
Proof.
  intros Hp Hne quoted token rest. destruct w as [|c w]; [congruence|].
  cbn [plain_word] in Hp.
  apply andb_prop in Hp as [Hp Hw]. apply andb_prop in Hp as [Hp He].
  apply andb_prop in Hp as [Hs Hq].
  apply negb_true_iff in Hs, Hq, He.
  cbn [append Shlex.lex]. rewrite Hs, Hq, He.
  now rewrite lex_in_word by (exact Hw || discriminate).
Qed.

Lemma lex_single_quoted (s : string) :
  count_byte SQ s = 0%nat ->
  forall quoted token,
    Shlex.lex (Shlex.InQuote SQ) quoted token (s ++ str1 SQ)
    = Ok [(token ++ s)%string].
Proof.
  induction s as [|c s IH]; intros Hc quoted token.
  - rewrite append_empty_r. reflexivity.
  - cbn [count_byte] in Hc.
    destruct (Ascii.eqb c SQ) eqn:E; [discriminate|].
    cbn [append Shlex.lex]. rewrite E.
    replace (Shlex.is_escape c && Ascii.eqb SQ DQ) with false
      by (now rewrite andb_false_r).
    rewrite IH by exact Hc. now rewrite append_assoc_str.
Qed.

Lemma lex_unclosed_single_quote (s : string) :
  count_byte SQ s = 0%nat ->
  forall quoted token,
    Shlex.lex (Shlex.InQuote SQ) quoted token s
    = Err (ValueError "No closing quotation").
Proof.
  induction s as [|c s IH]; intros Hc quoted token; [reflexivity|].
  cbn [count_byte] in Hc.
  destruct (Ascii.eqb c SQ) eqn:E; [discriminate|].
  cbn [Shlex.lex]. rewrite E.
  replace (Shlex.is_escape c && Ascii.eqb SQ DQ) with false
    by (now rewrite andb_false_r).
  now apply IH.
Qed.

Lemma lex_open_quote (quoted : bool) (token rest : string) :
  Shlex.lex Shlex.InSpace quoted token (String SQ rest)
  = Shlex.lex (Shlex.InQuote SQ) quoted token rest.
Proof. reflexivity. Qed.

(** A single-quoted argument reaches the tool as it was typed, spaces
    included; a quote that is never closed does not fail the parse: the
    line is then split at white space instead. *)
Theorem quoted_argument_is_taken_verbatim (repo text : string) :
  plain_word repo = true -> repo <> EmptyString ->
  count_byte SQ text = 0%nat ->
  Client.parse_command
    ("create_issue " ++ repo ++ " " ++ str1 SQ ++ text ++ str1 SQ)
  = Ok (Some ("create_issue", [("repo", VStr repo); ("title", VStr text)])) /\
  Client.parse_command ("create_issue " ++ repo ++ " " ++ str1 SQ ++ text)
  = Client.parse_parts
      (split_ws ("create_issue " ++ repo ++ " " ++ str1 SQ ++ text)).
Proof.
  intros Hp Hne Hc. unfold Client.parse_command, Client.tokenize, Shlex.split.
  split.
  - change ("create_issue " ++ repo ++ " " ++ str1 SQ ++ text ++ str1 SQ)%string
      with ("create_issue"
            ++ String " " (repo ++ String " " (String SQ (text ++ str1 SQ))))%string.
    rewrite lex_word by (reflexivity || discriminate).
    rewrite lex_word by assumption.
    rewrite lex_open_quote, (lex_single_quoted text Hc).
    reflexivity.
  - change ("create_issue " ++ repo ++ " " ++ str1 SQ ++ text)%string
      with ("create_issue"
            ++ String " " (repo ++ String " " (String SQ text)))%string.
    rewrite lex_word by (reflexivity || discriminate).
    rewrite lex_word by assumption.
    rewrite lex_open_quote, (lex_unclosed_single_quote text Hc).
    reflexivity.
Qed.

Lemma quoted_argument_is_taken_verbatim_witness :
  Client.parse_command
    ("create_issue " ++ "octocat/hello" ++ " " ++ str1 SQ ++ "Crash on start" ++ str1 SQ)
  = Ok (Some ("create_issue",
              [("repo", VStr "octocat/hello"); ("title", VStr "Crash on start")])) /\
  Client.parse_command
    ("create_issue " ++ "octocat/hello" ++ " " ++ str1 SQ ++ "Crash on start")
  = Client.parse_parts
      (split_ws ("create_issue " ++ "octocat/hello" ++ " " ++ str1 SQ ++ "Crash on start")).
Proof.
  apply (quoted_argument_is_taken_verbatim "octocat/hello" "Crash on start").
  - reflexivity.
  - discriminate.
  - reflexivity.
Defined.

(* --------------------------------------------------------------------- *)
(** ** Replies without an error marker *)
(* --------------------------------------------------------------------- *)

Lemma extract_results_unmarked (content : list Client.content_item) :
  Forall unmarked content ->
  forall results,
    Client.extract_results content results
    = inr (results ++ kept_texts content)%list.
Proof.
  induction 1 as [|item content Hi _ IH]; intros results.
  - cbn. now rewrite app_nil_r.
  - cbn [Client.extract_results kept_texts flat_map].
    fold (kept_texts content).
    destruct (Client.item_text item) as [| | |t| |] eqn:E;
      try (rewrite IH; reflexivity).
    destruct (t =? "")%string; cbn [negb]; [rewrite IH; reflexivity|].
    rewrite (Hi t E), IH. now rewrite <- app_assoc.
Qed.

(** When no item of the reply holds the marker, the result carries the
    non-empty texts in the order of the reply: a single one as the data
    itself, several as a list with their count; without any it is an
    error result. *)
Theorem unmarked_reply_is_data
  (content : list Client.content_item) (err : option pyval) :
  Forall unmarked content ->
  match kept_texts content with
  | [] =>
      Client.is_error_result
        (Client.process_response (Client.Root (Some content) err)) = true
  | [one] =>
      Client.process_response (Client.Root (Some content) err)
      = [("success", VBool true); ("data", VStr one)]
  | texts =>
      Client.process_response (Client.Root (Some content) err)
      = [("success", VBool true); ("data", VList (map VStr texts));
         ("count", VInt (Z.of_nat (List.length texts)))]
  end.
Proof.
  intros H. unfold Client.process_response.
  destruct content as [|item content]; [reflexivity|].
  rewrite (extract_results_unmarked _ H). cbn [app].
  destruct (kept_texts (item :: content)) as [|one [|two rest]]; reflexivity.
Qed.

Lemma unmarked_reply_is_data_witness :
  Client.process_response
    (Client.Root (Some [Client.TextObject (VStr "full_name: octocat/hello");
                        Client.TextObject (VStr "");
                        Client.DictItem [("text", VStr "stars: 3")]]) None)
  = [("success", VBool true);
     ("data", VList [VStr "full_name: octocat/hello"; VStr "stars: 3"]);
     ("count", VInt 2)].
Proof.
  apply (unmarked_reply_is_data
           [Client.TextObject (VStr "full_name: octocat/hello");
            Client.TextObject (VStr "");
            Client.DictItem [("text", VStr "stars: 3")]] None).
  repeat constructor; intros t E; injection E as <-; reflexivity.
Defined.

(* --------------------------------------------------------------------- *)
(** ** From the command line to the credential gate *)
(* --------------------------------------------------------------------- *)

Lemma extract_arguments_flat (d : pydict) :
  dict_get d "arguments" = None ->
  Server._extract_arguments (VDict d) = Ok (VDict d).
Proof.
  intros H. unfold Server._extract_arguments.
  destruct d as [|kv d]; [reflexivity|].
  cbn [truthy negb py_contains rbind]. now rewrite H.
Qed.

(** The parser never builds a field called [arguments]. *)
Lemma parse_command_flat (query tool_name : string) (arguments : pydict) :
  Client.parse_command query = Ok (Some (tool_name, arguments)) ->
  dict_get arguments "arguments" = None.
Proof.
  unfold Client.parse_command. generalize (Client.tokenize query) as parts.
  intros parts H. destruct parts as [|p ps]; [discriminate|].
  cbv beta iota zeta delta [Client.parse_parts] in H.
  set (parts := p :: ps) in *.
  set (cmd := lower (Client.part parts 0)) in *.
  split_on_command cmd; try discriminate;
    try (destruct (Client.fewer parts _); [discriminate|]);
    try (destruct (py_int (Client.part parts 2)); [cbn [rbind] in H|discriminate]);
    injection H as <- <-;
    unfold Client.optional;
    repeat match goal with
           | |- context [Client.more parts ?n] => destruct (Client.more parts n)
           end;
    reflexivity.
Qed.



(** Nothing is started for a line that does not parse, and nothing is
    sent when the server file is missing: the first gives the
    invalid-command error with its usage hint, the second the
    communication error that names the missing path. *)
Theorem failures_before_the_session (w : Client.world) (query : string) :
  (query =? "")%string || (strip query =? "")%string = false ->
  (Client.parse_command query = Ok None ->
   Client.run_github_agent w query = Ok (Client.invalid_command query)) /\
  (forall c, Client.parse_command query = Ok (Some c) ->
             Client.server_exists w = false ->
             Client.run_github_agent w query
             = Ok (Client.error_response
                     (VStr ("Server communication failed: Server not found at: "
                            ++ Client.SERVER_PATH w)))).
Proof.
  intros Hq. unfold Client.run_github_agent. rewrite Hq. split.
  - intros ->. reflexivity.
  - intros [tool_name arguments] Hp Hs. rewrite Hp. cbn [rbind].
    destruct (parse_command_some _ _ _ Hp) as [Hn Ha].
    destruct (String.eqb_spec tool_name ""); [contradiction|].
    destruct arguments as [|kv arguments]; [contradiction|].
    cbn [truthy negb orb]. unfold Client.create_github_session.
    rewrite Hs. reflexivity.
Qed.

Lemma failures_before_the_session_witness :
  Client.run_github_agent
    (Client.mkWorld "/srv/mcp_server.py" false (fun _ _ => Client.Replies Client.NoRoot))
    "list_branches"
  = Ok (Client.invalid_command "list_branches") /\
  Client.run_github_agent
    (Client.mkWorld "/srv/mcp_server.py" false (fun _ _ => Client.Replies Client.NoRoot))
    "list_branches octocat/hello"
  = Ok (Client.error_response
          (VStr "Server communication failed: Server not found at: /srv/mcp_server.py")).
Proof.
  split.
  - apply (failures_before_the_session
             (Client.mkWorld "/srv/mcp_server.py" false
                (fun _ _ => Client.Replies Client.NoRoot)) "list_branches");
      reflexivity.
  - apply (proj2 (failures_before_the_session
             (Client.mkWorld "/srv/mcp_server.py" false
                (fun _ _ => Client.Replies Client.NoRoot))
             "list_branches octocat/hello" eq_refl)
             ("list_branches", [("repo", VStr "octocat/hello")]));
      reflexivity.
Defined.

(* --------------------------------------------------------------------- *)
(** ** The calls the tools make *)
(* --------------------------------------------------------------------- *)

Section EveryCall.

Context {A B : Type} (P : request -> Prop).

Lemma every_call_bind (m : prog A) (f : A -> prog B) :
  every_call P m -> (forall a, every_call P (f a)) -> every_call P (bind m f).
Proof.
  intros Hm Hf. induction m as [a|e|r k IH]; cbn [bind every_call] in *;
    [apply Hf | exact I |].
  destruct Hm as [Hr Hk]. split; [exact Hr|]. intros o. apply IH, Hk.
Qed.

Lemma every_call_try (m : prog A) (h : exn -> prog A) :
  every_call P m -> (forall e, every_call P (h e)) ->
  every_call P (try_except m h).
Proof.
  intros Hm Hh. induction m as [a|e|r k IH]; cbn [try_except every_call] in *;
    [exact I | apply Hh |].
  destruct Hm as [Hr Hk]. split; [exact Hr|]. intros o. apply IH, Hk.
Qed.

Lemma every_call_pure (m : result A) : every_call P (pure m).
Proof. destruct m; exact I. Qed.

Lemma every_call_run (env : environment) (p : prog A) :
  every_call P p ->
  forall hist, Forall P hist -> Forall P (fst (run_from env hist p)).
Proof.
  induction p as [a|e|r k IH]; intros Hp hist Hh; cbn [run_from fst];
    try exact Hh.
  destruct Hp as [Hr Hk]. apply IH; [apply Hk|].
  apply Forall_app. split; [exact Hh|]. now constructor.
Qed.

End EveryCall.

Lemma every_call_call (P : request -> Prop) (r : request) :
  P r -> every_call P (call r).
Proof.
  intros H. split; [exact H|]. intros o. apply every_call_pure.
Qed.

Ltac calls_step :=
  match goal with
  | |- every_call _ (Ret _) => exact I
  | |- every_call _ (Raise _) => exact I
  | |- every_call _ (pure _) => apply every_call_pure
  | |- every_call _ (Server.on_exception _) => exact I
  | |- every_call _ (call _) =>
      apply every_call_call; split; [reflexivity|]; split; [reflexivity|];
      first [ intros _; reflexivity
            | intros Hread; exfalso; apply Hread; cbn; tauto ]
  | |- every_call _ (bind _ _) => apply every_call_bind; [|intros ?]
  | |- every_call _ (try_except _ _) => apply every_call_try; [|intros ?]
  | |- every_call _ (let x := _ in _) => cbv zeta
  | |- every_call _ (if ?c then _ else _) => destruct c
  | |- every_call _ (match ?x with _ => _ end) => destruct x
  end.

Lemma handlers_make_api_calls
  (token : option string) (decode : pyval -> result string)
  (tool_name : string) (h : Server.handler) (name : string) (arguments : pyval) :
  Server.handlers_get (Server.handlers token decode) tool_name = Some h ->
  every_call (api_call token tool_name) (h name arguments).
Proof.
  unfold Server.handlers. cbn [Server.handlers_get].
  repeat match goal with
         | |- context [(?w =? tool_name)%string] =>
             destruct (String.eqb_spec w tool_name) as [<-|?]
         end;
    intros E; try discriminate; injection E as <-.
  all: cbv beta delta
         [Server.list_repositories Server.get_repo_details Server.list_issues
          Server.create_issue Server.update_issue Server.list_pull_requests
          Server.create_pull_request Server.get_file_contents
          Server.create_or_update_file Server.list_branches Server.create_branch
          Server.list_commits Server.search_repositories Server.search_code
          Server.create_repository Server.fork_repository Server.list_releases
          Server.get_user_info];
    repeat calls_step.
Qed.

(** Whatever the arguments and whatever the remote side answers, every
    call a tool of [git_mcp2] makes goes to [https://api.github.com/],
    carries the [Accept] header and, exactly when a token is configured,
    the [Authorization] header built from it; and a tool that is not a
    mutating one makes [GET] calls only. *)
Theorem tools_call_the_api_only
  (token : option string) (decode : pyval -> result string) (env : environment)
  (tool_name : string) (arguments : pyval) :
  Forall (api_call token tool_name)
    (calls env (Server.handle_tool_call token decode tool_name arguments)) /\
  (Server.no_token token = true ->
   Server._get_headers token = [("Accept", "application/vnd.github.v3+json")]) /\
  (forall t, token = Some t -> t <> EmptyString ->
             Server._get_headers token
             = [("Accept", "application/vnd.github.v3+json");
                ("Authorization", "token " ++ t)]).
Proof.
  split; [|split].
  - apply every_call_run; [|constructor].
    unfold Server.handle_tool_call. apply every_call_bind;
      [apply every_call_pure|]. intros args.
    destruct (Server.handlers_get (Server.handlers token decode) tool_name)
      as [h|] eqn:E; [|exact I].
    now apply handlers_make_api_calls with (decode := decode).
  - unfold Server.no_token, Server._get_headers.
    destruct token as [t|]; [|reflexivity]. now intros ->.
  - intros t -> Hne. unfold Server._get_headers.
    destruct (String.eqb_spec t ""); [contradiction|reflexivity].
Qed.

(* --------------------------------------------------------------------- *)
(** ** Failures are answers *)
(* --------------------------------------------------------------------- *)

Lemma never_raises_ret {A : Type} (a : A) : never_raises (Ret a).
Proof. intros env hist. now exists a. Qed.

Lemma never_raises_try (p : prog (list Server.TextContent)) :
  never_raises (try_except p Server.on_exception).
Proof.
  induction p as [a|e|r k IH]; intros env hist; cbn [try_except run_from].
  - now exists a.
  - eexists. reflexivity.
  - apply IH.
Qed.

Lemma parse_repo_string_total (s : string) :
  exists owner repo_name,
    Server._parse_repo_string (VStr s) = Ok (owner, repo_name).
Proof.
  unfold Server._parse_repo_string.
  destruct (negb (truthy (VStr s))); [eexists; eexists; reflexivity|].
  destruct (List.length (split_on "/" s) =? 2)%nat; eexists; eexists; reflexivity.
Qed.

Ltac settle_arguments d :=
  repeat first
    [ apply never_raises_ret
    | apply never_raises_try
    | progress cbn [pure bind rbind py_get py_get_default py_getitem
                    Server.set_if_given Server.first_missing
                    Server._parse_repo_string truthy negb orb andb forallb
                    py_b64encode]
    | match goal with
      | |- context [Server._parse_repo_string (VStr ?s)] =>
          let o := fresh "owner" in
          let n := fresh "repo_name" in
          let E := fresh "E" in
          destruct (parse_repo_string_total s) as (o & n & E); rewrite E
      | |- context [Server._parse_repo_string VNone] =>
          change (Server._parse_repo_string VNone) with (Ok (VNone, VNone))
      | |- context [dict_get d ?k] => destruct (dict_get d k)
      | |- context [truthy ?v] => is_var v; destruct (truthy v)
      end
    | match goal with
      | |- never_raises (if ?c then _ else _) => destruct c
      | |- never_raises (match ?x with _ => _ end) => destruct x
      | |- never_raises (bind (pure (if ?c then _ else _)) _) => destruct c
      | |- never_raises (bind (pure (match ?x with _ => _ end)) _) => destruct x
      | |- never_raises (bind (pure (rbind (if ?c then _ else _) _)) _) => destruct c
      end ].

Lemma handlers_never_raise
  (token : option string) (decode : pyval -> result string)
  (tool_name : string) (h : Server.handler) (name : string) (d : pydict) :
  string_or_missing d "repo" -> string_or_missing d "content" ->
  Server.handlers_get (Server.handlers token decode) tool_name = Some h ->
  never_raises (h name (VDict d)).
Proof.
  intros Hrepo Hcontent. unfold Server.handlers. cbn [Server.handlers_get].
  repeat match goal with
         | |- context [(?w =? tool_name)%string] =>
             destruct (String.eqb_spec w tool_name) as [<-|?]
         end;
    intros E; try discriminate; injection E as <-.
  all: cbv beta delta
         [Server.list_repositories Server.get_repo_details Server.list_issues
          Server.create_issue Server.update_issue Server.list_pull_requests
          Server.create_pull_request Server.get_file_contents
          Server.create_or_update_file Server.list_branches Server.create_branch
          Server.list_commits Server.search_repositories Server.search_code
          Server.create_repository Server.fork_repository Server.list_releases
          Server.get_user_info];
    cbn [pure bind py_get py_get_default];
    destruct Hrepo as [Hrepo | [repo Hrepo]]; rewrite ?Hrepo;
    destruct Hcontent as [Hcontent | [content Hcontent]]; rewrite ?Hcontent;
    settle_arguments d.
Qed.

(** For arguments of the declared types (a flat mapping whose [repo] and
    [content], when given, are strings), a tool call returns text
    segments whatever the remote side does: a refused status, an
    unreadable body or a failed connection never become an exception. *)
Theorem tool_failures_are_answers
  (token : option string) (decode : pyval -> result string) (env : environment)
  (tool_name : string) (d : pydict) :
  dict_get d "arguments" = None ->
  string_or_missing d "repo" -> string_or_missing d "content" ->
  exists segments,
    outcome env (Server.handle_tool_call token decode tool_name (VDict d))
    = Ok segments.
Proof.
  intros Hflat Hrepo Hcontent. unfold Server.handle_tool_call.
  rewrite (extract_arguments_flat _ Hflat). cbn [pure bind].
  destruct (Server.handlers_get (Server.handlers token decode) tool_name)
    as [h|] eqn:E; [|eexists; reflexivity].
  apply (handlers_never_raise token decode tool_name h tool_name d Hrepo Hcontent E).
Qed.

Lemma tool_failures_are_answers_witness :
  exists segments,
    outcome (fun _ _ => Err (RequestError "connection refused"))
      (Server.handle_tool_call (Some "secret") (fun _ => Ok EmptyString)
         "create_or_update_file"
         (VDict [("repo", VStr "octocat/hello"); ("path", VStr "README.md");
                 ("content", VStr "hello"); ("message", VStr "add readme");
                 ("branch", VStr "main")]))
    = Ok segments.
Proof.
  apply tool_failures_are_answers.
  - reflexivity.
  - right. eexists. reflexivity.
  - right. eexists. reflexivity.
Defined.

(* --------------------------------------------------------------------- *)
(** ** Validation before the call *)
(* --------------------------------------------------------------------- *)

Lemma parse_repo_string_not_ok (s : string) :
  reference_ok s = false ->
  exists owner repo_name,
    Server._parse_repo_string (VStr s) = Ok (owner, repo_name) /\
    negb (truthy owner) || negb (truthy repo_name) = true.
Proof.
  unfold reference_ok, Server._parse_repo_string. intros H.
  destruct s as [|c s]; [exists VNone, VNone; split; reflexivity|].
  cbn [truthy negb String.eqb].
  destruct (split_on "/" (String c s)) as [|o [|n [|x l]]];
    cbn [List.length Nat.eqb nth];
    try (exists VNone, (VStr (String c s)); split; reflexivity).
  exists (VStr o), (VStr n). split; [reflexivity|].
  cbn [truthy]. destruct (negb (o =? "")%string), (negb (n =? "")%string);
    try reflexivity. discriminate.
Qed.

Ltac unfold_handlers :=
  cbv beta delta
    [Server.list_repositories Server.get_repo_details Server.list_issues
     Server.create_issue Server.update_issue Server.list_pull_requests
     Server.create_pull_request Server.get_file_contents
     Server.create_or_update_file Server.list_branches Server.create_branch
     Server.list_commits Server.search_repositories Server.search_code
     Server.create_repository Server.fork_repository Server.list_releases
     Server.get_user_info].

Ltac refuse d :=
  repeat first
    [ solve [eexists; reflexivity]
    | match goal with
      | H : Some _ = None |- _ => discriminate H
      end
    | progress cbn [pure bind rbind py_get py_get_default py_getitem
                    Server.set_if_given Server.first_missing
                    truthy negb orb andb forallb]
    | match goal with
      | |- context [Server._parse_repo_string (VStr ?s)] =>
          let o := fresh "owner" in
          let n := fresh "repo_name" in
          let E := fresh "E" in
          destruct (parse_repo_string_total s) as (o & n & E); rewrite E
      | |- context [Server._parse_repo_string VNone] =>
          change (Server._parse_repo_string VNone) with (Ok (VNone, VNone))
      | |- context [dict_get d ?k] => destruct (dict_get d k)
      | |- context [truthy ?v] => is_var v; destruct (truthy v)
      | |- context [Server.no_token ?t] => destruct (Server.no_token t)
      end ].

(** A tool call that lacks a field its advertised schema requires is
    refused with one error segment before any call is made. *)
Theorem required_fields_are_enforced
  (token : option string) (decode : pyval -> result string) (env : environment)
  (tool_name field : string) (t : Server.Tool) (d : pydict) :
  find_tool Server.list_tools tool_name = Some t ->
  In field (schema_required t) ->
  dict_get d field = None ->
  dict_get d "arguments" = None ->
  string_or_missing d "repo" ->
  refuses (Server.handle_tool_call token decode tool_name (VDict d)) /\
  calls env (Server.handle_tool_call token decode tool_name (VDict d)) = [].
Proof.
  intros Htool Hfield Hmiss Hflat Hrepo.
  assert (H : refuses (Server.handle_tool_call token decode tool_name (VDict d))).
  { unfold refuses, Server.handle_tool_call.
    rewrite (extract_arguments_flat _ Hflat). cbn [pure bind].
    cbn [find_tool Server.list_tools Server.name] in Htool.
    repeat match type of Htool with
           | context [(?w =? tool_name)%string] =>
               destruct (String.eqb_spec w tool_name) as [<-|?]
           end;
      try discriminate; injection Htool as <-;
      cbn in Hfield; intuition (try contradiction); subst field;
      cbn [Server.handlers Server.handlers_get String.eqb Ascii.eqb Bool.eqb];
      unfold_handlers; cbn [pure bind py_get py_get_default];
      rewrite ?Hmiss;
      try (destruct Hrepo as [Hrepo | [repo Hrepo]]; rewrite ?Hrepo);
      refuse d. }
  split; [exact H|]. destruct H as [m ->]. reflexivity.
Qed.

Lemma required_fields_are_enforced_witness :
  refuses (Server.handle_tool_call (Some "secret") (fun _ => Ok EmptyString)
             "create_pull_request"
             (VDict [("repo", VStr "octocat/hello"); ("title", VStr "Fix");
                     ("base", VStr "main")])) /\
  calls (fun _ _ => Err (RequestError "unreachable"))
    (Server.handle_tool_call (Some "secret") (fun _ => Ok EmptyString)
       "create_pull_request"
       (VDict [("repo", VStr "octocat/hello"); ("title", VStr "Fix");
               ("base", VStr "main")])) = [].
Proof.
  destruct (find_tool Server.list_tools "create_pull_request") as [t|] eqn:E;
    [|discriminate].
  apply (required_fields_are_enforced (Some "secret") (fun _ => Ok EmptyString)
           (fun _ _ => Err (RequestError "unreachable"))
           "create_pull_request" "head" t).
  - exact E.
  - injection E as <-. cbn. tauto.
  - reflexivity.
  - reflexivity.
  - right. eexists. reflexivity.
Defined.

(** A repository reference that is not one owner and one name around a
    single slash is refused by every tool that takes one, before any call
    (a mutating tool without a token refuses on the token first). *)
Theorem malformed_reference_is_refused
  (token : option string) (decode : pyval -> result string)
  (tool_name reference : string) (d : pydict) :
  In tool_name repo_tool_names ->
  dict_get d "arguments" = None ->
  dict_get d "repo" = Some (VStr reference) ->
  reference_ok reference = false ->
  (In tool_name mutating_names -> Server.no_token token = false) ->
  Server.handle_tool_call token decode tool_name (VDict d)
  = Ret [Server.text_content "❌ Invalid repo format. Use 'owner/repo'"].
Proof.
  intros Hin Hflat Hrepo Hbad Htoken.
  destruct (parse_repo_string_not_ok reference Hbad) as (o & n & Hparse & Hempty).
  unfold Server.handle_tool_call.
  rewrite (extract_arguments_flat _ Hflat). cbn [pure bind].
  unfold repo_tool_names in Hin. cbn [In] in Hin.
  repeat (destruct Hin as [<- | Hin];
          [ cbn [Server.handlers Server.handlers_get String.eqb Ascii.eqb Bool.eqb];
            unfold_handlers;
            try (rewrite Htoken by (cbn; tauto));
            cbn [pure bind py_get py_get_default];
            rewrite Hrepo, Hparse; cbn [pure bind];
            rewrite Hempty; reflexivity | ]).
  contradiction.
Qed.

Lemma malformed_reference_is_refused_witness :
  Server.handle_tool_call None (fun _ => Ok EmptyString) "get_repo_details"
    (VDict [("repo", VStr "octocat")])
  = Ret [Server.text_content "❌ Invalid repo format. Use 'owner/repo'"].
Proof.
  apply (malformed_reference_is_refused None (fun _ => Ok EmptyString)
           "get_repo_details" "octocat").
  - cbn. tauto.
  - reflexivity.
  - reflexivity.
  - reflexivity.
  - cbn. intros H. exfalso. intuition discriminate.
Defined.

(** The reference is split before the [try] block: a [repo] that is
    neither a string nor empty makes the handler raise instead of
    answering. *)
Theorem non_string_reference_raises
  (token : option string) (decode : pyval -> result string)
  (tool_name : string) (repo : pyval) (d : pydict) :
  In tool_name repo_tool_names ->
  dict_get d "arguments" = None ->
  dict_get d "repo" = Some repo ->
  truthy repo = true ->
  (forall s, repo <> VStr s) ->
  (In tool_name mutating_names -> Server.no_token token = false) ->
  Server.handle_tool_call token decode tool_name (VDict d)
  = Raise (no_attribute repo "split").
Proof.
  intros Hin Hflat Hrepo Htrue Hns Htoken.
  assert (Hparse : Server._parse_repo_string repo = Err (no_attribute repo "split")).
  { unfold Server._parse_repo_string. rewrite Htrue. cbn [negb].
    destruct repo; try reflexivity. now destruct (Hns s). }
  unfold Server.handle_tool_call.
  rewrite (extract_arguments_flat _ Hflat). cbn [pure bind].
  unfold repo_tool_names in Hin. cbn [In] in Hin.
  repeat (destruct Hin as [<- | Hin];
          [ cbn [Server.handlers Server.handlers_get String.eqb Ascii.eqb Bool.eqb];
            unfold_handlers;
            try (rewrite Htoken by (cbn; tauto));
            cbn [pure bind py_get py_get_default];
            rewrite Hrepo, Hparse; reflexivity | ]).
  contradiction.
Qed.

Lemma non_string_reference_raises_witness :
  Server.handle_tool_call None (fun _ => Ok EmptyString) "list_commits"
    (VDict [("repo", VInt 42)])
  = Raise (AttributeError "'int' object has no attribute 'split'").
Proof.
  apply (non_string_reference_raises None (fun _ => Ok EmptyString)
           "list_commits" (VInt 42)).
  - cbn. tauto.
  - reflexivity.
  - reflexivity.
  - reflexivity.
  - discriminate.
  - cbn. intros H. exfalso. intuition discriminate.
Defined.

(* --------------------------------------------------------------------- *)
(** ** What the remote side's failures look like *)
(* --------------------------------------------------------------------- *)

Ltac by_tool tool_name :=
  unfold Server.handle_tool_call;
  match goal with
  | |- context [Server._extract_arguments ?a] =>
      destruct (Server._extract_arguments a) as [?|?]; cbn [pure bind];
      [|try no_call]
  end;
  unfold Server.handlers; cbn [Server.handlers_get];
  repeat match goal with
         | |- context [(?w =? tool_name)%string] =>
             destruct (String.eqb_spec w tool_name) as [<-|?]
         end;
  try no_call; unfold_handlers.

Ltac prevalidate_all :=
  repeat first
    [ progress prevalidate
    | match goal with
      | |- context [match ?x with Some _ => _ | None => _ end] =>
          is_var x; destruct x
      end ].

(** When the connection fails, the tool that tried the call answers with
    one error segment holding the failure's message; it does not try
    again. *)
Theorem transport_failure_is_one_error_segment
  (token : option string) (decode : pyval -> result string) (env : environment)
  (tool_name : string) (arguments : pyval) (e : exn) :
  (forall r, env [] r = Err e) ->
  calls env (Server.handle_tool_call token decode tool_name arguments) <> [] ->
  outcome env (Server.handle_tool_call token decode tool_name arguments)
  = Ok [Server.text_content ("❌ " ++ str_exn e)] /\
  List.length (calls env (Server.handle_tool_call token decode tool_name arguments))
  = 1%nat.
Proof.
  intros Henv. by_tool tool_name.
  all: prevalidate_all; try no_call; intros _;
    unfold outcome, calls, run; cbn [call bind try_except run_from];
    rewrite Henv; split; reflexivity.
Qed.

Lemma transport_failure_is_one_error_segment_witness :
  outcome (fun _ _ => Err (RequestError "connection refused"))
    (Server.handle_tool_call None (fun _ => Ok EmptyString) "get_user_info"
       (VDict [("username", VStr "octocat")]))
  = Ok [Server.text_content "❌ connection refused"] /\
  List.length
    (calls (fun _ _ => Err (RequestError "connection refused"))
       (Server.handle_tool_call None (fun _ => Ok EmptyString) "get_user_info"
          (VDict [("username", VStr "octocat")]))) = 1%nat.
Proof.
  apply (transport_failure_is_one_error_segment None (fun _ => Ok EmptyString)
           (fun _ _ => Err (RequestError "connection refused")) "get_user_info"
           (VDict [("username", VStr "octocat")]) (RequestError "connection refused")).
  - reflexivity.
  - discriminate.
Defined.

(** When the remote side refuses a call (a status the tool does not take
    for success) and its body is a JSON object, the tool answers with one
    error segment: the body's [message] when it has one, the status code
    otherwise; it makes no further call. *)
Theorem refused_call_reports_the_remote_message
  (token : option string) (decode : pyval -> result string) (env : environment)
  (tool_name : string) (arguments : pyval) (status : Z) (body : pydict) :
  (forall r, env [] r = Ok (mkResponse status (Ok (VDict body)))) ->
  Server.status_not_in status (accepted_statuses tool_name) = true ->
  calls env (Server.handle_tool_call token decode tool_name arguments) <> [] ->
  outcome env (Server.handle_tool_call token decode tool_name arguments)
  = Ok [Server.text_content
          ("❌ " ++ match dict_get body "message" with
                    | Some message => py_str message
                    | None => status_text tool_name status
                    end)] /\
  List.length (calls env (Server.handle_tool_call token decode tool_name arguments))
  = 1%nat.
Proof.
  intros Henv Hst. by_tool tool_name.
  all: match type of Hst with
       | context [accepted_statuses ?t] =>
           let l := eval vm_compute in (accepted_statuses t) in
           change (accepted_statuses t) with l in Hst
       end;
    unfold Server.status_not_in in *;
    pose proof Hst as Hst'; cbn [existsb] in Hst';
    prevalidate_all; try no_call; intros _;
    unfold outcome, calls, run; cbn [call bind try_except run_from];
    rewrite Henv; cbn [pure bind status_code];
    try rewrite Hst;
    try (destruct (status =? 200) eqn:E200; [discriminate Hst'|]);
    cbn [negb pure bind try_except Server.remote_error json_body rbind
         py_get_default run_from fst snd app List.length];
    destruct (dict_get body "message"); split; reflexivity.
Qed.

Lemma refused_call_reports_the_remote_message_witness :
  outcome (fun _ _ => Ok (mkResponse 404 (Ok (VDict [("message", VStr "Not Found")]))))
    (Server.handle_tool_call None (fun _ => Ok EmptyString) "get_repo_details"
       (VDict [("repo", VStr "octocat/missing")]))
  = Ok [Server.text_content "❌ Not Found"] /\
  List.length
    (calls (fun _ _ => Ok (mkResponse 404 (Ok (VDict [("message", VStr "Not Found")]))))
       (Server.handle_tool_call None (fun _ => Ok EmptyString) "get_repo_details"
          (VDict [("repo", VStr "octocat/missing")]))) = 1%nat.
Proof.
  apply (refused_call_reports_the_remote_message None (fun _ => Ok EmptyString)
           (fun _ _ => Ok (mkResponse 404 (Ok (VDict [("message", VStr "Not Found")]))))
           "get_repo_details" (VDict [("repo", VStr "octocat/missing")])
           404 [("message", VStr "Not Found")]).
  - reflexivity.
  - reflexivity.
  - discriminate.
Defined.

Lemma run_from_keeps_history {A : Type} (env : environment) (hist : list request)
      (p : prog A) :
  exists more, fst (run_from env hist p) = (hist ++ more)%list.
Proof.
  revert hist. induction p as [a|e|r k IH]; intros hist; cbn [run_from fst].
  - exists []. now rewrite app_nil_r.
  - exists []. now rewrite app_nil_r.
  - destruct (IH (env hist r) (hist ++ [r])%list) as [more ->].
    exists (r :: more). now rewrite <- app_assoc.
Qed.

(* --------------------------------------------------------------------- *)
(** ** Wrapped and flat arguments *)
(* --------------------------------------------------------------------- *)

(** A payload wrapped under the key [arguments] is dispatched exactly as
    the flat payload, by [git_mcp2] and by both handlers of [git_mcp1];
    the one exception is the empty payload in [list_repositories] of
    [git_mcp1], which is reported as missing when flat and as invalid
    when wrapped. *)
Theorem wrapped_arguments_are_dispatched_alike
  (token : option string) (decode : pyval -> result string)
  (name : string) (d : pydict) :
  dict_get d "arguments" = None ->
  Server.handle_tool_call token decode name (VDict [("arguments", VDict d)])
  = Server.handle_tool_call token decode name (VDict d) /\
  Server1.get_repo_details token name (VDict [("arguments", VDict d)])
  = Server1.get_repo_details token name (VDict d) /\
  (d <> [] ->
   Server1.list_repositories token name (VDict [("arguments", VDict d)])
   = Server1.list_repositories token name (VDict d)) /\
  Server1.list_repositories token name (VDict [("arguments", VDict [])])
  = Ret [Server.text_content
           "❌ Invalid arguments: expected dictionary with username"] /\
  Server1.list_repositories token name (VDict [])
  = Ret [Server.text_content "❌ Missing arguments"].
Proof.
  intros Hflat. repeat split.
  - unfold Server.handle_tool_call. now rewrite (extract_arguments_flat _ Hflat).
  - unfold Server1.get_repo_details.
    destruct d as [|kv d]; [reflexivity|].
    remember (kv :: d) as flat eqn:Eflat.
    cbn [truthy py_contains py_getitem dict_get String.eqb Ascii.eqb Bool.eqb
         rbind pure bind negb].
    rewrite Hflat. subst flat. reflexivity.
  - intros Hne. unfold Server1.list_repositories.
    destruct d as [|kv d]; [congruence|].
    remember (kv :: d) as flat eqn:Eflat.
    cbn [truthy py_contains py_getitem dict_get String.eqb Ascii.eqb Bool.eqb
         rbind pure bind negb].
    rewrite Hflat. subst flat. reflexivity.
Qed.

Lemma wrapped_arguments_are_dispatched_alike_witness :
  Server.handle_tool_call None (fun _ => Ok EmptyString) "list_repositories"
    (VDict [("arguments", VDict [("username", VStr "octocat")])])
  = Server.handle_tool_call None (fun _ => Ok EmptyString) "list_repositories"
      (VDict [("username", VStr "octocat")]) /\
  Server1.list_repositories None "list_repositories"
    (VDict [("arguments", VDict [("username", VStr "octocat")])])
  = Server1.list_repositories None "list_repositories"
      (VDict [("username", VStr "octocat")]).
Proof.
  destruct (wrapped_arguments_are_dispatched_alike None (fun _ => Ok EmptyString)
              "list_repositories" [("username", VStr "octocat")] eq_refl)
    as (H2 & _ & H1 & _).
  split; [exact H2|]. apply H1. discriminate.
Defined.

(* --------------------------------------------------------------------- *)
(** ** Failures in [git_mcp1] *)
(* --------------------------------------------------------------------- *)

(** In [git_mcp1] a failed connection is reported by [list_repositories]
    as a connection failure, any other exception as an unexpected error;
    [get_repo_details] has no [try] around its call and lets the
    exception out. *)
Theorem git_mcp1_transport_failures
  (token : option string) (name : string) (arguments : pyval)
  (env : environment) (e : exn) :
  (forall r, env [] r = Err e) ->
  (calls env (Server1.list_repositories token name arguments) <> [] ->
   outcome env (Server1.list_repositories token name arguments)
   = Ok [Server.text_content
           ("❌ " ++ match e with
                     | RequestError message =>
                         "Failed to connect to GitHub API: " ++ message
                     | _ => "Unexpected error processing GitHub response: "
                            ++ str_exn e
                     end)]) /\
  (calls env (Server1.get_repo_details token name arguments) <> [] ->
   outcome env (Server1.get_repo_details token name arguments) = Err e).
Proof.
  intros Henv. split.
  - unfold Server1.list_repositories.
    prevalidate; try no_call; intros _.
    unfold outcome, run. cbn [call bind try_except run_from]. rewrite Henv.
    destruct e; reflexivity.
  - unfold Server1.get_repo_details.
    prevalidate; try no_call; intros _.
    unfold outcome, run. cbn [call bind try_except run_from]. rewrite Henv.
    reflexivity.
Qed.

Lemma git_mcp1_transport_failures_witness :
  outcome (fun _ _ => Err (RequestError "connection refused"))
    (Server1.list_repositories None "list_repositories"
       (VDict [("username", VStr "octocat")]))
  = Ok [Server.text_content "❌ Failed to connect to GitHub API: connection refused"] /\
  outcome (fun _ _ => Err (RequestError "connection refused"))
    (Server1.get_repo_details None "get_repo_details"
       (VDict [("repo", VStr "octocat/hello")]))
  = Err (RequestError "connection refused").
Proof.
  destruct (git_mcp1_transport_failures None "list_repositories"
              (VDict [("username", VStr "octocat")])
              (fun _ _ => Err (RequestError "connection refused"))
              (RequestError "connection refused") (fun _ => eq_refl)) as [H _].
  destruct (git_mcp1_transport_failures None "get_repo_details"
              (VDict [("repo", VStr "octocat/hello")])
              (fun _ _ => Err (RequestError "connection refused"))
              (RequestError "connection refused") (fun _ => eq_refl)) as [_ H'].
  split; [apply H | apply H']; discriminate.
Defined.

(** A refused call of [get_repo_details] in [git_mcp1] is always answered
    with one error segment: the body's [message] when the body is a JSON
    object that has one, the status code in every other case, an
    unreadable body included. *)
Theorem git_mcp1_refused_details
  (token : option string) (name : string) (arguments : pyval)
  (env : environment) (resp : response) :
  (forall r, env [] r = Ok resp) ->
  status_code resp <> 200 ->
  calls env (Server1.get_repo_details token name arguments) <> [] ->
  outcome env (Server1.get_repo_details token name arguments)
  = Ok [Server.text_content
          ("❌ " ++ match json_body resp with
                    | Ok (VDict body) =>
                        match dict_get body "message" with
                        | Some message => py_str message
                        | None => of_Z (status_code resp)
                        end
                    | _ => of_Z (status_code resp)
                    end)].
Proof.
  intros Henv Hst. apply Z.eqb_neq in Hst.
  unfold Server1.get_repo_details.
  prevalidate; try no_call; intros _.
  unfold outcome, run. cbn [call bind try_except run_from]. rewrite Henv.
  cbn [pure bind]. rewrite Hst. cbn [negb run_from snd].
  destruct (json_body resp) as [body|e]; [|reflexivity].
  destruct body; try reflexivity.
  cbn [rbind py_get_default]. destruct (dict_get d "message"); reflexivity.
Qed.

Lemma git_mcp1_refused_details_witness :
  outcome (fun _ _ => Ok (mkResponse 502 (Err (ValueError "Expecting value"))))
    (Server1.get_repo_details None "get_repo_details"
       (VDict [("repo", VStr "octocat/hello")]))
  = Ok [Server.text_content "❌ 502"].
Proof.
  apply (git_mcp1_refused_details None "get_repo_details"
           (VDict [("repo", VStr "octocat/hello")])
           (fun _ _ => Ok (mkResponse 502 (Err (ValueError "Expecting value"))))
           (mkResponse 502 (Err (ValueError "Expecting value")))).
  - reflexivity.
  - discriminate.
  - discriminate.
Defined.

(* --------------------------------------------------------------------- *)
(** ** The file-write path *)
(* --------------------------------------------------------------------- *)

Lemma b64_value_char (n : nat) :
  (n < 64)%nat -> b64_value (b64_char n) = Some n /\ is_pad (b64_char n) = false.
Proof.
  intros H. do 64 (destruct n as [|n]; [split; reflexivity|]). lia.
Qed.

Lemma byte_bound (a : ascii) : (nat_of_ascii a < 256)%nat.
Proof. apply nat_ascii_bounded. Qed.

Lemma chr_byte (a : ascii) (n : nat) : n = nat_of_ascii a -> chr n = a.
Proof. intros ->. apply ascii_nat_embedding. Qed.

Lemma b64_round_trip_bounded (n : nat) :
  forall s, (String.length s <= n)%nat -> b64decode (b64encode s) = Some s.
Proof.
  induction n as [|n IH]; intros s Hlen.
  - destruct s; [reflexivity|simpl in Hlen; lia].
  - destruct s as [|a [|b [|c rest]]]; [reflexivity| | |].
    + pose proof (byte_bound a) as Ha.
      cbn [b64encode b64decode].
      destruct (b64_value_char (nat_of_ascii a / 4)) as [-> _];
        [apply Nat.Div0.div_lt_upper_bound; lia|].
      destruct (b64_value_char (nat_of_ascii a mod 4 * 16)) as [-> _];
        [pose proof (Nat.mod_upper_bound (nat_of_ascii a) 4); lia|].
      cbn -[Nat.div Nat.modulo Nat.mul Nat.add chr nat_of_ascii].
      unfold str1. f_equal. f_equal. apply chr_byte.
      rewrite Nat.div_mul by lia.
      pose proof (Nat.div_mod_eq (nat_of_ascii a) 4). lia.
    + pose proof (byte_bound a) as Ha. pose proof (byte_bound b) as Hb.
      cbn [b64encode b64decode].
      pose proof (Nat.mod_upper_bound (nat_of_ascii a) 4 ltac:(lia)) as Ma.
      pose proof (Nat.mod_upper_bound (nat_of_ascii b) 16 ltac:(lia)) as Mb.
      pose proof (Nat.div_mod_eq (nat_of_ascii a) 4) as Da.
      pose proof (Nat.div_mod_eq (nat_of_ascii b) 16) as Db.
      assert (Qa : (nat_of_ascii a / 4 < 64)%nat)
        by (apply Nat.Div0.div_lt_upper_bound; lia).
      assert (Qb : (nat_of_ascii b / 16 < 16)%nat)
        by (apply Nat.Div0.div_lt_upper_bound; lia).
      destruct (b64_value_char (nat_of_ascii a / 4)) as [-> _]; [lia|].
      destruct (b64_value_char (nat_of_ascii a mod 4 * 16 + nat_of_ascii b / 16))
        as [-> _]; [lia|].
      destruct (b64_value_char (nat_of_ascii b mod 16 * 4)) as [-> ->]; [lia|].
      cbn -[Nat.div Nat.modulo Nat.mul Nat.add chr nat_of_ascii].
      unfold str1. f_equal. f_equal; [|f_equal]; apply chr_byte.
      * replace ((nat_of_ascii a mod 4 * 16 + nat_of_ascii b / 16) / 16)%nat
          with (nat_of_ascii a mod 4)%nat
          by (apply Nat.div_unique with (r := (nat_of_ascii b / 16)%nat); lia).
        lia.
      * replace ((nat_of_ascii a mod 4 * 16 + nat_of_ascii b / 16) mod 16)%nat
          with (nat_of_ascii b / 16)%nat
          by (apply Nat.mod_unique with (q := (nat_of_ascii a mod 4)%nat); lia).
        rewrite Nat.div_mul by lia. lia.
    + pose proof (byte_bound a) as Ha. pose proof (byte_bound b) as Hb.
      pose proof (byte_bound c) as Hc.
      cbn [b64encode b64decode].
      pose proof (Nat.mod_upper_bound (nat_of_ascii a) 4 ltac:(lia)) as Ma.
      pose proof (Nat.mod_upper_bound (nat_of_ascii b) 16 ltac:(lia)) as Mb.
      pose proof (Nat.mod_upper_bound (nat_of_ascii c) 64 ltac:(lia)) as Mc.
      pose proof (Nat.div_mod_eq (nat_of_ascii a) 4) as Da.
      pose proof (Nat.div_mod_eq (nat_of_ascii b) 16) as Db.
      pose proof (Nat.div_mod_eq (nat_of_ascii c) 64) as Dc.
      assert (Qa : (nat_of_ascii a / 4 < 64)%nat)
        by (apply Nat.Div0.div_lt_upper_bound; lia).
      assert (Qb : (nat_of_ascii b / 16 < 16)%nat)
        by (apply Nat.Div0.div_lt_upper_bound; lia).
      assert (Qc : (nat_of_ascii c / 64 < 4)%nat)
        by (apply Nat.Div0.div_lt_upper_bound; lia).
      destruct (b64_value_char (nat_of_ascii a / 4)) as [-> _]; [lia|].
      destruct (b64_value_char (nat_of_ascii a mod 4 * 16 + nat_of_ascii b / 16))
        as [-> _]; [lia|].
      destruct (b64_value_char (nat_of_ascii b mod 16 * 4 + nat_of_ascii c / 64))
        as [-> ->]; [lia|].
      destruct (b64_value_char (nat_of_ascii c mod 64)) as [-> ->]; [lia|].
      rewrite IH by (cbn [String.length] in Hlen; lia).
      cbn -[Nat.div Nat.modulo Nat.mul Nat.add chr nat_of_ascii].
      f_equal. f_equal; [|f_equal; [|f_equal]]; apply chr_byte.
      * replace ((nat_of_ascii a mod 4 * 16 + nat_of_ascii b / 16) / 16)%nat
          with (nat_of_ascii a mod 4)%nat
          by (apply Nat.div_unique with (r := (nat_of_ascii b / 16)%nat); lia).
        lia.
      * replace ((nat_of_ascii a mod 4 * 16 + nat_of_ascii b / 16) mod 16)%nat
          with (nat_of_ascii b / 16)%nat
          by (apply Nat.mod_unique with (q := (nat_of_ascii a mod 4)%nat); lia).
        replace ((nat_of_ascii b mod 16 * 4 + nat_of_ascii c / 64) / 4)%nat
          with (nat_of_ascii b mod 16)%nat
          by (apply Nat.div_unique with (r := (nat_of_ascii c / 64)%nat); lia).
        lia.
      * replace ((nat_of_ascii b mod 16 * 4 + nat_of_ascii c / 64) mod 4)%nat
          with (nat_of_ascii c / 64)%nat
          by (apply Nat.mod_unique with (q := (nat_of_ascii b mod 16)%nat); lia).
        lia.
Qed.

Lemma b64_round_trip (s : string) : b64decode (b64encode s) = Some s.
Proof. now apply b64_round_trip_bounded with (n := String.length s). Qed.

(** What the file-write tool sends is the file: every call it makes is a
    [PUT] whose [content] field is Base64 text that decodes to the
    [content] argument, byte for byte. *)
Theorem file_write_round_trip
  (token : option string) (env : environment) (name : string) (d : pydict)
  (content : string) :
  dict_get d "content" = Some (VStr content) ->
  Forall (carries_content content)
    (calls env (Server.create_or_update_file token name (VDict d))).
Proof.
  intros Hcontent. apply every_call_run; [|constructor].
  unfold Server.create_or_update_file.
  destruct (Server.no_token token); [exact I|].
  cbn [pure bind py_get py_get_default]. rewrite Hcontent.
  destruct (Server._parse_repo_string _) as [[owner repo_name]|e];
    cbn [pure bind]; [|exact I].
  destruct (negb (truthy owner) || negb (truthy repo_name)); [exact I|].
  destruct (negb (forallb truthy _)); [exact I|].
  cbn [py_b64encode pure bind Server.set_if_given py_get py_get_default rbind
       py_getitem].
  destruct (dict_get d "sha") as [sha|]; cbn [truthy rbind pure bind negb];
    [destruct (truthy sha); cbn [rbind pure bind]|].
  all: apply every_call_try; [|intros e; exact I];
    apply every_call_bind;
    [ apply every_call_call; split; [reflexivity|];
      eexists; eexists; split; [reflexivity|]; split;
      [reflexivity | apply b64_round_trip]
    | intros resp; destruct (Server.status_not_in _ _); apply every_call_pure ].
Qed.

Lemma file_write_round_trip_witness :
  Forall (carries_content "hello, world")
    (calls (fun _ _ => Ok (mkResponse 201 (Ok (VDict []))))
       (Server.create_or_update_file (Some "secret") "create_or_update_file"
          (VDict [("repo", VStr "octocat/hello"); ("path", VStr "README.md");
                  ("content", VStr "hello, world"); ("message", VStr "add readme");
                  ("branch", VStr "main")]))) /\
  List.length
    (calls (fun _ _ => Ok (mkResponse 201 (Ok (VDict []))))
       (Server.create_or_update_file (Some "secret") "create_or_update_file"
          (VDict [("repo", VStr "octocat/hello"); ("path", VStr "README.md");
                  ("content", VStr "hello, world"); ("message", VStr "add readme");
                  ("branch", VStr "main")]))) = 1%nat.
Proof.
  split; [|reflexivity].
  apply (file_write_round_trip (Some "secret")). reflexivity.
Defined.

(* --------------------------------------------------------------------- *)
(** ** Defaults *)
(* --------------------------------------------------------------------- *)

(** What is asked for when the optional arguments are left out: open
    issues and open pull requests, thirty per page; and a new branch
    starts from [main]. *)
Theorem optional_arguments_default
  (token : option string) (env : environment) (name : string) (d : pydict) :
  (dict_get d "state" = None -> dict_get d "per_page" = None ->
   dict_get d "labels" = None ->
   Forall (fun r => params r = Some [("state", VStr "open"); ("per_page", VInt 30)])
     (calls env (Server.list_issues token name (VDict d)) ++
      calls env (Server.list_pull_requests token name (VDict d)))) /\
  (dict_get d "from_branch" = None ->
   forall first rest,
     calls env (Server.create_branch token name (VDict d)) = first :: rest ->
     exists owner repo_name,
       first = ref_lookup token owner repo_name (VStr "main")).
Proof.
  split.
  - intros Hstate Hpage Hlabels. apply Forall_app. split.
    + apply every_call_run; [|constructor]. unfold Server.list_issues.
      cbn [pure bind py_get py_get_default rbind Server.set_if_given].
      rewrite Hstate, Hpage, Hlabels. cbn [truthy pure bind].
      destruct (Server._parse_repo_string _) as [[owner repo_name]|e];
        cbn [pure bind]; [|exact I].
      destruct (negb (truthy owner) || negb (truthy repo_name)); [exact I|].
      apply every_call_try; [|intros e; exact I].
      apply every_call_bind; [apply every_call_call; reflexivity|].
      intros resp. destruct (negb (status_code resp =? 200));
        apply every_call_pure.
    + apply every_call_run; [|constructor]. unfold Server.list_pull_requests.
      cbn [pure bind py_get py_get_default rbind].
      rewrite Hstate, Hpage. cbn [pure bind].
      destruct (Server._parse_repo_string _) as [[owner repo_name]|e];
        cbn [pure bind]; [|exact I].
      destruct (negb (truthy owner) || negb (truthy repo_name)); [exact I|].
      apply every_call_try; [|intros e; exact I].
      apply every_call_bind; [apply every_call_call; reflexivity|].
      intros resp. destruct (negb (status_code resp =? 200));
        apply every_call_pure.
  - intros Hfrom first rest. unfold Server.create_branch.
    destruct (Server.no_token token); [discriminate|].
    cbn [pure bind py_get py_get_default]. rewrite Hfrom.
    destruct (Server._parse_repo_string _) as [[owner repo_name]|e];
      cbn [pure bind]; [|discriminate].
    destruct (negb (truthy owner) || negb (truthy repo_name)); [discriminate|].
    destruct (negb (truthy _)); [discriminate|].
    cbn [pure bind try_except call].
    unfold calls, run. cbn [run_from app].
    intros H. exists owner, repo_name.
    match type of H with
    | fst (run_from env ?h ?p) = _ =>
        destruct (run_from_keeps_history env h p) as [more Hk]
    end.
    rewrite Hk in H. now injection H as <- _.
Qed.

Lemma optional_arguments_default_witness :
  Forall (fun r => params r = Some [("state", VStr "open"); ("per_page", VInt 30)])
    (calls (fun _ _ => Ok (empty_listing 200))
       (Server.list_issues None "list_issues" (VDict [("repo", VStr "octocat/hello")]))
     ++ calls (fun _ _ => Ok (empty_listing 200))
          (Server.list_pull_requests None "list_pull_requests"
             (VDict [("repo", VStr "octocat/hello")]))) /\
  exists owner repo_name,
    ref_lookup (Some "secret") (VStr "octocat") (VStr "hello") (VStr "main")
    = ref_lookup (Some "secret") owner repo_name (VStr "main").
Proof.
  destruct (optional_arguments_default None (fun _ _ => Ok (empty_listing 200))
              "list_issues" [("repo", VStr "octocat/hello")]) as [H _].
  destruct (optional_arguments_default (Some "secret") creation_succeeds
              "create_branch"
              [("repo", VStr "octocat/hello"); ("branch", VStr "feature")])
    as [_ H'].
  split.
  - apply H; reflexivity.
  - apply (H' eq_refl _ _ eq_refl).
Defined.

(* --------------------------------------------------------------------- *)
(** ** The two clients *)
(* --------------------------------------------------------------------- *)

(** Every line the client of [git_mcp1] accepts names a tool its server
    advertises, and the client of [git_mcp2] parses the line to the same
    tool with the same argument; the two differ only in that the older
    client strips the user name. *)
Theorem git_mcp1_client_agrees
  (query tool_name : string) (arguments : pydict) :
  Client1.parse_command query = Some (tool_name, arguments) ->
  In tool_name (map Server.name Server1.list_tools) /\
  exists arguments2,
    Client.parse_command query = Ok (Some (tool_name, arguments2)) /\
    ((tool_name = "get_repo_details" /\ arguments2 = arguments) \/
     (tool_name = "list_repositories" /\
      exists username,
        arguments2 = [("username", VStr username)] /\
        arguments = [("username", VStr (strip username))])).
Proof.
  unfold Client1.parse_command, Client.parse_command.
  generalize (Client.tokenize query) as parts. intros parts H.
  destruct parts as [|p ps]; [discriminate|].
  cbv beta iota zeta delta [Client1.parse_parts] in H.
  cbv beta iota zeta delta [Client.parse_parts].
  set (parts := p :: ps) in *.
  set (cmd := lower (Client.part parts 0)) in *.
  destruct (cmd =? "list_repositories")%string.
  - destruct (Client.fewer parts 2); [discriminate|]. injection H as <- <-.
    split; [cbn; tauto|]. eexists. split; [reflexivity|].
    right. split; [reflexivity|]. eexists. split; reflexivity.
  - destruct (cmd =? "get_repo_details")%string; [|discriminate].
    destruct (Client.fewer parts 2); [discriminate|]. injection H as <- <-.
    split; [cbn; tauto|]. eexists. split; [reflexivity|].
    left. split; reflexivity.
Qed.

Lemma git_mcp1_client_agrees_witness :
  In "list_repositories" (map Server.name Server1.list_tools) /\
  exists arguments2,
    Client.parse_command "list_repositories ' octocat '"
    = Ok (Some ("list_repositories", arguments2)) /\
    (("list_repositories" = "get_repo_details"
      /\ arguments2 = [("username", VStr "octocat")]) \/
     ("list_repositories" = "list_repositories" /\
      exists username,
        arguments2 = [("username", VStr username)] /\
        [("username", VStr "octocat")] = [("username", VStr (strip username))])).
Proof.
  apply (git_mcp1_client_agrees "list_repositories ' octocat '"). reflexivity.
Defined.

(* --------------------------------------------------------------------- *)
(** ** A listing made of pull requests only *)
(* --------------------------------------------------------------------- *)

(** When every entry the issues endpoint returns is a pull request, the
    server answers with one segment whose text is empty, and the client,
    which skips empty texts, reports the error "No data returned" rather
    than an empty listing; this for every [list_issues] line whose
    arguments the host's schema validation lets through. *)
Theorem only_pull_requests_is_no_data
  (token : option string) (decode : pyval -> result string)
  (explain : string -> pydict -> string) (env : environment)
  (query : string) (arguments : pydict) (issues : list pyval) :
  (query =? "")%string || (strip query =? "")%string = false ->
  Client.parse_command query = Ok (Some ("list_issues", arguments)) ->
  accepted "list_issues" arguments = true ->
  issues <> [] ->
  Forall (fun issue => is_object issue /\ is_pull_request issue = true) issues ->
  (forall r, env [] r = Ok (mkResponse 200 (Ok (VList issues)))) ->
  calls env (Server.handle_tool_call token decode "list_issues" (VDict arguments))
  <> [] ->
  outcome env (Server.handle_tool_call token decode "list_issues" (VDict arguments))
  = Ok [Server.text_content ""] /\
  Client.run_github_agent (hosted token decode explain env) query
  = Ok (Client.error_response (VStr "No data returned")).
Proof.
  intros Hq Hp Hacc Hne Hall Henv Hcalls.
  destruct (parse_command_some _ _ _ Hp) as [_ Ha].
  pose proof (parse_command_flat _ _ _ Hp) as Hflat.
  assert (Hobj : Forall is_object issues)
    by (eapply Forall_impl; [|exact Hall]; now intros i [H _]).
  assert (Hnone : issues_proper issues = []).
  { clear - Hall. induction Hall as [|i l [_ Hpr] _ IH]; [reflexivity|].
    unfold issues_proper in *. cbn [filter]. now rewrite Hpr. }
  assert (E : outcome env (Server.handle_tool_call token decode "list_issues"
                             (VDict arguments))
              = Ok [Server.text_content ""]).
  { revert Hcalls. unfold Server.handle_tool_call.
    rewrite (extract_arguments_flat _ Hflat). cbn [pure bind].
    cbn [Server.handlers Server.handlers_get String.eqb Ascii.eqb Bool.eqb].
    unfold Server.list_issues.
    prevalidate; try no_call; one_call Henv.
    cbn [pure bind try_except status_code json_body Z.eqb Pos.eqb negb rbind].
    destruct issues as [|issue issues]; [congruence|].
    cbn [truthy negb py_iter rbind].
    pose proof (format_issues_skip_pull_requests (issue :: issues) Hobj) as H.
    destruct (mapM Server.format_issue (issue :: issues)) as [blocks|e];
      rewrite Hnone in H; cbn [mapM] in H; [|discriminate].
    injection H as H. cbn [rbind pure try_except run_from snd]. now rewrite <- H. }
  split; [exact E|].
  unfold Client.run_github_agent. rewrite Hq, Hp. cbn [rbind].
  destruct arguments as [|kv arguments]; [contradiction|].
  cbn [String.eqb Ascii.eqb Bool.eqb truthy negb orb].
  unfold hosted at 1.
  cbn [Client.create_github_session Client.server_exists negb].
  unfold hosted. cbn [Client.serve]. rewrite Hacc, E. reflexivity.
Qed.

Lemma only_pull_requests_is_no_data_witness :
  outcome (fun _ _ => Ok (mkResponse 200 (Ok (VList [docs_pull]))))
    (Server.handle_tool_call None (fun _ => Ok EmptyString) "list_issues"
       (VDict [("repo", VStr "octocat/hello"); ("state", VStr "all")]))
  = Ok [Server.text_content ""] /\
  Client.run_github_agent
    (hosted None (fun _ => Ok EmptyString) (fun _ _ => EmptyString)
       (fun _ _ => Ok (mkResponse 200 (Ok (VList [docs_pull])))))
    "list_issues octocat/hello all"
  = Ok (Client.error_response (VStr "No data returned")).
Proof.
  apply (only_pull_requests_is_no_data None (fun _ => Ok EmptyString)
           (fun _ _ => EmptyString)
           (fun _ _ => Ok (mkResponse 200 (Ok (VList [docs_pull]))))
           "list_issues octocat/hello all"
           [("repo", VStr "octocat/hello"); ("state", VStr "all")] [docs_pull]).
  - reflexivity.
  - reflexivity.
  - reflexivity.
  - discriminate.
  - repeat constructor.
  - reflexivity.
  - discriminate.
Defined.
